(** * Boss platform generators: a shallow embedding of the Blender scripts

    The scripts under [blender_scripts/] drive Blender through its Python
    interface.  This development embeds the geometry-producing parts of
    [boss_platform.py], [boss_platform_v3.py], [boss_platform_v4.py] and
    [boss_platform_v5.py] and proves properties of the layout arithmetic
    and of the sequence of requests sent to the host.

    Modelling conventions.
    - Python floats are idealised as real numbers: [math.cos], [math.sin],
      [math.sqrt], [math.pi] and [math.tau] are [cos], [sin], [sqrt], [PI]
      and [2 * PI].  [math.atan2] and the geometry kernel of the host are
      fields of the record [Host.kernel], as is the output sequence of
      Python's pseudo random generator for each seed.
    - The host scene is explicit state ([world]); every builder is a
      function from a world to a value, a new world and the list of host
      requests it emitted.
    - Operators act on what the host makes them act on: a new primitive
      becomes the active and the only selected object,
      [transform_apply] and [shade_smooth] act on the selection, and
      [modifier_apply] on the active object.
    - A name assigned to an object is recorded as a request only, since
      the host alters names to keep them unique.
    - A subscript that can raise ([IndexError] of a list, [KeyError] of a
      dict read at a key passed in) returns the exception as a value.
    - Keyword arguments with defaults are passed explicitly at call sites.

    The two converters [client/convert_fbx_to_glb.py] and
    [client/public/assets/convert_fbx_to_glb.py] are embedded as functions
    from the command line to the requests sent and the way the run ends,
    over a host that may refuse an operator call. *)

From Stdlib Require Import Reals Lra Lia List String ZArith Bool Arith.
From Stdlib Require Import DecimalString.
Import ListNotations.
Open Scope string_scope.
Open Scope list_scope.
Open Scope R_scope.

Set Implicit Arguments.

(** ** Vectors *)

Definition vec2 : Type := R * R.
Definition vec3 : Type := R * R * R.

Definition vx (v : vec3) : R := fst (fst v).
Definition vy (v : vec3) : R := snd (fst v).
Definition vz (v : vec3) : R := snd v.

(** [math.dist] on pairs and on triples. *)
Definition dist2 (p q : vec2) : R :=
  sqrt ((fst p - fst q) * (fst p - fst q) + (snd p - snd q) * (snd p - snd q)).

Definition dist3 (p q : vec3) : R :=
  sqrt ((vx p - vx q) * (vx p - vx q) + (vy p - vy q) * (vy p - vy q)
        + (vz p - vz q) * (vz p - vz q)).

(** Planar distance from the origin, [math.sqrt(x*x + y*y)]. *)
Definition planar_norm (x y : R) : R := sqrt (x * x + y * y).

(** [range(n)] *)
Definition range (n : nat) : list nat := seq 0 n.

(** Decimal rendering of a loop index inside an f-string. *)
Definition str_of_nat (n : nat) : string := NilEmpty.string_of_uint (Nat.to_uint n).

(** Python exceptions the embedded functions can raise.  A function that
    can raise returns [inl e] where Python raises [e]. *)
Inductive exn : Type :=
| IndexError
| KeyError (key : string).

(** [l[i]] for a list and a non-negative index, [None] where Python raises
    [IndexError]. *)
Definition subscript {A : Type} (l : list A) (i : nat) : option A := nth_error l i.

(** ** The host: primitives, meshes, objects *)

Module Host.

(** Arguments of the [bpy.ops.mesh.primitive_*_add] operators.  A count
    left to the operator's default is [None]. *)
Inductive primitive : Type :=
| Cylinder (vertices : option nat) (radius depth : R)
| Cone (vertices : option nat) (radius1 radius2 depth : R)
| UVSphere (segments ring_count : option nat) (radius : R)
| IcoSphere (subdivisions : option nat) (radius : R)
| Torus (major_radius minor_radius : R) (major_segments minor_segments : nat).

(** How a mesh was obtained from primitives; this fixes its topology. *)
Inductive topology : Type :=
| Prim (p : primitive)
| Bevelled (width : R) (segments : nat) (t : topology)
| Difference (a b : topology).

Record mesh : Type := { topo : topology; verts : list vec3 }.

Record material : Type := {
  mat_name : string;
  base_color : vec3;
  roughness : R;
  metallic : R;
  emission : option (vec3 * R)
}.

Definition handle : Type := nat.

Inductive modifier : Type :=
| BEVEL (width : R) (segments : nat)
| BOOLEAN_DIFFERENCE (operand : handle).

(** An object of the scene.  The name of an object is the host's: it
    keeps names unique and stores [s] with a numeric suffix when [s] is
    taken, so the name is not part of the object here; an assignment to
    [obj.name] is recorded as the request [EvSetName]. *)
Record object : Type := {
  oid : handle;
  data : option mesh;          (* [None] for an empty *)
  location : vec3;
  rotation_euler : vec3;
  scale : vec3;
  modifiers : list (string * modifier);
  materials : list material;
  parent : option handle
}.

(** Requests sent to the host, in program order.  The operators that act
    on the selection carry the handles they acted on. *)
Inductive event : Type :=
| EvSelectAll
| EvDelete
| EvPrimitiveAdd (p : primitive) (loc rot : vec3)
| EvEmptyAdd (loc : vec3)
| EvSetName (target : handle) (s : string)
| EvModifierNew (target : handle) (mname : string) (m : modifier)
| EvModifierApply (target : handle) (mname : string)
| EvObjectsRemove (target : handle)
| EvTransformApply (targets : list handle)
| EvMaterialsAppend (target : handle) (m : material)
| EvShadeSmooth (targets : list handle).

(** The host scene together with the state of Python's [random] module:
    [active] is [bpy.context.view_layer.objects.active], [selected] the
    handles of the selected objects, [rng_seq] the sequence the generator
    was last seeded to produce and [rng_pos] the number of draws consumed
    from it. *)
Record world : Type := {
  objects : list object;
  active : option handle;
  selected : list handle;
  rng_seq : nat -> R;
  rng_pos : nat
}.

(** What the scripts cannot decide by themselves. *)
Record kernel : Type := {
  primitive_verts : primitive -> list vec3;
  bevel_verts : R -> nat -> mesh -> list vec3;
  difference_verts : object -> object -> list vec3;
  atan2 : R -> R -> R;
  format_1f : R -> string;
  mersenne : Z -> nat -> R
}.

(** *** The builder monad: state and emitted requests *)

Record result (A : Type) : Type := {
  value : A;
  state : world;
  emitted : list event
}.

Definition M (A : Type) : Type := world -> result A.

Definition ret {A : Type} (a : A) : M A :=
  fun w => {| value := a; state := w; emitted := [] |}.

Definition bind {A B : Type} (m : M A) (f : A -> M B) : M B :=
  fun w =>
    let r1 := m w in
    let r2 := f (value r1) (state r1) in
    {| value := value r2; state := state r2;
       emitted := emitted r1 ++ emitted r2 |}.

(** A result with requests emitted before it. *)
Definition prepend {A : Type} (e : list event) (r : result A) : result A :=
  {| value := value r; state := state r; emitted := e ++ emitted r |}.

Definition emit (e : event) : M unit :=
  fun w => {| value := tt; state := w; emitted := [e] |}.

Declare Scope builder_scope.
Delimit Scope builder_scope with builder.
Notation "x <- m ;; k" := (bind m (fun x => k))
  (at level 61, m at next level, right associativity) : builder_scope.
Notation "m ;; k" := (bind m (fun _ => k))
  (at level 61, right associativity) : builder_scope.
Open Scope builder_scope.

(** [for x in l: acc = body(acc, x)] *)
Fixpoint for_in {A B : Type} (l : list A) (acc : B) (body : B -> A -> M B) : M B :=
  match l with
  | [] => ret acc
  | x :: l' => acc' <- body acc x ;; for_in l' acc' body
  end.

(** The same loop with a body that can raise: once an iteration has
    raised, the remaining ones do not run. *)
Definition for_in_try {A B : Type} (l : list A) (acc : B)
    (body : B -> A -> M (exn + B)) : M (exn + B) :=
  for_in l (inr acc) (fun r x =>
    match r with
    | inl e => ret (inl e)
    | inr acc => body acc x
    end).

(** The objects a loop leaves when each iteration adds one: iteration [x]
    of [l] adds [mk h pos x], with [h] the next free handle and [pos] the
    number of draws consumed so far, [draws] per iteration. *)
Fixpoint spawned {A : Type} (mk : handle -> nat -> A -> object) (draws : nat)
    (l : list A) (h : handle) (pos : nat) : list object :=
  match l with
  | [] => []
  | x :: l' => mk h pos x :: spawned mk draws l' (S h) (pos + draws)
  end.

(** *** Scene bookkeeping *)

(** A handle no live object carries. *)
Definition fresh (objs : list object) : handle :=
  S (list_max (map oid objs)).

Definition update (h : handle) (f : object -> object) (objs : list object)
  : list object :=
  map (fun o => if Nat.eqb (oid o) h then f o else o) objs.

Definition lookup (h : handle) (objs : list object) : option object :=
  find (fun o => Nat.eqb (oid o) h) objs.

Definition modify (h : handle) (f : object -> object) : M unit :=
  fun w => {| value := tt;
              state := {| objects := update h f (objects w);
                          active := active w;
                          selected := selected w;
                          rng_seq := rng_seq w;
                          rng_pos := rng_pos w |};
              emitted := [] |}.

Definition with_data (d : option mesh) (o : object) : object :=
  {| oid := oid o; data := d; location := location o;
     rotation_euler := rotation_euler o; scale := scale o;
     modifiers := modifiers o; materials := materials o; parent := parent o |}.

Definition with_location (l : vec3) (o : object) : object :=
  {| oid := oid o; data := data o; location := l;
     rotation_euler := rotation_euler o; scale := scale o;
     modifiers := modifiers o; materials := materials o; parent := parent o |}.

Definition with_rotation (r : vec3) (o : object) : object :=
  {| oid := oid o; data := data o; location := location o;
     rotation_euler := r; scale := scale o;
     modifiers := modifiers o; materials := materials o; parent := parent o |}.

Definition with_scale (s : vec3) (o : object) : object :=
  {| oid := oid o; data := data o; location := location o;
     rotation_euler := rotation_euler o; scale := s;
     modifiers := modifiers o; materials := materials o; parent := parent o |}.

Definition with_modifiers (ms : list (string * modifier)) (o : object) : object :=
  {| oid := oid o; data := data o; location := location o;
     rotation_euler := rotation_euler o; scale := scale o;
     modifiers := ms; materials := materials o; parent := parent o |}.

Definition with_materials (ms : list material) (o : object) : object :=
  {| oid := oid o; data := data o; location := location o;
     rotation_euler := rotation_euler o; scale := scale o;
     modifiers := modifiers o; materials := ms; parent := parent o |}.

Definition with_parent (p : option handle) (o : object) : object :=
  {| oid := oid o; data := data o; location := location o;
     rotation_euler := rotation_euler o; scale := scale o;
     modifiers := modifiers o; materials := materials o; parent := p |}.

(** The value of a dict subscript [d[key]] for a lookup result: the
    material when the dict has the key.  For a key outside the dict Python
    raises [KeyError] and there is no value. *)
Definition entry (o : option material) : Type :=
  match o with
  | Some _ => material
  | None => unit
  end.

Definition the_entry (o : option material) : entry o :=
  match o with
  | Some m => m
  | None => tt
  end.

(** Every object of [objs] carries a handle below [h]. *)
Definition older (h : handle) (objs : list object) : Prop :=
  Forall (fun o => (oid o < h)%nat) objs.

(** Reading the scene by handle. *)
Definition is_mesh_in (objs : list object) (h : handle) : bool :=
  match lookup h objs with
  | Some o => match data o with Some _ => true | None => false end
  | None => false
  end.

Definition topo_of (objs : list object) (h : handle) : option topology :=
  match lookup h objs with
  | Some o => option_map topo (data o)
  | None => None
  end.

Definition verts_of (objs : list object) (h : handle) : option (list vec3) :=
  match lookup h objs with
  | Some o => option_map verts (data o)
  | None => None
  end.

Definition location_of (objs : list object) (h : handle) : option vec3 :=
  option_map location (lookup h objs).

(** The caps of a cylinder of depth [depth] placed at [loc]. *)
Definition top_cap (loc : vec3) (depth : R) : R := vz loc + depth / 2.
Definition bottom_cap (loc : vec3) (depth : R) : R := vz loc - depth / 2.

(** *** Object transforms *)

Definition scale_vert (s v : vec3) : vec3 :=
  (vx v * vx s, vy v * vy s, vz v * vz s).

(** Rotations about the three axes. *)
Definition rot_x (a : R) (v : vec3) : vec3 :=
  (vx v, vy v * cos a - vz v * sin a, vy v * sin a + vz v * cos a).

Definition rot_y (a : R) (v : vec3) : vec3 :=
  (vx v * cos a + vz v * sin a, vy v, - vx v * sin a + vz v * cos a).

Definition rot_z (a : R) (v : vec3) : vec3 :=
  (vx v * cos a - vy v * sin a, vx v * sin a + vy v * cos a, vz v).

(** [rotation_euler] in the host's default order XYZ: about [x] first,
    then about [y], then about [z]. *)
Definition euler_xyz (rot : vec3) (v : vec3) : vec3 :=
  rot_z (vz rot) (rot_y (vy rot) (rot_x (vx rot) v)).

Definition translate (loc v : vec3) : vec3 :=
  (vx loc + vx v, vy loc + vy v, vz loc + vz v).

(** Where a point [v] of the mesh of an object with the transform
    [loc], [rot], [scl] lies in the scene: scaled, then rotated, then
    moved. *)
Definition place (loc rot scl : vec3) (v : vec3) : vec3 :=
  translate loc (euler_xyz rot (scale_vert scl v)).

(** *** Host operators *)

Section Operators.

Variable K : kernel.

Definition new_object (h : handle) (d : option mesh) (loc rot : vec3) : object :=
  {| oid := h; data := d; location := loc;
     rotation_euler := rot; scale := (1, 1, 1);
     modifiers := []; materials := []; parent := None |}.

Definition set_objects (objs : list object) (act : option handle)
    (sel : list handle) (w : world) : world :=
  {| objects := objs; active := act; selected := sel;
     rng_seq := rng_seq w; rng_pos := rng_pos w |}.

(** [bpy.ops.mesh.primitive_*_add(...)] followed by the read of
    [bpy.context.object]: the new object becomes the active one and the
    only selected one, and its handle is returned. *)
Definition primitive_add (p : primitive) (loc rot : vec3) : M handle :=
  fun w =>
    let h := fresh (objects w) in
    let m := {| topo := Prim p; verts := primitive_verts K p |} in
    {| value := h;
       state := set_objects (objects w ++ [new_object h (Some m) loc rot])
                  (Some h) [h] w;
       emitted := [EvPrimitiveAdd p loc rot] |}.

(** [bpy.ops.object.empty_add(type='PLAIN_AXES', location=loc)] *)
Definition empty_add (loc : vec3) : M handle :=
  fun w =>
    let h := fresh (objects w) in
    {| value := h;
       state := set_objects (objects w ++ [new_object h None loc (0, 0, 0)])
                  (Some h) [h] w;
       emitted := [EvEmptyAdd loc] |}.

(** [bpy.context.view_layer.objects.active = obj]; the selection stays. *)
Definition set_active (h : handle) : M unit :=
  fun w => {| value := tt;
              state := set_objects (objects w) (Some h) (selected w) w;
              emitted := [] |}.

(** [obj.name = s] *)
Definition set_name (h : handle) (s : string) : M unit :=
  emit (EvSetName h s).

(** [obj.rotation_euler.z = a] *)
Definition set_rotation_z (h : handle) (a : R) : M unit :=
  modify h (fun o =>
    with_rotation (vx (rotation_euler o), vy (rotation_euler o), a) o).

(** [obj.rotation_euler.x = a] and [obj.rotation_euler.y = a] *)
Definition set_rotation_x (h : handle) (a : R) : M unit :=
  modify h (fun o =>
    with_rotation (a, vy (rotation_euler o), vz (rotation_euler o)) o).

Definition set_rotation_y (h : handle) (a : R) : M unit :=
  modify h (fun o =>
    with_rotation (vx (rotation_euler o), a, vz (rotation_euler o)) o).

(** [obj.scale = s] *)
Definition set_scale (h : handle) (s : vec3) : M unit :=
  modify h (with_scale s).

(** [obj.scale[2] *= f] *)
Definition mul_scale_z (h : handle) (f : R) : M unit :=
  modify h (fun o => with_scale (vx (scale o), vy (scale o), vz (scale o) * f) o).

(** [obj.modifiers.new(name, type)] with the attributes set on it. *)
Definition modifiers_new (h : handle) (mname : string) (m : modifier) : M unit :=
  modify h (fun o => with_modifiers (modifiers o ++ [(mname, m)]) o) ;;
  emit (EvModifierNew h mname m).

Definition find_modifier (mname : string) (ms : list (string * modifier))
  : option modifier :=
  option_map snd (find (fun nm => String.eqb (fst nm) mname) ms).

Definition drop_modifier (mname : string) (ms : list (string * modifier))
  : list (string * modifier) :=
  filter (fun nm => negb (String.eqb (fst nm) mname)) ms.

(** The mesh a modifier evaluates to; the vertex buffer is the kernel's. *)
Definition evaluate (objs : list object) (o : object) (m : modifier)
  : option mesh :=
  match data o with
  | None => None
  | Some d =>
    match m with
    | BEVEL wd sg =>
        Some {| topo := Bevelled wd sg (topo d); verts := bevel_verts K wd sg d |}
    | BOOLEAN_DIFFERENCE h =>
        match lookup h objs with
        | Some b =>
          match data b with
          | Some db => Some {| topo := Difference (topo d) (topo db);
                               verts := difference_verts K o b |}
          | None => Some d
          end
        | None => Some d
        end
    end
  end.

(** [bpy.ops.object.modifier_apply(modifier=mname)]: evaluates the named
    modifier of the active object into its mesh and drops it from the
    stack. *)
Definition modifier_apply (mname : string) : M unit :=
  fun w =>
    let objs :=
      match active w with
      | None => objects w
      | Some h =>
        update h (fun o =>
          match find_modifier mname (modifiers o) with
          | Some m => with_modifiers (drop_modifier mname (modifiers o))
                        (with_data (evaluate (objects w) o m) o)
          | None => o
          end) (objects w)
      end in
    {| value := tt; state := set_objects objs (active w) (selected w) w;
       emitted := match active w with
                  | Some h => [EvModifierApply h mname]
                  | None => []
                  end |}.

(** [bpy.data.objects.remove(obj, do_unlink=True)] *)
Definition objects_remove (h : handle) : M unit :=
  fun w =>
    {| value := tt;
       state := set_objects
                  (filter (fun o => negb (Nat.eqb (oid o) h)) (objects w))
                  (match active w with
                   | Some a => if Nat.eqb a h then None else Some a
                   | None => None
                   end)
                  (filter (fun s => negb (Nat.eqb s h)) (selected w)) w;
       emitted := [EvObjectsRemove h] |}.

(** [obj.data.materials.append(m)] *)
Definition materials_append (h : handle) (m : material) : M unit :=
  modify h (fun o => with_materials (materials o ++ [m]) o) ;;
  emit (EvMaterialsAppend h m).

(** What [transform_apply] does to one object: the mesh takes the
    object's transform and the object is left at the origin, unrotated
    and unscaled. *)
Definition baked (o : object) : object :=
  with_scale (1, 1, 1)
    (with_rotation (0, 0, 0)
       (with_location (0, 0, 0)
          (with_data
             (option_map
                (fun d => {| topo := topo d;
                             verts := map (place (location o) (rotation_euler o)
                                             (scale o)) (verts d) |})
                (data o)) o))).

(** [bpy.ops.object.transform_apply(scale=True)].  The operator acts on
    the selected objects, and its [location] and [rotation] arguments
    default to [True]: location, rotation and scale are all applied. *)
Definition transform_apply : M unit :=
  fun w =>
    {| value := tt;
       state := set_objects
                  (fold_left (fun objs h => update h baked objs)
                     (selected w) (objects w))
                  (active w) (selected w) w;
       emitted := [EvTransformApply (selected w)] |}.

(** [bpy.ops.object.shade_smooth()]: the operator acts on the selected
    objects, not on the active one.  Shading normals are the host's; only
    the request and the meshes it reaches are recorded. *)
Definition shade_smooth : M unit :=
  fun w =>
    {| value := tt; state := w;
       emitted := [EvShadeSmooth
                     (filter (is_mesh_in (objects w)) (selected w))] |}.

(** [obj.parent = p] *)
Definition set_parent (h p : handle) : M unit :=
  modify h (with_parent (Some p)).

(** [bm.from_mesh(obj.data)], a loop over [bm.verts], [bm.to_mesh(obj.data)] *)
Definition map_verts (h : handle) (f : vec3 -> vec3) : M unit :=
  modify h (fun o =>
    with_data (option_map (fun d => {| topo := topo d; verts := map f (verts d) |})
                          (data o)) o).

(** [bpy.ops.object.select_all(action='SELECT')] *)
Definition select_all : M unit :=
  fun w =>
    {| value := tt;
       state := set_objects (objects w) (active w) (map oid (objects w)) w;
       emitted := [EvSelectAll] |}.

(** [bpy.ops.object.delete(use_global=False)]: the selected objects
    leave the scene; an active object that is deleted is active no
    more. *)
Definition delete : M unit :=
  fun w =>
    let kept :=
      filter (fun o => negb (existsb (Nat.eqb (oid o)) (selected w))) (objects w) in
    {| value := tt;
       state := set_objects kept
                  (match active w with
                   | Some a => if existsb (Nat.eqb a) (map oid kept)
                               then Some a else None
                   | None => None
                   end) [] w;
       emitted := [EvDelete] |}.

(** [cleanup()]: select everything and delete it.  Orphan data blocks are
    not part of the model: a mesh lives and dies with its object. *)
Definition cleanup : M unit :=
  select_all ;; delete.

(** *** Shapes of results *)

(** A primitive as [primitive_add] leaves it, with its rotation set. *)
Definition placed (h : handle) (p : primitive) (loc rot : vec3) : object :=
  {| oid := h;
     data := Some {| topo := Prim p; verts := primitive_verts K p |};
     location := loc; rotation_euler := rot; scale := (1, 1, 1);
     modifiers := []; materials := []; parent := None |}.

(** The ring left by a boolean difference of [outer] by [inner], with one
    material slot. *)
Definition carved (outer inner : object) (topo_outer topo_inner : topology)
    (mat : material) : object :=
  {| oid := oid outer;
     data := Some {| topo := Difference topo_outer topo_inner;
                     verts := difference_verts K
                                (with_modifiers
                                   [("Boolean", BOOLEAN_DIFFERENCE (oid inner))]
                                   outer)
                                inner |};
     location := location outer; rotation_euler := rotation_euler outer;
     scale := scale outer; modifiers := []; materials := [mat];
     parent := parent outer |}.

(** *** Python's [random] module *)

(** [random.seed(k)] *)
Definition seed (k : Z) : M unit :=
  fun w => {| value := tt;
              state := {| objects := objects w; active := active w;
                          selected := selected w;
                          rng_seq := mersenne K k; rng_pos := 0 |};
              emitted := [] |}.

(** [random.random()] *)
Definition random : M R :=
  fun w => {| value := rng_seq w (rng_pos w);
              state := {| objects := objects w; active := active w;
                          selected := selected w;
                          rng_seq := rng_seq w; rng_pos := S (rng_pos w) |};
              emitted := [] |}.

(** [random.uniform(a, b)], which is [a + (b - a) * random()] *)
Definition uniform (a b : R) : M R :=
  u <- random ;; ret (a + (b - a) * u).

End Operators.

End Host.

Import Host.

(** ** boss_platform_v5.py *)

Module V5.

(** The module constants of the script and the seed it passes to
    [random.seed]. *)
Record ParameterSet : Type := {
  NUM_SIDES : nat;
  PLATFORM_RADIUS : R;
  PLATFORM_HEIGHT : R;
  PILLAR_HEIGHT : R;
  PILLAR_RADIUS : R;
  SEED : Z
}.

(** The values written in the script. *)
Definition canonical : ParameterSet :=
  {| NUM_SIDES := 6;
     PLATFORM_RADIUS := 7.0;
     PLATFORM_HEIGHT := 0.5;
     PILLAR_HEIGHT := 3.0;
     PILLAR_RADIUS := 0.35;
     SEED := 42 |}.

(** [make_mat]: the shader nodes are the host's; the channels are kept. *)
Definition make_mat (nm : string) (color : vec3) (rough metal : R)
    (emission_color : option vec3) (emission_strength : R) : material :=
  {| mat_name := nm; base_color := color; roughness := rough;
     metallic := metal;
     emission := match emission_color with
                 | Some e => Some (e, emission_strength)
                 | None => None
                 end |}.

Definition mats_table : list (string * material) :=
  [ ("floor", make_mat "Floor_Stone" (0.35, 0.32, 0.38) 0.85 0.0 None 0.0);
    ("obsidian", make_mat "Obsidian" (0.25, 0.22, 0.30) 0.3 0.1 None 0.0);
    ("metal", make_mat "Dark_Metal" (0.45, 0.35, 0.25) 0.4 0.8 None 0.0);
    ("ritual", make_mat "Ritual_Glow" (0.9, 0.2, 0.1) 0.3 0.0
                 (Some (1.0, 0.15, 0.05)) 2.0);
    ("fire", make_mat "Fire" (1.0, 0.5, 0.15) 0.5 0.0
               (Some (1.0, 0.4, 0.1)) 2.5);
    ("crystal", make_mat "Crystal" (0.6, 0.3, 0.9) 0.2 0.0
                  (Some (0.5, 0.2, 1.0)) 2.0);
    ("altar", make_mat "Altar_Stone" (0.2, 0.15, 0.22) 0.7 0.0 None 0.0);
    ("spike", make_mat "Spike" (0.18, 0.15, 0.2) 0.8 0.0 None 0.0);
    ("bone", make_mat "Bone" (0.7, 0.65, 0.55) 0.6 0.0 None 0.0);
    ("soul", make_mat "Soul_Orb" (1.0, 0.4, 0.1) 0.2 0.0
               (Some (1.0, 0.35, 0.1)) 3.0) ].

(** The dict lookup behind [mats[key]]. *)
Definition mats_get (key : string) : option material :=
  option_map snd (find (fun kv => String.eqb (fst kv) key) mats_table).

(** [mats[key]] at a key written in the script. *)
Definition mats (key : string) : entry (mats_get key) :=
  the_entry (mats_get key).

Section Builders.

Variable K : kernel.
Variable P : ParameterSet.

Definition no_rotation : vec3 := (0, 0, 0).

Definition create_floor : M handle :=
  obj <- primitive_add K
           (Cylinder (Some 6%nat) (PLATFORM_RADIUS P) (PLATFORM_HEIGHT P))
           (0, 0, - PLATFORM_HEIGHT P / 2) no_rotation ;;
  set_name obj "Floor" ;;
  set_rotation_z obj (PI / 6) ;;
  modifiers_new obj "Bevel" (BEVEL 0.08 2) ;;
  modifier_apply K "Bevel" ;;
  materials_append obj (mats "floor") ;;
  ret obj.

Definition create_ritual_ring (radius thickness : R) : M handle :=
  obj <- primitive_add K (Torus radius thickness 48 12) (0, 0, 0.02) no_rotation ;;
  set_name obj ("Ritual_Ring_" ++ format_1f K radius) ;;
  materials_append obj (mats "ritual") ;;
  ret obj.

(** The body of the taper loop of [create_pillar], for one vertex. *)
Definition taper_vertex (v : vec3) : vec3 :=
  if Rlt_dec 0 (vz v) then
    let t := vz v / PILLAR_HEIGHT P in
    let scale := 1.0 - 0.15 * t in
    (vx v * scale, vy v * scale, vz v)
  else v.

Definition create_pillar (x y : R) (index : nat) : M (list handle) :=
  let parts := [] in
  (* Main shaft *)
  shaft <- primitive_add K
             (Cylinder (Some 12%nat) (PILLAR_RADIUS P) (PILLAR_HEIGHT P))
             (x, y, PILLAR_HEIGHT P / 2) no_rotation ;;
  set_name shaft ("Pillar_" ++ str_of_nat index) ;;
  (* Taper top slightly *)
  map_verts shaft taper_vertex ;;
  materials_append shaft (mats "obsidian") ;;
  let parts := parts ++ [shaft] in
  (* Base (wider) *)
  base <- primitive_add K
            (Cylinder (Some 12%nat) (PILLAR_RADIUS P * 1.5) 0.2)
            (x, y, 0.1) no_rotation ;;
  set_name base ("Pillar_Base_" ++ str_of_nat index) ;;
  materials_append base (mats "obsidian") ;;
  let parts := parts ++ [base] in
  (* Capital (top ring) *)
  cap <- primitive_add K
           (Cylinder (Some 12%nat) (PILLAR_RADIUS P * 1.2) 0.12)
           (x, y, PILLAR_HEIGHT P - 0.06) no_rotation ;;
  set_name cap ("Pillar_Cap_" ++ str_of_nat index) ;;
  materials_append cap (mats "obsidian") ;;
  let parts := parts ++ [cap] in
  (* Brazier bowl *)
  brazier <- primitive_add K (Cone (Some 12%nat) 0.3 0.2 0.2)
               (x, y, PILLAR_HEIGHT P + 0.1) no_rotation ;;
  set_name brazier ("Brazier_" ++ str_of_nat index) ;;
  materials_append brazier (mats "metal") ;;
  let parts := parts ++ [brazier] in
  (* Fire in brazier *)
  fire <- primitive_add K (UVSphere (Some 12%nat) (Some 8%nat) 0.15)
            (x, y, PILLAR_HEIGHT P + 0.25) no_rotation ;;
  set_name fire ("Fire_" ++ str_of_nat index) ;;
  materials_append fire (mats "fire") ;;
  let parts := parts ++ [fire] in
  (* Floating crystal above *)
  crystal <- primitive_add K (IcoSphere (Some 2%nat) 0.12)
               (x, y, PILLAR_HEIGHT P + 0.55) no_rotation ;;
  set_name crystal ("Crystal_" ++ str_of_nat index) ;;
  set_scale crystal (0.7, 0.7, 1.4) ;;
  transform_apply ;;
  materials_append crystal (mats "crystal") ;;
  let parts := parts ++ [crystal] in
  ret parts.

Definition create_altar : M (list handle) :=
  let parts := [] in
  (* Base tier (hex) *)
  base <- primitive_add K (Cylinder (Some 6%nat) 1.2 0.25) (0, 0, 0.125) no_rotation ;;
  set_name base "Altar_Base" ;;
  set_rotation_z base (PI / 6) ;;
  materials_append base (mats "obsidian") ;;
  let parts := parts ++ [base] in
  (* Middle tier *)
  mid <- primitive_add K (Cylinder (Some 6%nat) 0.8 0.2) (0, 0, 0.35) no_rotation ;;
  set_name mid "Altar_Mid" ;;
  set_rotation_z mid (PI / 6) ;;
  materials_append mid (mats "obsidian") ;;
  let parts := parts ++ [mid] in
  (* Top platform *)
  top <- primitive_add K (Cylinder (Some 6%nat) 0.5 0.1) (0, 0, 0.5) no_rotation ;;
  set_name top "Altar_Top" ;;
  set_rotation_z top (PI / 6) ;;
  materials_append top (mats "altar") ;;
  let parts := parts ++ [top] in
  (* Fire pillar *)
  fire_pillar <- primitive_add K (Cylinder (Some 16%nat) 0.12 1.2) (0, 0, 1.15) no_rotation ;;
  set_name fire_pillar "Fire_Pillar" ;;
  materials_append fire_pillar (mats "fire") ;;
  let parts := parts ++ [fire_pillar] in
  (* Soul orb at top *)
  orb <- primitive_add K (UVSphere (Some 16%nat) (Some 12%nat) 0.2) (0, 0, 1.9) no_rotation ;;
  set_name orb "Soul_Orb" ;;
  materials_append orb (mats "soul") ;;
  let parts := parts ++ [orb] in
  ret parts.

(** The two ends of hexagon edge [edge], as [create_edge_spikes] computes
    them: [(x1, y1)] and [(x2, y2)]. *)
Definition edge_start (edge : nat) : vec2 :=
  let angle1 := PI / 6 + INR edge * PI / 3 in
  (PLATFORM_RADIUS P * cos angle1, PLATFORM_RADIUS P * sin angle1).

Definition edge_end (edge : nat) : vec2 :=
  let angle2 := PI / 6 + INR (edge + 1) * PI / 3 in
  (PLATFORM_RADIUS P * cos angle2, PLATFORM_RADIUS P * sin angle2).

(** [t = (i + 1) / 4] *)
Definition spike_t (i : nat) : R := INR (i + 1) / 4.

(** The point on the edge before it is pulled inward. *)
Definition spike_on_edge (edge i : nat) : vec2 :=
  let '(x1, y1) := edge_start edge in
  let '(x2, y2) := edge_end edge in
  let t := spike_t i in
  (x1 + (x2 - x1) * t, y1 + (y2 - y1) * t).

(** "Pull slightly inward" *)
Definition pull_inward (p : vec2) : vec2 :=
  let '(x, y) := p in
  let dist := sqrt (x * x + y * y) in
  (x * (dist - 0.3) / dist, y * (dist - 0.3) / dist).

Definition spike_position (edge i : nat) : vec2 :=
  pull_inward (spike_on_edge edge i).

Definition create_edge_spikes : M (list handle) :=
  for_in (range 6) [] (fun spikes edge =>
    (* 3 spikes per edge *)
    for_in (range 3) spikes (fun spikes i =>
      let '(x, y) := spike_position edge i in
      spike <- primitive_add K (Cone (Some 6%nat) 0.1 0.0 0.4) (x, y, 0.2) no_rotation ;;
      set_name spike ("Spike_" ++ str_of_nat edge ++ "_" ++ str_of_nat i) ;;
      materials_append spike (mats "spike") ;;
      ret (spikes ++ [spike]))).

Definition create_skulls (count : nat) : M (list handle) :=
  for_in (range count) [] (fun skulls i =>
    angle <- uniform 0 (2 * PI) ;;
    r <- uniform 2.5 5.0 ;;
    let x := r * cos angle in
    let y := r * sin angle in
    skull <- primitive_add K (IcoSphere (Some 2%nat) 0.08) (x, y, 0.05) no_rotation ;;
    set_name skull ("Skull_" ++ str_of_nat i) ;;
    set_scale skull (1.0, 0.8, 0.85) ;;
    transform_apply ;;
    materials_append skull (mats "bone") ;;
    ret (skulls ++ [skull])).

Definition create_demon_horns : M (list handle) :=
  for_in (range 6) [] (fun horns i =>
    let angle := INR i * PI / 3 + PI / 6 in
    let r := 0.9 in
    let x := r * cos angle in
    let y := r * sin angle in
    horn <- primitive_add K (Cone (Some 6%nat) 0.06 0.0 0.35) (x, y, 0.55) no_rotation ;;
    set_name horn ("Horn_" ++ str_of_nat i) ;;
    (* Tilt outward *)
    set_rotation_x horn (0.4 * sin angle) ;;
    set_rotation_y horn (- 0.4 * cos angle) ;;
    materials_append horn (mats "spike") ;;
    ret (horns ++ [horn])).

(** The anchor of pillar [i] in the placement loop of the build section. *)
Definition pillar_anchor (i : nat) : vec2 :=
  let angle := INR i * PI / 3 in
  let r := PLATFORM_RADIUS P - 0.7 in
  (r * cos angle, r * sin angle).

(** What the build section binds to its variables. *)
Record parts : Type := {
  floor : handle;
  rings : list handle;
  pillars : list handle;
  altar : list handle;
  spikes : list handle;
  skulls : list handle;
  horns : list handle;
  root : handle
}.

(** [for obj in bpy.context.scene.objects] visits the live objects. *)
Definition scene_objects : M (list handle) :=
  fun w => {| value := map oid (objects w); state := w; emitted := [] |}.

Definition is_mesh (h : handle) : M bool :=
  fun w => {| value := match lookup h (objects w) with
                       | Some o => match data o with Some _ => true | None => false end
                       | None => false
                       end;
              state := w; emitted := [] |}.

Definition parent_is_none (h : handle) : M bool :=
  fun w => {| value := match lookup h (objects w) with
                       | Some o => match parent o with Some _ => false | None => true end
                       | None => false
                       end;
              state := w; emitted := [] |}.

Definition build : M parts :=
  (* Floor *)
  floor <- create_floor ;;
  (* Ritual rings (3 concentric) *)
  ring1 <- create_ritual_ring 5.5 0.1 ;;
  ring2 <- create_ritual_ring 3.5 0.08 ;;
  ring3 <- create_ritual_ring 1.8 0.06 ;;
  (* Pillars at hex vertices *)
  pillars <- for_in (range 6) [] (fun pillars i =>
               let '(x, y) := pillar_anchor i in
               ps <- create_pillar x y i ;;
               ret (pillars ++ ps)) ;;
  (* Central altar *)
  altar <- create_altar ;;
  (* Edge spikes *)
  spikes <- create_edge_spikes ;;
  (* Scattered skulls *)
  skulls <- create_skulls 8 ;;
  (* Demon horns around altar *)
  horns <- create_demon_horns ;;
  (* Smooth shading *)
  objs <- scene_objects ;;
  for_in objs tt (fun _ obj =>
    m <- is_mesh obj ;;
    if m then set_active obj ;; shade_smooth else ret tt) ;;
  (* Parent everything to empty *)
  root <- empty_add (0, 0, 0) ;;
  set_name root "Boss_Platform_V5" ;;
  objs <- scene_objects ;;
  for_in objs tt (fun _ obj =>
    free <- parent_is_none obj ;;
    if negb (Nat.eqb obj root) && free then set_parent obj root else ret tt) ;;
  ret {| floor := floor; rings := [ring1; ring2; ring3]; pillars := pillars;
         altar := altar; spikes := spikes; skulls := skulls; horns := horns;
         root := root |}.

(** The script from its first statement: seed, clean the scene, build. *)
Definition script : M parts :=
  seed K (SEED P) ;;
  cleanup ;;
  build.

End Builders.

(** Every handle the build section keeps, except the root. *)
Definition all_parts (p : parts) : list handle :=
  floor p :: rings p ++ pillars p ++ altar p ++ spikes p ++ skulls p ++ horns p.

End V5.

(** ** boss_platform.py: the taper loop of [create_corner_pillar] *)

Module V1.

Definition PILLAR_HEIGHT : R := 2.5.

(** The body of the loop over [bm.verts], for one vertex. *)
Definition taper_vertex (v : vec3) : vec3 :=
  if Rlt_dec 0 (vz v) then
    let scale := 1.0 - (vz v / PILLAR_HEIGHT) * 0.3 in
    (vx v * scale, vy v * scale, vz v)
  else v.

Definition PLATFORM_SIZE : R := 14.0.
Definition PLATFORM_HEIGHT : R := 0.6.
Definition OUTER_RING_RADIUS : R := 6.0.
Definition MIDDLE_RING_RADIUS : R := 3.5.
Definition INNER_RING_RADIUS : R := 1.2.
Definition PILLAR_RADIUS : R := 6.5.

(** The position the build section hands to [create_corner_pillar] for
    corner [i]. *)
Definition corner_position (i : nat) : vec3 :=
  let angle := INR i / 4 * PI * 2 + PI / 4 in
  let x := cos angle * PILLAR_RADIUS in
  let y := sin angle * PILLAR_RADIUS in
  (x, y, 0).

(** The angle and the location of edge spike [i] in
    [create_edge_decorations]. *)
Definition decoration_angle (i : nat) : R := INR i / 24 * PI * 2.

Definition decoration_position (i : nat) : vec2 :=
  let angle := decoration_angle i in
  let radius := PLATFORM_SIZE / 2 + 0.2 in
  (cos angle * radius, sin angle * radius).

Section Builders.

Variable K : kernel.

(** The dictionary [create_materials()] returns; its entries are shader
    graphs authored on the host, and it has every key the builders
    below write. *)
Variable materials : string -> material.

Definition create_ritual_ring (radius_inner radius_outer height : R)
    (segments : nat) : M handle :=
  outer <- primitive_add K (Cylinder (Some segments) radius_outer height)
             (0, 0, height / 2) (0, 0, 0) ;;
  (* Create inner cylinder to boolean subtract *)
  inner <- primitive_add K (Cylinder (Some segments) radius_inner (height + 0.1))
             (0, 0, height / 2) (0, 0, 0) ;;
  (* Boolean difference *)
  modifiers_new outer "Boolean" (BOOLEAN_DIFFERENCE inner) ;;
  set_active outer ;;
  modifier_apply K "Boolean" ;;
  (* Delete inner cylinder *)
  objects_remove inner ;;
  materials_append outer (materials "ritual") ;;
  ret outer.

Definition create_hexagonal_floor : M handle :=
  floor <- primitive_add K
             (Cylinder (Some 6%nat) (PLATFORM_SIZE / 2 + 0.5) PLATFORM_HEIGHT)
             (0, 0, - PLATFORM_HEIGHT / 2) (0, 0, 0) ;;
  set_name floor "Boss_Floor_Base" ;;
  (* Add bevel modifier for smoother edges *)
  modifiers_new floor "Bevel" (BEVEL 0.1 3) ;;
  (* Apply modifier *)
  modifier_apply K "Bevel" ;;
  materials_append floor (materials "stone") ;;
  ret floor.

Definition create_edge_decorations : M (list handle) :=
  (* Small spikes/teeth around the edge *)
  for_in (range 24) [] (fun decorations i =>
    let '(x, y) := decoration_position i in
    spike <- primitive_add K (Cone (Some 4%nat) 0.15 0 0.4) (x, y, 0.2) (0, 0, 0) ;;
    set_name spike ("Edge_Spike_" ++ str_of_nat i) ;;
    set_rotation_z spike (decoration_angle i) ;;
    materials_append spike (materials "obsidian") ;;
    ret (decorations ++ [spike])).

End Builders.

End V1.

(** ** boss_platform_v3.py: rings, skull scatter, pillar positions *)

Module V3.

Definition PLATFORM_SIZE : R := 14.0.
Definition PLATFORM_RADIUS : R := PLATFORM_SIZE / 2.
Definition PLATFORM_HEIGHT : R := 0.6.
Definition OUTER_RING_RADIUS : R := 6.0.
Definition MIDDLE_RING_RADIUS : R := 3.5.
Definition INNER_RING_RADIUS : R := 1.4.
Definition PILLAR_HEIGHT : R := 2.5.
Definition NUM_SIDES : nat := 6.
Definition PILLAR_RADIUS_POS : R := PLATFORM_RADIUS - 0.5.

Definition hex_vertices (radius offset : R) : list vec2 :=
  map (fun i => (cos (offset + INR i * (2 * PI) / INR NUM_SIDES) * radius,
                 sin (offset + INR i * (2 * PI) / INR NUM_SIDES) * radius))
      (range NUM_SIDES).

(** [t = (j + 0.5) / 4] *)
Definition spike_t (j : nat) : R := (INR j + 0.5) / 4.

(** The location of spike [j] on the edge from [v1] to [v2] in
    [create_edge_spikes], before the cone is requested. *)
Definition spike_position (v1 v2 : vec2) (j : nat) : vec2 :=
  let edge_vec := (fst v2 - fst v1, snd v2 - snd v1) in
  let t := spike_t j in
  (fst v1 + fst edge_vec * t, snd v1 + snd edge_vec * t).

Section Builders.

Variable K : kernel.

(** The dictionary [create_materials()] returns; its entries are shader
    graphs authored on the host, and it has every key the builders
    below write. *)
Variable materials : string -> material.

Definition create_edge_spikes : M (exn + list handle) :=
  let verts := hex_vertices (PLATFORM_RADIUS + 0.05) (PI / 6) in
  for_in_try (range NUM_SIDES) [] (fun decos i =>
    match subscript verts i, subscript verts ((i + 1) mod NUM_SIDES) with
    | Some v1, Some v2 =>
      let edge_vec := (fst v2 - fst v1, snd v2 - snd v1) in
      let edge_angle := atan2 K (snd edge_vec) (fst edge_vec) in
      decos <- for_in (range 4) decos (fun decos j =>
        let '(x, y) := spike_position v1 v2 j in
        spike <- primitive_add K (Cone (Some 6%nat) 0.12 0 0.35) (x, y, 0.18)
                   (0, 0, 0) ;;
        set_rotation_z spike edge_angle ;;
        materials_append spike (materials "obsidian") ;;
        ret (decos ++ [spike])) ;;
      ret (inr decos)
    | _, _ => ret (inl IndexError)
    end).

Definition create_hex_ring (radius thickness height : R) : M handle :=
  outer <- primitive_add K (Cylinder (Some 6%nat) radius height)
             (0, 0, height / 2) (0, 0, 0) ;;
  set_rotation_z outer (PI / 6) ;;
  inner <- primitive_add K (Cylinder (Some 6%nat) (radius - thickness) (height + 0.1))
             (0, 0, height / 2) (0, 0, 0) ;;
  set_rotation_z inner (PI / 6) ;;
  modifiers_new outer "Boolean" (BOOLEAN_DIFFERENCE inner) ;;
  set_active outer ;;
  modifier_apply K "Boolean" ;;
  objects_remove inner ;;
  materials_append outer (materials "ritual") ;;
  ret outer.

Definition create_circle_ring (r_inner r_outer height : R) : M handle :=
  outer <- primitive_add K (Cylinder None r_outer height)
             (0, 0, height / 2) (0, 0, 0) ;;
  inner <- primitive_add K (Cylinder None r_inner (height + 0.05))
             (0, 0, height / 2) (0, 0, 0) ;;
  modifiers_new outer "Boolean" (BOOLEAN_DIFFERENCE inner) ;;
  set_active outer ;;
  modifier_apply K "Boolean" ;;
  objects_remove inner ;;
  materials_append outer (materials "ritual") ;;
  ret outer.

Definition create_skulls (count : nat) (radius : R) : M (list handle) :=
  for_in (range count) [] (fun skulls i =>
    u <- random ;;
    let ang := u * (2 * PI) in
    u' <- random ;;
    let r := radius * sqrt u' in
    let x := cos ang * r in
    let y := sin ang * r in
    sk <- primitive_add K (IcoSphere (Some 2%nat) 0.12) (x, y, 0.06) (0, 0, 0) ;;
    mul_scale_z sk 0.8 ;;
    materials_append sk (materials "bone") ;;
    ret (skulls ++ [sk])).

Definition create_hex_floor : M handle :=
  obj <- primitive_add K
           (Cylinder (Some 6%nat) (PLATFORM_RADIUS + 0.25) PLATFORM_HEIGHT)
           (0, 0, - PLATFORM_HEIGHT / 2) (0, 0, 0) ;;
  set_rotation_z obj (PI / 6) ;;
  modifiers_new obj "Bevel" (BEVEL 0.12 3) ;;
  modifier_apply K "Bevel" ;;
  materials_append obj (materials "stone") ;;
  ret obj.

Definition create_demon_horns : M (list handle) :=
  for_in (range 6) [] (fun horns i =>
    let radius := 1.1 in
    let z := 0.6 in
    let ang := INR i * (2 * PI) / 6 + PI / 6 in
    let x := cos ang * radius in
    let y := sin ang * radius in
    horn <- primitive_add K (Cone (Some 8%nat) 0.1 0.0 0.45) (x, y, z) (0, 0, 0) ;;
    set_rotation_x horn (- 0.5) ;;
    set_rotation_z horn (ang + PI) ;;
    materials_append horn (materials "metal") ;;
    ret (horns ++ [horn])).

(** The loop filling [pillar_positions] in the build section. *)
Definition pillar_position (i : nat) : vec2 :=
  let angle := PI / 6 + INR i * PI / 3 - PI / 6 in
  (cos angle * PILLAR_RADIUS_POS, sin angle * PILLAR_RADIUS_POS).

Definition pillar_positions : list vec2 :=
  map pillar_position (range NUM_SIDES).

End Builders.

End V3.

(** ** boss_platform_v4.py: rings, edge spikes, cracks, chains, skulls *)

Module V4.

Definition NUM_SIDES : nat := 6.
Definition PLATFORM_SIZE : R := 14.0.
Definition PLATFORM_RADIUS : R := PLATFORM_SIZE / 2.
Definition PLATFORM_HEIGHT : R := 0.6.
Definition PILLAR_RADIUS_POS : R := PLATFORM_RADIUS - 0.5.
Definition PILLAR_HEIGHT : R := 2.5.
Definition OUTER_RING_RADIUS : R := 6.0.
Definition MIDDLE_RING_RADIUS : R := 3.5.
Definition INNER_RING_RADIUS : R := 1.4.

Definition make_principled (nm : string) (color : vec3) (rough metal : R)
    (emission_color : option vec3) (emission_strength : R) : material :=
  {| mat_name := nm; base_color := color; roughness := rough;
     metallic := metal;
     emission := match emission_color with
                 | Some e => Some (e, emission_strength)
                 | None => None
                 end |}.

Definition materials_table : list (string * material) :=
  [ ("stone", make_principled "Dark_Stone" (0.05, 0.045, 0.04) 0.9 0.0 None 0.0);
    ("obsidian", make_principled "Obsidian" (0.02, 0.02, 0.025) 0.25 0.05 None 0.0);
    ("metal", make_principled "Dark_Metal" (0.03, 0.025, 0.02) 0.3 0.9 None 0.0);
    ("ritual", make_principled "Ritual_Glow" (0.9, 0.1, 0.02) 0.2 0.0
                 (Some (0.9, 0.1, 0.02)) 6.0);
    ("fire", make_principled "Fire_Emissive" (1.0, 0.45, 0.15) 0.4 0.0
               (Some (1.0, 0.45, 0.15)) 12.0);
    ("crystal", make_principled "Crystal_Glow" (0.6, 0.15, 0.9) 0.2 0.0
                  (Some (0.6, 0.15, 0.9)) 8.0);
    ("bone", make_principled "Bone" (0.65, 0.6, 0.55) 0.6 0.0 None 0.0);
    ("lava", make_principled "Lava" (1.0, 0.35, 0.1) 0.35 0.0
               (Some (1.0, 0.35, 0.1)) 10.0) ].

(** The dict lookup behind [materials[key]]. *)
Definition materials_get (key : string) : option material :=
  option_map snd (find (fun kv => String.eqb (fst kv) key) materials_table).

(** [materials[key]] at a key written in the script. *)
Definition materials (key : string) : entry (materials_get key) :=
  the_entry (materials_get key).

Definition hex_vertices (radius offset : R) : list vec2 :=
  map (fun i => (cos (offset + INR i * (2 * PI) / INR NUM_SIDES) * radius,
                 sin (offset + INR i * (2 * PI) / INR NUM_SIDES) * radius))
      (range NUM_SIDES).

(** [bez(t)] of [chains_between], for the control points [points]. *)
Definition bez (points : vec3 * vec3 * vec3) (t : R) : vec3 :=
  let '(p0, p1, p2) := points in
  let u := 1 - t in
  (u * u * vx p0 + 2 * u * t * vx p1 + t * t * vx p2,
   u * u * vy p0 + 2 * u * t * vy p1 + t * t * vy p2,
   u * u * vz p0 + 2 * u * t * vz p1 + t * t * vz p2).

Section Builders.

Variable K : kernel.

(** [hex_ring] and [circle_ring] read [materials[mat]] at the key they
    are given: a key outside the dict raises [KeyError] once the carve is
    done, before any material is appended. *)
Definition hex_ring (radius thickness height : R) (mat : string)
  : M (exn + handle) :=
  outer <- primitive_add K (Cylinder (Some 6%nat) radius height)
             (0, 0, height / 2) (0, 0, 0) ;;
  set_rotation_z outer (PI / 6) ;;
  inner <- primitive_add K (Cylinder (Some 6%nat) (radius - thickness) (height + 0.08))
             (0, 0, height / 2) (0, 0, 0) ;;
  set_rotation_z inner (PI / 6) ;;
  modifiers_new outer "Boolean" (BOOLEAN_DIFFERENCE inner) ;;
  set_active outer ;;
  modifier_apply K "Boolean" ;;
  objects_remove inner ;;
  match materials_get mat with
  | Some m => materials_append outer m ;; ret (inr outer)
  | None => ret (inl (KeyError mat))
  end.

Definition circle_ring (r_inner r_outer height : R) (mat : string)
  : M (exn + handle) :=
  outer <- primitive_add K (Cylinder None r_outer height)
             (0, 0, height / 2) (0, 0, 0) ;;
  inner <- primitive_add K (Cylinder None r_inner (height + 0.05))
             (0, 0, height / 2) (0, 0, 0) ;;
  modifiers_new outer "Boolean" (BOOLEAN_DIFFERENCE inner) ;;
  set_active outer ;;
  modifier_apply K "Boolean" ;;
  objects_remove inner ;;
  match materials_get mat with
  | Some m => materials_append outer m ;; ret (inr outer)
  | None => ret (inl (KeyError mat))
  end.

(** [t = (j + 0.5) / 4] *)
Definition spike_t (j : nat) : R := (INR j + 0.5) / 4.

(** The location of spike [j] on the edge from [v1] to [v2], before the
    cone is requested. *)
Definition spike_position (v1 v2 : vec2) (j : nat) : vec2 :=
  let vec := (fst v2 - fst v1, snd v2 - snd v1) in
  let t := spike_t j in
  (fst v1 + fst vec * t, snd v1 + snd vec * t).

Definition edge_spikes : M (exn + list handle) :=
  let verts := hex_vertices (PLATFORM_RADIUS + 0.05) (PI / 6) in
  for_in_try (range NUM_SIDES) [] (fun decos i =>
    match subscript verts i, subscript verts ((i + 1) mod NUM_SIDES) with
    | Some v1, Some v2 =>
      let vec := (fst v2 - fst v1, snd v2 - snd v1) in
      let ang := atan2 K (snd vec) (fst vec) in
      decos <- for_in (range 4) decos (fun decos j =>
        let '(x, y) := spike_position v1 v2 j in
        sp <- primitive_add K (Cone (Some 6%nat) 0.12 0 0.35) (x, y, 0.18) (0, 0, 0) ;;
        set_rotation_z sp ang ;;
        materials_append sp (materials "obsidian") ;;
        ret (decos ++ [sp])) ;;
      ret (inr decos)
    | _, _ => ret (inl IndexError)
    end).

(** The inner loop of [chains_between], [for j in range(links)], for the
    control points [points]. *)
Definition chain_links (points : vec3 * vec3 * vec3) (links : nat)
    (chain_objs : list handle) : M (list handle) :=
  for_in (range links) chain_objs (fun chain_objs j =>
    let t := INR j / INR links in
    let t2 := INR (j + 1) / INR links in
    let p1 := bez points t in
    let p2 := bez points t2 in
    let midp := ((vx p1 + vx p2) / 2, (vy p1 + vy p2) / 2, (vz p1 + vz p2) / 2) in
    let seg_len := dist3 p1 p2 in
    seg <- primitive_add K (Cylinder None 0.035 seg_len) midp
             (PI / 2, 0, atan2 K (vy p2 - vy p1) (vx p2 - vx p1)) ;;
    materials_append seg (materials "metal") ;;
    ret (chain_objs ++ [seg])).

(** [chains_between]: the subscripts [pillar_positions[i]] and
    [pillar_positions[(i+1) % NUM_SIDES]] raise [IndexError] on a list of
    fewer than six positions. *)
Definition chains_between (pillar_positions : list vec2)
  : M (exn + list handle) :=
  for_in_try (range NUM_SIDES) [] (fun chain_objs i =>
    match subscript pillar_positions i,
          subscript pillar_positions ((i + 1) mod NUM_SIDES) with
    | Some a, Some b =>
      let mid := ((fst a + fst b) / 2, (snd a + snd b) / 2) in
      let z_top := PILLAR_HEIGHT * 0.9 in
      let ctrl := (fst mid, snd mid, z_top - 0.3) in
      let points := ((fst a, snd a, z_top), ctrl, (fst b, snd b, z_top)) in
      let links := 12%nat in
      chain_objs <- chain_links points links chain_objs ;;
      ret (inr chain_objs)
    | _, _ => ret (inl IndexError)
    end).

Definition cracks_lava : M (list handle) :=
  for_in (range 8) [] (fun objs i =>
    let ang := INR i * (2 * PI) / 8 + PI / 6 in
    let length := 3.0 in
    let r0 := 1.0 in
    let steps := 4%nat in
    for_in (range steps) objs (fun objs s =>
      let t0 := INR s / INR steps in
      let t1 := INR (s + 1) / INR steps in
      let r_start := r0 + length * t0 in
      let r_end := r0 + length * t1 in
      let x1 := cos (ang + 0.05 * INR s) * r_start in
      let y1 := sin (ang + 0.05 * INR s) * r_start in
      let x2 := cos (ang + 0.05 * INR (s + 1)) * r_end in
      let y2 := sin (ang + 0.05 * INR (s + 1)) * r_end in
      let midx := (x1 + x2) / 2 in
      let midy := (y1 + y2) / 2 in
      let seg_len := dist2 (x1, y1) (x2, y2) in
      seg <- primitive_add K (Cylinder None 0.05 seg_len) (midx, midy, 0.03)
               (PI / 2, 0, atan2 K (y2 - y1) (x2 - x1)) ;;
      materials_append seg (materials "lava") ;;
      ret (objs ++ [seg]))).

Definition skulls (count : nat) (radius : R) : M (list handle) :=
  for_in (range count) [] (fun objs _ =>
    u <- random ;;
    let ang := u * (2 * PI) in
    u' <- random ;;
    let r := radius * sqrt u' in
    let x := cos ang * r in
    let y := sin ang * r in
    sk <- primitive_add K (IcoSphere (Some 2%nat) 0.12) (x, y, 0.06) (0, 0, 0) ;;
    mul_scale_z sk 0.8 ;;
    materials_append sk (materials "bone") ;;
    ret (objs ++ [sk])).

(** The loop filling [pillar_positions] in the build section. *)
Definition pillar_position (i : nat) : vec2 :=
  let ang := PI / 6 + INR i * PI / 3 - PI / 6 in
  (cos ang * PILLAR_RADIUS_POS, sin ang * PILLAR_RADIUS_POS).

Definition pillar_positions : list vec2 :=
  map pillar_position (range NUM_SIDES).

Definition hex_floor : M handle :=
  obj <- primitive_add K
           (Cylinder (Some 6%nat) (PLATFORM_RADIUS + 0.25) PLATFORM_HEIGHT)
           (0, 0, - PLATFORM_HEIGHT / 2) (0, 0, 0) ;;
  set_rotation_z obj (PI / 6) ;;
  modifiers_new obj "Bevel" (BEVEL 0.12 3) ;;
  modifier_apply K "Bevel" ;;
  materials_append obj (materials "stone") ;;
  ret obj.

Definition horns : M (list handle) :=
  for_in (range 6) [] (fun objs i =>
    let radius := 1.1 in
    let z := 0.6 in
    let ang := INR i * (2 * PI) / 6 + PI / 6 in
    let x := cos ang * radius in
    let y := sin ang * radius in
    h <- primitive_add K (Cone (Some 8%nat) 0.1 0 0.45) (x, y, z) (0, 0, 0) ;;
    set_rotation_x h (- 0.5) ;;
    set_rotation_z h (ang + PI) ;;
    materials_append h (materials "metal") ;;
    ret (objs ++ [h])).

(** [rune_beams]: the index of [enumerate] is not used. *)
Definition rune_beams (pillar_positions : list vec2) : M (list handle) :=
  for_in pillar_positions [] (fun objs pos =>
    let '(x, y) := pos in
    let midz := 0.12 in
    beam <- primitive_add K (Cylinder None 0.04 (sqrt (x * x + y * y) + 0.1))
              (x / 2, y / 2, midz) (PI / 2, 0, atan2 K y x) ;;
    materials_append beam (materials "ritual") ;;
    ret (objs ++ [beam])).

End Builders.


(** The control points [chains_between] builds for the pillar tops above
    [a] and [b]. *)
Definition chain_points (a b : vec2) : vec3 * vec3 * vec3 :=
  let mid := ((fst a + fst b) / 2, (snd a + snd b) / 2) in
  let z_top := PILLAR_HEIGHT * 0.9 in
  let ctrl := (fst mid, snd mid, z_top - 0.3) in
  ((fst a, snd a, z_top), ctrl, (fst b, snd b, z_top)).

End V4.

(** ** The formulas of the design document, in its own words *)

Module Spec.

(** [lerp(a, b, t)] *)
Definition lerp (a b t : R) : R := a + (b - a) * t.

(** Linear interpolation between two points of the plane. *)
Definition interpolate (p q : vec2) (t : R) : vec2 :=
  (lerp (fst p) (fst q) t, lerp (snd p) (snd q) t).

(** [B(t) = (1-t)^2 P0 + 2(1-t)t P1 + t^2 P2], one coordinate. *)
Definition bezier1 (a b c t : R) : R :=
  (1 - t) ^ 2 * a + 2 * (1 - t) * t * b + t ^ 2 * c.

Definition bezier (p0 p1 p2 : vec3) (t : R) : vec3 :=
  (bezier1 (vx p0) (vx p1) (vx p2) t,
   bezier1 (vy p0) (vy p1) (vy p2) t,
   bezier1 (vz p0) (vz p1) (vz p2) t).

Definition midpoint (p q : vec3) : vec3 :=
  ((vx p + vx q) / 2, (vy p + vy q) / 2, (vz p + vz q) / 2).

(** The six points of the pillar scenario for anchor radius [r]. *)
Definition hexagon_points (r : R) : list vec2 :=
  [ (r, 0); (r / 2, r * sqrt 3 / 2); (- r / 2, r * sqrt 3 / 2);
    (- r, 0); (- r / 2, - r * sqrt 3 / 2); (r / 2, - r * sqrt 3 / 2) ].

End Spec.

(** ** A concrete host for closed examples *)

Module Example.

(** A kernel whose cylinders have one vertex on each cap and whose ico
    spheres have their two poles. *)
Definition kernel0 : kernel :=
  {| primitive_verts := fun p =>
       match p with
       | Cylinder _ r d => [(r, 0, d / 2); (r, 0, - d / 2)]
       | IcoSphere _ r => [(0, 0, r); (0, 0, - r)]
       | _ => []
       end;
     bevel_verts := fun _ _ m => verts m;
     difference_verts := fun a _ =>
       match data a with Some m => verts m | None => [] end;
     atan2 := fun _ _ => 0;
     format_1f := fun _ => "";
     mersenne := fun _ _ => 0 |}.

(** An empty scene whose generator draws [u] every time. *)
Definition world0 (u : R) : world :=
  {| objects := []; active := None; selected := [];
     rng_seq := fun _ => u; rng_pos := 0 |}.

Definition materials0 (key : string) : material :=
  {| mat_name := key; base_color := (0, 0, 0); roughness := 0.5;
     metallic := 0; emission := None |}.

End Example.

(** ** Reading a finished scene *)

Module Layout.

Definition parent_of (objs : list object) (h : handle) : option handle :=
  match lookup h objs with
  | Some o => parent o
  | None => None
  end.

Definition rotation_of (objs : list object) (h : handle) : option vec3 :=
  option_map rotation_euler (lookup h objs).

(** The objects the smooth-shading requests acted on, one list for each
    request, in order. *)
Definition smooth_targets (evs : list event) : list (list handle) :=
  flat_map (fun e => match e with EvShadeSmooth hs => [hs] | _ => [] end) evs.

(** The names the script asked for, in order. *)
Definition names_set (evs : list event) : list (handle * string) :=
  flat_map (fun e => match e with EvSetName h s => [(h, s)] | _ => [] end) evs.

(** The locations of the primitives the script asked for, in order. *)
Definition add_locations (evs : list event) : list vec3 :=
  flat_map (fun e => match e with EvPrimitiveAdd _ loc _ => [loc] | _ => [] end) evs.

(** The direction of the axis of a cylinder or cone (its local [z]) under
    the rotation [rot]. *)
Definition axis_of (rot : vec3) : vec3 := euler_xyz rot (0, 0, 1).

Definition dot3 (p q : vec3) : R := vx p * vx q + vy p * vy q + vz p * vz q.



Definition midpoint2 (p q : vec2) : vec2 :=
  ((fst p + fst q) / 2, (snd p + snd q) / 2).

Definition dot2 (p q : vec2) : R := fst p * fst q + snd p * snd q.

Definition scale2 (c : R) (p : vec2) : vec2 := (c * fst p, c * snd p).

(** What a floor builder leaves behind on the scene [w]: one new object,
    which it returns and which is active, with its bevel evaluated and off
    the stack. *)
Definition floor_appended (w : world) (r : result handle)
    (rot width radius depth : R) (m : material) : Prop :=
  exists floor : object,
    state r = {| objects := objects w ++ [floor]; active := Some (value r);
                 selected := [value r];
                 rng_seq := rng_seq w; rng_pos := rng_pos w |}
    /\ oid floor = value r
    /\ value r = fresh (objects w)
    /\ option_map topo (data floor)
       = Some (Bevelled width 3 (Prim (Cylinder (Some 6%nat) radius depth)))
    /\ modifiers floor = []
    /\ Host.materials floor = [m]
    /\ rotation_euler floor = (0, 0, rot)
    /\ scale floor = (1, 1, 1)
    /\ top_cap (location floor) depth = 0
    /\ bottom_cap (location floor) depth = - depth.

End Layout.

(** ** client/convert_fbx_to_glb.py and client/public/assets/convert_fbx_to_glb.py *)

Module Convert.

(** What the two scripts ask of the host and print, in program order.
    An export option the call leaves to its default is [None]. *)
Inductive request : Type :=
| ReadFactorySettings (use_empty : bool)
| ImportFbx (filepath : string)
| ExportGltf (filepath export_format : string)
    (export_animations export_skins : bool) (export_morph : option bool)
| Print (text : string).

(** How a run ends: normally, by [sys.exit(code)], by an uncaught
    exception of the list operations, or by the [RuntimeError] that
    [bpy.ops] raises when an operator reports an error. *)
Inductive outcome : Type :=
| Done
| SystemExit (code : Z)
| ValueError
| IndexError
| RuntimeError.

Definition usage : string :=
  "Usage: blender --background --python convert_fbx_to_glb.py -- input.fbx output.glb".

(** [l.index(x)]: the position of the first occurrence, [None] where
    Python raises [ValueError]. *)
Fixpoint index (x : string) (l : list string) : option nat :=
  match l with
  | [] => None
  | y :: l' => if String.eqb y x then Some 0%nat
               else option_map S (index x l')
  end.

(** [l[-k]] for [k >= 1], [None] where Python raises [IndexError]. *)
Definition from_end (l : list string) (k : nat) : option string :=
  if Nat.ltb (List.length l) k then None
  else nth_error l (List.length l - k).

Section Runs.

(** Whether the host carries out an operator call.  A call it does not
    carry out (an input file that is missing or is no FBX file, an output
    path it cannot write) reports an error, which reaches the script as
    [RuntimeError]; neither script catches it. *)
Variable accepts : request -> bool.

(** Statements run in order: the requests that reached the host or the
    console, the failing one included, and how the run ended. *)
Fixpoint run (stmts : list request) : list request * outcome :=
  match stmts with
  | [] => ([], Done)
  | Print text :: rest =>
      let (sent, o) := run rest in (Print text :: sent, o)
  | op :: rest =>
      if accepts op then let (sent, o) := run rest in (op :: sent, o)
      else ([op], RuntimeError)
  end.

Definition convert_fbx_to_glb (input_path output_path : string)
  : list request * outcome :=
  run [ ReadFactorySettings true;
        ImportFbx input_path;
        ExportGltf output_path "GLB" true true None;
        Print ("Converted: " ++ input_path ++ " -> " ++ output_path) ].

(** The [__main__] block of [client/convert_fbx_to_glb.py] on [sys.argv]. *)
Definition main (argv : list string) : list request * outcome :=
  if Nat.ltb (List.length argv) 4 then ([Print usage], SystemExit 1)
  else
    match index "--" argv with
    | None => ([], ValueError)
    | Some k =>
      let argv' := skipn (k + 1) argv in
      match nth_error argv' 0 with
      | None => ([], IndexError)
      | Some input_path =>
        match nth_error argv' 1 with
        | None => ([], IndexError)
        | Some output_path => convert_fbx_to_glb input_path output_path
        end
      end
    end.

(** [client/public/assets/convert_fbx_to_glb.py] on [sys.argv]. *)
Definition assets_script (argv : list string) : list request * outcome :=
  match from_end argv 2 with
  | None => ([], IndexError)
  | Some input_file =>
    match from_end argv 1 with
    | None => ([], IndexError)
    | Some output_file =>
        run [ ReadFactorySettings true;
              ImportFbx input_file;
              ExportGltf output_file "GLB" true true (Some true);
              Print ("Converted " ++ input_file ++ " to " ++ output_file) ]
    end
  end.

End Runs.

(** A host that carries out every call. *)
Definition willing (_ : request) : bool := true.

(** A host on which the file [missing] cannot be imported. *)
Definition lacking (missing : string) (op : request) : bool :=
  match op with
  | ImportFbx f => negb (String.eqb f missing)
  | _ => true
  end.

End Convert.

(** * Properties *)

Unset Implicit Arguments.

(** ** Running builders on an arbitrary scene *)

Lemma bind_prepend {A B : Type} (m : M A) (f : A -> M B) (w : world) :
  bind m f w = prepend (emitted (m w)) (f (value (m w)) (state (m w))).
Proof. reflexivity. Qed.

Lemma older_fresh (objs : list object) : older (fresh objs) objs.
Proof.
  unfold older, fresh. apply Forall_forall. intros o Ho.
  assert (H : (oid o <= list_max (map oid objs))%nat).
  { destruct (list_max_le (map oid objs) (list_max (map oid objs))) as [Hm _].
    specialize (Hm (Nat.le_refl _)).
    rewrite Forall_forall in Hm. apply Hm. apply in_map. exact Ho. }
  lia.
Qed.

Lemma older_mono (h h' : handle) (objs : list object) :
  older h objs -> (h <= h')%nat -> older h' objs.
Proof.
  unfold older. intros H Hle. eapply Forall_impl; [ | exact H ].
  cbv beta. intros; lia.
Qed.

Lemma older_not_in (h : handle) (objs : list object) :
  older h objs -> ~ In h (map oid objs).
Proof.
  unfold older. intros H Hin. apply in_map_iff in Hin.
  destruct Hin as [o [Ho Hin]]. rewrite Forall_forall in H.
  specialize (H o Hin). lia.
Qed.

Lemma update_older (h h' : handle) (f : object -> object) (objs : list object) :
  older h' objs -> (h' <= h)%nat -> update h f objs = objs.
Proof.
  intros H Hle. unfold update. induction H as [ | o l Ho Hl IH ].
  - reflexivity.
  - cbn [map]. rewrite IH.
    replace (Nat.eqb (oid o) h) with false; [ reflexivity | ].
    symmetry. apply Nat.eqb_neq. lia.
Qed.

Lemma update_tail (h : handle) (f : object -> object) (objs tl : list object) :
  older h objs -> update h f (objs ++ tl) = objs ++ update h f tl.
Proof.
  intros H. unfold update at 1. rewrite map_app.
  change (update h f objs ++ update h f tl = objs ++ update h f tl).
  rewrite (update_older h h f objs H (Nat.le_refl h)). reflexivity.
Qed.

Lemma lookup_tail (h : handle) (objs tl : list object) :
  older h objs -> lookup h (objs ++ tl) = lookup h tl.
Proof.
  intros H. unfold lookup. induction H as [ | o l Ho Hl IH ].
  - reflexivity.
  - cbn [app find].
    replace (Nat.eqb (oid o) h) with false; [ exact IH | ].
    symmetry. apply Nat.eqb_neq. lia.
Qed.

Lemma remove_tail (h : handle) (objs tl : list object) :
  older h objs ->
  filter (fun o => negb (Nat.eqb (oid o) h)) (objs ++ tl)
  = objs ++ filter (fun o => negb (Nat.eqb (oid o) h)) tl.
Proof.
  intros H. rewrite filter_app. f_equal.
  induction H as [ | o l Ho Hl IH ].
  - reflexivity.
  - cbn [filter].
    replace (Nat.eqb (oid o) h) with false; [ cbn [negb]; rewrite IH; reflexivity | ].
    symmetry. apply Nat.eqb_neq. lia.
Qed.

Lemma fresh_snoc (objs : list object) (o : object) :
  oid o = fresh objs -> fresh (objs ++ [o]) = S (fresh objs).
Proof.
  intros H. unfold fresh in *. rewrite map_app, list_max_app.
  cbn [map list_max fold_right]. rewrite H. lia.
Qed.

Lemma fresh_snoc2 (objs : list object) (o1 o2 : object) :
  oid o1 = fresh objs -> oid o2 = S (fresh objs) ->
  fresh (objs ++ [o1; o2]) = S (S (fresh objs)).
Proof.
  intros H1 H2. unfold fresh in *. rewrite map_app, list_max_app.
  cbn [map list_max fold_right]. rewrite H1, H2. lia.
Qed.

Lemma eqb_succ_r (n : nat) : Nat.eqb n (S n) = false.
Proof. apply Nat.eqb_neq. lia. Qed.

Lemma eqb_succ_l (n : nat) : Nat.eqb (S n) n = false.
Proof. apply Nat.eqb_neq. lia. Qed.

Lemma find_modifier_single (n : string) (m : modifier) :
  find_modifier n [(n, m)] = Some m.
Proof.
  unfold find_modifier. cbn [find fst]. rewrite String.eqb_refl. reflexivity.
Qed.

Lemma drop_modifier_single (n : string) (m : modifier) :
  drop_modifier n [(n, m)] = [].
Proof.
  unfold drop_modifier. cbn [filter fst]. rewrite String.eqb_refl. reflexivity.
Qed.

(** Symbolic execution of a builder from a scene [objs] with generator
    state [sq], [pos]: one [bind] at a time, keeping the scene in the form
    [objs ++ tail]. *)
Ltac unfold_ops :=
  unfold primitive_add, empty_add, set_active, set_name,
     set_rotation_z, set_rotation_x, set_rotation_y, set_scale, mul_scale_z,
     modifiers_new, modifier_apply, objects_remove, materials_append,
     transform_apply, shade_smooth, set_parent, map_verts,
     select_all, delete, uniform, random, modify, emit, ret, set_objects.

Ltac projections :=
  cbn [value state emitted objects active selected rng_seq rng_pos prepend].

Ltac tidy Hold Hold' :=
  repeat first
    [ rewrite <- app_assoc
    | rewrite Nat.eqb_refl
    | rewrite eqb_succ_r
    | rewrite eqb_succ_l
    | rewrite (update_tail _ _ _ _ Hold)
    | rewrite (update_tail _ _ _ _ Hold')
    | rewrite (lookup_tail _ _ _ Hold)
    | rewrite (lookup_tail _ _ _ Hold')
    | rewrite (remove_tail _ _ _ Hold)
    | rewrite (remove_tail _ _ _ Hold')
    | rewrite fresh_snoc by reflexivity
    | rewrite fresh_snoc2 by reflexivity
    | rewrite find_modifier_single
    | rewrite drop_modifier_single
    | progress cbn [update lookup find filter map negb oid data location
                    rotation_euler scale modifiers Host.materials parent
                    new_object with_data with_location with_rotation with_scale
                    with_modifiers with_materials with_parent baked fold_left
                    evaluate option_map topo verts vx vy vz fst snd app] ].

Ltac run_builder objs :=
  let Hold := fresh "Hold" in
  let Hold' := fresh "Hold" in
  assert (Hold : older (fresh objs) objs) by apply older_fresh;
  assert (Hold' : older (S (fresh objs)) objs)
    by (apply (older_mono _ _ _ Hold); apply Nat.le_succ_diag_r);
  unfold_ops;
  repeat (rewrite bind_prepend; projections; tidy Hold Hold');
  cbv beta iota delta
    [prepend value state emitted app placed carved new_object
     with_data with_location with_rotation with_scale with_modifiers
     with_materials with_parent oid data location rotation_euler scale
     modifiers Host.materials parent topo verts];
  clear Hold Hold'.

Lemma create_hex_ring_run (K : kernel) (materials : string -> material)
    (radius thickness height : R) (w : world) :
  let h := fresh (objects w) in
  let outer := placed K h (Cylinder (Some 6%nat) radius height)
                 (0, 0, height / 2) (0, 0, PI / 6) in
  let inner := placed K (S h)
                 (Cylinder (Some 6%nat) (radius - thickness) (height + 0.1))
                 (0, 0, height / 2) (0, 0, PI / 6) in
  V3.create_hex_ring K materials radius thickness height w
  = {| value := h;
       state := {| objects := objects w ++
                     [carved K outer inner
                        (Prim (Cylinder (Some 6%nat) radius height))
                        (Prim (Cylinder (Some 6%nat) (radius - thickness) (height + 0.1)))
                        (materials "ritual")];
                   active := Some h; selected := [];
                   rng_seq := rng_seq w; rng_pos := rng_pos w |};
       emitted :=
         [ EvPrimitiveAdd (Cylinder (Some 6%nat) radius height)
             (0, 0, height / 2) (0, 0, 0);
           EvPrimitiveAdd (Cylinder (Some 6%nat) (radius - thickness) (height + 0.1))
             (0, 0, height / 2) (0, 0, 0);
           EvModifierNew h "Boolean" (BOOLEAN_DIFFERENCE (S h));
           EvModifierApply h "Boolean";
           EvObjectsRemove (S h);
           EvMaterialsAppend h (materials "ritual") ] |}.
Proof.
  destruct w as [objs act sel sq pos].
  cbn [objects rng_seq rng_pos]. cbv zeta.
  unfold V3.create_hex_ring.
  run_builder objs.
  reflexivity.
Qed.

(** The circular ring of V4 for a key [mat] the dict has. *)
Lemma circle_ring_run (K : kernel) (r_inner r_outer height : R) (mat : string)
    (m : material) (w : world) :
  V4.materials_get mat = Some m ->
  let h := fresh (objects w) in
  let outer := placed K h (Cylinder None r_outer height)
                 (0, 0, height / 2) (0, 0, 0) in
  let inner := placed K (S h) (Cylinder None r_inner (height + 0.05))
                 (0, 0, height / 2) (0, 0, 0) in
  V4.circle_ring K r_inner r_outer height mat w
  = {| value := inr h;
       state := {| objects := objects w ++
                     [carved K outer inner
                        (Prim (Cylinder None r_outer height))
                        (Prim (Cylinder None r_inner (height + 0.05)))
                        m];
                   active := Some h; selected := [];
                   rng_seq := rng_seq w; rng_pos := rng_pos w |};
       emitted :=
         [ EvPrimitiveAdd (Cylinder None r_outer height)
             (0, 0, height / 2) (0, 0, 0);
           EvPrimitiveAdd (Cylinder None r_inner (height + 0.05))
             (0, 0, height / 2) (0, 0, 0);
           EvModifierNew h "Boolean" (BOOLEAN_DIFFERENCE (S h));
           EvModifierApply h "Boolean";
           EvObjectsRemove (S h);
           EvMaterialsAppend h m ] |}.
Proof.
  intros Hm.
  destruct w as [objs act sel sq pos].
  cbn [objects rng_seq rng_pos]. cbv zeta.
  unfold V4.circle_ring. rewrite Hm.
  run_builder objs.
  reflexivity.
Qed.

(** The same ring for a key the dict lacks: the carve is done, no
    material is appended, and [KeyError] is raised. *)
Lemma circle_ring_key_error (K : kernel) (r_inner r_outer height : R) (mat : string)
    (w : world) :
  V4.materials_get mat = None ->
  let h := fresh (objects w) in
  let outer := placed K h (Cylinder None r_outer height)
                 (0, 0, height / 2) (0, 0, 0) in
  let inner := placed K (S h) (Cylinder None r_inner (height + 0.05))
                 (0, 0, height / 2) (0, 0, 0) in
  V4.circle_ring K r_inner r_outer height mat w
  = {| value := inl (KeyError mat);
       state := {| objects := objects w ++
                     [with_materials []
                        (carved K outer inner
                           (Prim (Cylinder None r_outer height))
                           (Prim (Cylinder None r_inner (height + 0.05)))
                           (Example.materials0 mat))];
                   active := Some h; selected := [];
                   rng_seq := rng_seq w; rng_pos := rng_pos w |};
       emitted :=
         [ EvPrimitiveAdd (Cylinder None r_outer height)
             (0, 0, height / 2) (0, 0, 0);
           EvPrimitiveAdd (Cylinder None r_inner (height + 0.05))
             (0, 0, height / 2) (0, 0, 0);
           EvModifierNew h "Boolean" (BOOLEAN_DIFFERENCE (S h));
           EvModifierApply h "Boolean";
           EvObjectsRemove (S h) ] |}.
Proof.
  intros Hm.
  destruct w as [objs act sel sq pos].
  cbn [objects rng_seq rng_pos]. cbv zeta.
  unfold V4.circle_ring. rewrite Hm.
  run_builder objs.
  reflexivity.
Qed.

(** ** What the two opening statements of a script leave *)

Lemma delete_all (objs : list object) :
  filter (fun o => negb (existsb (Nat.eqb (oid o)) (map oid objs))) objs = [].
Proof.
  assert (H : forall l, incl l objs ->
            filter (fun o => negb (existsb (Nat.eqb (oid o)) (map oid objs))) l = []).
  { induction l as [ | o l IH ]; intros Hl; [ reflexivity | ].
    cbn [filter].
    replace (existsb (Nat.eqb (oid o)) (map oid objs)) with true.
    - cbn [negb]. apply IH. intros x Hx. apply Hl. right. exact Hx.
    - symmetry. apply existsb_exists. exists (oid o). split.
      + apply in_map. apply Hl. left. reflexivity.
      + apply Nat.eqb_refl. }
  apply H. apply incl_refl.
Qed.

(** [cleanup] empties any scene and leaves the generator alone. *)
Lemma cleanup_run (w : world) :
  cleanup w
  = {| value := tt;
       state := {| objects := []; active := None; selected := [];
                   rng_seq := rng_seq w; rng_pos := rng_pos w |};
       emitted := [EvSelectAll; EvDelete] |}.
Proof.
  destruct w as [objs act sel sq pos].
  unfold cleanup, select_all, delete, set_objects.
  rewrite bind_prepend.
  cbn [value state emitted objects active selected rng_seq rng_pos prepend app].
  rewrite delete_all. cbn [map existsb].
  destruct act; reflexivity.
Qed.

(** A program that first reseeds the generator and cleans the scene
    continues in an empty scene with a fresh generator, whatever the
    world it was started in. *)
Lemma seed_cleanup_then {A : Type} (K : kernel) (k : Z) (m : M A) (w : world) :
  (seed K k ;; cleanup ;; m) w
  = prepend [EvSelectAll; EvDelete]
      (m {| objects := []; active := None; selected := [];
            rng_seq := mersenne K k; rng_pos := 0 |}).
Proof.
  rewrite bind_prepend.
  change (prepend []
            ((cleanup ;; m)
               {| objects := objects w; active := active w; selected := selected w;
                  rng_seq := mersenne K k; rng_pos := 0 |})
          = prepend [EvSelectAll; EvDelete]
              (m {| objects := []; active := None; selected := [];
                    rng_seq := mersenne K k; rng_pos := 0 |})).
  rewrite bind_prepend, cleanup_run.
  reflexivity.
Qed.

(** The world in which the build section of the V5 script starts. *)
Lemma script_clean (K : kernel) (P : V5.ParameterSet) (w : world) :
  V5.script K P w
  = prepend [EvSelectAll; EvDelete]
      (V5.build K P {| objects := []; active := None; selected := [];
                       rng_seq := mersenne K (V5.SEED P); rng_pos := 0 |}).
Proof. exact (seed_cleanup_then K (V5.SEED P) (V5.build K P) w). Qed.

(** ** The canonical run *)

(** C1: with the constants of the script (platform radius 7.0, ring radii
    5.5, 3.5 and 1.8, pillar height 3.0, six pillars, seed 42) the run
    yields one floor, three rings, six pillar composites of six meshes
    each, an altar of five meshes, eighteen edge spikes, eight skulls and
    six horns: 77 distinct meshes, and the root empty as 78th object. *)
Theorem canonical_run_counts (K : kernel) (w : world) :
  let r := V5.script K V5.canonical w in
  let p := value r in
  let objs := objects (state r) in
  (V5.PLATFORM_RADIUS V5.canonical = 7.0
   /\ V5.PILLAR_HEIGHT V5.canonical = 3.0
   /\ V5.SEED V5.canonical = 42%Z)
  /\ topo_of objs (V5.floor p)
     = Some (Bevelled 0.08 2 (Prim (Cylinder (Some 6%nat) 7.0 0.5)))
  /\ map (topo_of objs) (V5.rings p)
     = [ Some (Prim (Torus 5.5 0.1 48 12));
         Some (Prim (Torus 3.5 0.08 48 12));
         Some (Prim (Torus 1.8 0.06 48 12)) ]
  /\ (exists composites : list (list handle),
        V5.pillars p = List.concat composites
        /\ List.length composites = 6%nat
        /\ Forall (fun c => (5 <= List.length c)%nat) composites)
  /\ (5 <= List.length (V5.altar p))%nat
  /\ List.length (V5.spikes p) = (3 * 6)%nat
  /\ List.length (V5.skulls p) = 8%nat
  /\ List.length (V5.horns p) = 6%nat
  /\ NoDup (V5.all_parts p)
  /\ List.length (V5.all_parts p) = 77%nat
  /\ forallb (is_mesh_in objs) (V5.all_parts p) = true
  /\ is_mesh_in objs (V5.root p) = false
  /\ List.length objs = 78%nat.
Proof.
  rewrite script_clean.
  intros r p objs.
  split; [ split; [ reflexivity | split; reflexivity ] | ].
  split; [ reflexivity | ].
  split; [ reflexivity | ].
  split.
  { exists [seq 5 6; seq 11 6; seq 17 6; seq 23 6; seq 29 6; seq 35 6].
    split; [ reflexivity | ].
    split; [ reflexivity | ].
    repeat (apply Forall_cons; [ apply Nat.leb_le; reflexivity | ]).
    apply Forall_nil. }
  split; [ apply Nat.leb_le; reflexivity | ].
  split; [ reflexivity | ].
  split; [ reflexivity | ].
  split; [ reflexivity | ].
  split; [ change (NoDup (seq 1 77)); apply seq_NoDup | ].
  split; [ reflexivity | ].
  split; [ reflexivity | ].
  split; reflexivity.
Qed.

(** Each call of [create_pillar] returns six parts, whatever the scene. *)
Lemma create_pillar_parts (K : kernel) (P : V5.ParameterSet) (x y : R)
    (index : nat) (w : world) :
  List.length (value (V5.create_pillar K P x y index w)) = 6%nat.
Proof. reflexivity. Qed.

(** ** What the two opening statements of the script are for *)

(** Without [cleanup], the build section adds to whatever the scene holds:
    started on a scene of one object it ends with 79 objects, not 78. *)
Lemma build_alone_depends_on_scene (K : kernel) (P : V5.ParameterSet) :
  let crowded := {| objects := [placed K 1%nat (IcoSphere None 1) (0, 0, 0) (0, 0, 0)];
                    active := None; selected := [];
                    rng_seq := fun _ => 0; rng_pos := 0 |} in
  List.length (objects (state (V5.build K P (Example.world0 0)))) = 78%nat
  /\ List.length (objects (state (V5.build K P crowded))) = 79%nat.
Proof. split; reflexivity. Qed.

(** ** Loops that add one object per iteration *)

Section SpawnLoop.

Context {A : Type}.
Variable body : list handle -> A -> M (list handle).
Variable mk : (nat -> R) -> handle -> nat -> A -> object.
Variable ev : (nat -> R) -> handle -> nat -> A -> list event.
Variable draws : nat.

Hypothesis mk_oid : forall sq h pos x, oid (mk sq h pos x) = h.

Hypothesis body_run : forall acc x objs act sel sq pos,
  body acc x {| objects := objs; active := act; selected := sel; rng_seq := sq; rng_pos := pos |}
  = {| value := acc ++ [fresh objs];
       state := {| objects := objs ++ [mk sq (fresh objs) pos x];
                   active := Some (fresh objs); selected := [fresh objs];
                   rng_seq := sq; rng_pos := pos + draws |};
       emitted := ev sq (fresh objs) pos x |}.

Lemma for_in_spawn (l : list A) :
  forall acc objs act sel sq pos,
    let r := for_in l acc body
               {| objects := objs; active := act; selected := sel; rng_seq := sq; rng_pos := pos |} in
    objects (state r) = objs ++ spawned (mk sq) draws l (fresh objs) pos
    /\ value r = acc ++ map oid (spawned (mk sq) draws l (fresh objs) pos)
    /\ rng_seq (state r) = sq
    /\ rng_pos (state r) = (pos + draws * List.length l)%nat.
Proof.
  induction l as [ | x l IH ]; intros acc objs act sel sq pos.
  - cbn [for_in spawned map List.length]. unfold ret.
    cbn [value state objects rng_seq rng_pos].
    rewrite !app_nil_r. repeat split. lia.
  - cbn [for_in spawned map List.length]. cbv zeta.
    rewrite bind_prepend. rewrite body_run.
    cbn [value state emitted prepend].
    specialize (IH (acc ++ [fresh objs]) (objs ++ [mk sq (fresh objs) pos x])
                   (Some (fresh objs)) [fresh objs] sq (pos + draws)%nat).
    cbv zeta in IH.
    rewrite (fresh_snoc objs (mk sq (fresh objs) pos x) (mk_oid _ _ _ _)) in IH.
    destruct IH as [Hobjs [Hval [Hsq Hpos]]].
    rewrite Hobjs, Hval, Hsq, Hpos, mk_oid.
    rewrite <- !app_assoc. cbn [app].
    repeat split. lia.
Qed.

End SpawnLoop.

Lemma spawned_length {A : Type} (mk : handle -> nat -> A -> object) (draws : nat)
    (l : list A) :
  forall h pos, List.length (spawned mk draws l h pos) = List.length l.
Proof.
  induction l as [ | x l IH ]; intros h pos; cbn [spawned List.length].
  - reflexivity.
  - rewrite IH. reflexivity.
Qed.

Lemma spawned_nth (mk : handle -> nat -> nat -> object) (draws : nat) (n : nat) :
  forall s h pos j, (j < n)%nat ->
    nth_error (spawned mk draws (seq s n) h pos) j
    = Some (mk (h + j)%nat (pos + draws * j)%nat (s + j)%nat).
Proof.
  induction n as [ | n IH ]; intros s h pos j Hj; [ lia | ].
  cbn [seq spawned]. destruct j as [ | j ].
  - cbn [nth_error]. rewrite !Nat.add_0_r, Nat.mul_0_r, Nat.add_0_r. reflexivity.
  - cbn [nth_error]. rewrite IH by lia. f_equal. f_equal; lia.
Qed.

Lemma nth_error_tail {A : Type} (l tl : list A) (j : nat) :
  nth_error (l ++ tl) (List.length l + j) = nth_error tl j.
Proof.
  rewrite nth_error_app2 by lia. f_equal. lia.
Qed.

(** ** Curve tessellation (V4 chains) *)

(** The source's [bez] is the quadratic Bezier polynomial of the design. *)
Lemma bez_is_bezier (p0 p1 p2 : vec3) (t : R) :
  V4.bez (p0, p1, p2) t = Spec.bezier p0 p1 p2 t.
Proof.
  unfold V4.bez, Spec.bezier, Spec.bezier1.
  f_equal; [ f_equal | ]; ring.
Qed.

(** The object one iteration of the chain loop leaves. *)
Lemma chain_link_run (K : kernel) (points : vec3 * vec3 * vec3) (links : nat)
    (acc : list handle) (j : nat) (objs : list object) (act : option handle)
    (sel : list handle) (sq : nat -> R) (pos : nat) :
  let p1 := V4.bez points (INR j / INR links) in
  let p2 := V4.bez points (INR (j + 1) / INR links) in
  let seg := Cylinder None 0.035 (dist3 p1 p2) in
  let midp := ((vx p1 + vx p2) / 2, (vy p1 + vy p2) / 2, (vz p1 + vz p2) / 2) in
  let rot := (PI / 2, 0, atan2 K (vy p2 - vy p1) (vx p2 - vx p1)) in
  (let t := INR j / INR links in
   let t2 := INR (j + 1) / INR links in
   let p1 := V4.bez points t in
   let p2 := V4.bez points t2 in
   let midp := ((vx p1 + vx p2) / 2, (vy p1 + vy p2) / 2, (vz p1 + vz p2) / 2) in
   let seg_len := dist3 p1 p2 in
   seg <- primitive_add K (Cylinder None 0.035 seg_len) midp
            (PI / 2, 0, atan2 K (vy p2 - vy p1) (vx p2 - vx p1)) ;;
   materials_append seg (V4.materials "metal") ;;
   ret (acc ++ [seg]))
    {| objects := objs; active := act; selected := sel; rng_seq := sq; rng_pos := pos |}
  = {| value := acc ++ [fresh objs];
       state := {| objects := objs ++
                     [with_materials [V4.materials "metal"]
                        (placed K (fresh objs) seg midp rot)];
                   active := Some (fresh objs); selected := [fresh objs];
                   rng_seq := sq; rng_pos := pos + 0 |};
       emitted := [EvPrimitiveAdd seg midp rot;
                   EvMaterialsAppend (fresh objs) (V4.materials "metal")] |}.
Proof.
  cbv zeta.
  run_builder objs.
  rewrite Nat.add_0_r. reflexivity.
Qed.

(** C3: for control points [p0], [p1], [p2] and [N >= 1] samples, the
    chain loop adds exactly [N] cylinders; the [j]-th one spans the Bezier
    samples [B(j/N)] and [B((j+1)/N)]: its depth is their Euclidean
    distance, its location their midpoint, and its rotation a tilt of
    [PI/2] about the first axis with [atan2(dy, dx)] about the vertical. *)
Theorem chain_links_tessellates (K : kernel) (p0 p1 p2 : vec3) (N : nat)
    (acc : list handle) (w : world) (j : nat) :
  (1 <= N)%nat -> (j < N)%nat ->
  let r := V4.chain_links K (p0, p1, p2) N acc w in
  let a := Spec.bezier p0 p1 p2 (INR j / INR N) in
  let b := Spec.bezier p0 p1 p2 (INR (j + 1) / INR N) in
  List.length (objects (state r)) = (List.length (objects w) + N)%nat
  /\ List.length (value r) = (List.length acc + N)%nat
  /\ exists seg : object,
       nth_error (objects (state r)) (List.length (objects w) + j) = Some seg
       /\ nth_error (value r) (List.length acc + j) = Some (oid seg)
       /\ option_map topo (data seg) = Some (Prim (Cylinder None 0.035 (dist3 a b)))
       /\ location seg = Spec.midpoint a b
       /\ rotation_euler seg = (PI / 2, 0, atan2 K (vy b - vy a) (vx b - vx a)).
Proof.
  intros HN Hj. destruct w as [objs act sel sq pos].
  cbn [objects]. cbv zeta. unfold V4.chain_links.
  set (mk := fun (_ : nat -> R) (h : handle) (_ : nat) (i : nat) =>
    let q1 := V4.bez (p0, p1, p2) (INR i / INR N) in
    let q2 := V4.bez (p0, p1, p2) (INR (i + 1) / INR N) in
    with_materials [V4.materials "metal"]
      (placed K h (Cylinder None 0.035 (dist3 q1 q2))
         ((vx q1 + vx q2) / 2, (vy q1 + vy q2) / 2, (vz q1 + vz q2) / 2)
         (PI / 2, 0, atan2 K (vy q2 - vy q1) (vx q2 - vx q1)))).
  set (ev := fun (_ : nat -> R) (h : handle) (_ : nat) (i : nat) =>
    let q1 := V4.bez (p0, p1, p2) (INR i / INR N) in
    let q2 := V4.bez (p0, p1, p2) (INR (i + 1) / INR N) in
    [EvPrimitiveAdd (Cylinder None 0.035 (dist3 q1 q2))
       ((vx q1 + vx q2) / 2, (vy q1 + vy q2) / 2, (vz q1 + vz q2) / 2)
       (PI / 2, 0, atan2 K (vy q2 - vy q1) (vx q2 - vx q1));
     EvMaterialsAppend h (V4.materials "metal")]).
  match goal with
  | |- context [for_in _ _ ?body _] =>
    destruct (for_in_spawn body mk ev 0 (fun _ _ _ _ => eq_refl)
                (fun acc' x objs' act' sel' sq' pos' =>
                   chain_link_run K (p0, p1, p2) N acc' x objs' act' sel' sq' pos')
                (range N) acc objs act sel sq pos)
      as [Hobjs [Hval _]]
  end.
  rewrite Hobjs, Hval.
  rewrite !length_app, length_map, spawned_length.
  unfold range. rewrite length_seq.
  split; [ reflexivity | ]. split; [ reflexivity | ].
  rewrite !nth_error_tail.
  rewrite nth_error_map, (spawned_nth (mk sq) 0 N 0 (fresh objs) pos j Hj).
  cbn [option_map Nat.add].
  eexists. split; [ reflexivity | ]. split; [ reflexivity | ].
  unfold mk. cbv zeta. rewrite !bez_is_bezier.
  cbn [with_materials placed data location rotation_euler option_map topo].
  repeat split.
Qed.

(** Twelve links, fourth segment, on an empty scene. *)
Lemma chain_links_tessellates_witness :
  let r := V4.chain_links Example.kernel0 ((0, 0, 2), (1, 1, 1), (2, 0, 2)) 12 []
             (Example.world0 0) in
  (1 <= 12)%nat /\ (3 < 12)%nat
  /\ List.length (objects (state r)) = (0 + 12)%nat.
Proof.
  split; [ apply Nat.leb_le; reflexivity | ].
  split; [ apply Nat.ltb_lt; reflexivity | ].
  refine (proj1 (chain_links_tessellates Example.kernel0 (0, 0, 2) (1, 1, 1) (2, 0, 2)
                   12 [] (Example.world0 0) 3 _ _)).
  - apply Nat.leb_le; reflexivity.
  - apply Nat.ltb_lt; reflexivity.
Defined.

(** ** The other users of the segment recipe *)

(** [cracks_lava] turns each step of a polar polyline (not a Bezier curve)
    into a cylinder by the same recipe: depth the distance of the two
    ends, location their midpoint at height 0.03, rotation
    [(PI/2, 0, atan2(dy, dx))]. *)
Lemma cracks_lava_segments (K : kernel) (w : world) (i s : nat) :
  (i < 8)%nat -> (s < 4)%nat ->
  let run := V4.cracks_lava K (state (cleanup w)) in
  let ang := INR i * (2 * PI) / 8 + PI / 6 in
  let x1 := cos (ang + 0.05 * INR s) * (1.0 + 3.0 * (INR s / INR 4)) in
  let y1 := sin (ang + 0.05 * INR s) * (1.0 + 3.0 * (INR s / INR 4)) in
  let x2 := cos (ang + 0.05 * INR (s + 1)) * (1.0 + 3.0 * (INR (s + 1) / INR 4)) in
  let y2 := sin (ang + 0.05 * INR (s + 1)) * (1.0 + 3.0 * (INR (s + 1) / INR 4)) in
  List.length (value run) = 32%nat
  /\ option_map (fun o => (option_map topo (data o), location o, rotation_euler o))
       (lookup (nth (4 * i + s) (value run) 0%nat) (objects (state run)))
     = Some (Some (Prim (Cylinder None 0.05 (dist2 (x1, y1) (x2, y2)))),
             ((x1 + x2) / 2, (y1 + y2) / 2, 0.03),
             (PI / 2, 0, atan2 K (y2 - y1) (x2 - x1))).
Proof.
  intros Hi Hs. rewrite cleanup_run. cbv zeta. split; [ reflexivity | ].
  destruct i as [ | [ | [ | [ | [ | [ | [ | [ | i ] ] ] ] ] ] ] ];
    [ | | | | | | | | lia ];
    (destruct s as [ | [ | [ | [ | s ] ] ] ]; [ | | | | lia ]); reflexivity.
Qed.

(** ** Ring carving *)

Lemma carved_not_inner (objs : list object) (ring : object) :
  oid ring = fresh objs ->
  ~ In (S (fresh objs)) (map oid (objs ++ [ring])).
Proof.
  intros Hring Hin. rewrite map_app in Hin. apply in_app_or in Hin.
  destruct Hin as [Hin | Hin].
  - apply (older_not_in (S (fresh objs)) objs); [ | exact Hin ].
    apply (older_mono (fresh objs)); [ apply older_fresh | lia ].
  - cbn [map In] in Hin. destruct Hin as [Hin | []]. lia.
Qed.

(** C6: a carve of outer radius [outerRadius], wall [thickness] and depth
    [height] asks the host, in this order, for the outer cylinder, for an
    inner cylinder of radius [outerRadius - thickness] and strictly larger
    depth whose caps lie beyond both caps of the outer one, for a boolean
    difference of the outer by the inner, and for the removal of the
    inner; the scene gains the carved outer object only.  Shown for the
    hexagonal ring of V3 (excess depth 0.1) and the circular ring of V4
    (excess depth 0.05). *)
Theorem ring_carver_sequence (K : kernel) (materials : string -> material)
    (outerRadius thickness height : R) (w : world) :
  let h := fresh (objects w) in
  let loc := (0, 0, height / 2) in
  let hex_outer := Cylinder (Some 6%nat) outerRadius height in
  let hex_inner := Cylinder (Some 6%nat) (outerRadius - thickness) (height + 0.1) in
  let r3 := V3.create_hex_ring K materials outerRadius thickness height w in
  let round_outer := Cylinder None outerRadius height in
  let round_inner := Cylinder None (outerRadius - thickness) (height + 0.05) in
  let r4 := V4.circle_ring K (outerRadius - thickness) outerRadius height "ritual" w in
  (emitted r3
   = [ EvPrimitiveAdd hex_outer loc (0, 0, 0);
       EvPrimitiveAdd hex_inner loc (0, 0, 0);
       EvModifierNew h "Boolean" (BOOLEAN_DIFFERENCE (S h));
       EvModifierApply h "Boolean";
       EvObjectsRemove (S h);
       EvMaterialsAppend h (materials "ritual") ]
   /\ value r3 = h
   /\ (exists ring : object,
         objects (state r3) = objects w ++ [ring]
         /\ oid ring = h
         /\ option_map topo (data ring)
            = Some (Difference (Prim hex_outer) (Prim hex_inner)))
   /\ ~ In (S h) (map oid (objects (state r3)))
   /\ height < height + 0.1
   /\ bottom_cap loc (height + 0.1) < bottom_cap loc height
   /\ top_cap loc height < top_cap loc (height + 0.1))
  /\
  (emitted r4
   = [ EvPrimitiveAdd round_outer loc (0, 0, 0);
       EvPrimitiveAdd round_inner loc (0, 0, 0);
       EvModifierNew h "Boolean" (BOOLEAN_DIFFERENCE (S h));
       EvModifierApply h "Boolean";
       EvObjectsRemove (S h);
       EvMaterialsAppend h (V4.materials "ritual") ]
   /\ value r4 = inr h
   /\ (exists ring : object,
         objects (state r4) = objects w ++ [ring]
         /\ oid ring = h
         /\ option_map topo (data ring)
            = Some (Difference (Prim round_outer) (Prim round_inner)))
   /\ ~ In (S h) (map oid (objects (state r4)))
   /\ height < height + 0.05
   /\ bottom_cap loc (height + 0.05) < bottom_cap loc height
   /\ top_cap loc height < top_cap loc (height + 0.05)).
Proof.
  intros h loc hex_outer hex_inner r3 round_outer round_inner r4.
  assert (Hcaps : forall e : R, 0 < e ->
            height < height + e
            /\ bottom_cap loc (height + e) < bottom_cap loc height
            /\ top_cap loc height < top_cap loc (height + e)).
  { intros e He. unfold bottom_cap, top_cap, loc, vz. cbn [snd].
    repeat split; lra. }
  split.
  - unfold r3. rewrite create_hex_ring_run. cbv zeta.
    cbn [emitted value state objects].
    split; [ reflexivity | ]. split; [ reflexivity | ].
    split.
    { eexists. split; [ reflexivity | ]. split; reflexivity. }
    split; [ apply carved_not_inner; reflexivity | ].
    apply Hcaps; lra.
  - unfold r4.
    rewrite (circle_ring_run K (outerRadius - thickness) outerRadius height "ritual"
               (V4.materials "ritual") w eq_refl).
    cbv zeta.
    cbn [emitted value state objects].
    split; [ reflexivity | ]. split; [ reflexivity | ].
    split.
    { eexists. split; [ reflexivity | ]. split; reflexivity. }
    split; [ apply carved_not_inner; reflexivity | ].
    apply Hcaps; lra.
Qed.





(** ** Scatter placement *)

(** The skull iteration [i] of V3 and V4 leaves: angle from the draw at
    [pos], radial distance from the draw after it. *)
Lemma sqrt_skull_run (K : kernel) (bone : material) (radius : R)
    (acc : list handle) (objs : list object) (act : option handle)
    (sel : list handle) (sq : nat -> R) (pos : nat) :
  let ang := sq pos * (2 * PI) in
  let r := radius * sqrt (sq (S pos)) in
  let ico := IcoSphere (Some 2%nat) 0.12 in
  (u <- random ;;
   let ang := u * (2 * PI) in
   u' <- random ;;
   let r := radius * sqrt u' in
   let x := cos ang * r in
   let y := sin ang * r in
   sk <- primitive_add K (IcoSphere (Some 2%nat) 0.12) (x, y, 0.06) (0, 0, 0) ;;
   mul_scale_z sk 0.8 ;;
   materials_append sk bone ;;
   ret (acc ++ [sk]))
    {| objects := objs; active := act; selected := sel; rng_seq := sq; rng_pos := pos |}
  = {| value := acc ++ [fresh objs];
       state := {| objects := objs ++
                     [with_materials [bone]
                        (with_scale (1, 1, 1 * 0.8)
                           (placed K (fresh objs) ico
                              (cos ang * r, sin ang * r, 0.06) (0, 0, 0)))];
                   active := Some (fresh objs); selected := [fresh objs];
                   rng_seq := sq; rng_pos := pos + 2 |};
       emitted := [EvPrimitiveAdd ico (cos ang * r, sin ang * r, 0.06) (0, 0, 0);
                   EvMaterialsAppend (fresh objs) bone] |}.
Proof.
  cbv zeta.
  run_builder objs.
  replace (pos + 2)%nat with (S (S pos)) by lia. reflexivity.
Qed.

(** The skull iteration [i] of V5: both draws go through [uniform]. *)
Lemma linear_skull_run (K : kernel) (i : nat)
    (acc : list handle) (objs : list object) (act : option handle)
    (sel : list handle) (sq : nat -> R) (pos : nat) :
  let angle := 0 + (2 * PI - 0) * sq pos in
  let r := 2.5 + (5.0 - 2.5) * sq (S pos) in
  let ico := IcoSphere (Some 2%nat) 0.08 in
  (angle <- uniform 0 (2 * PI) ;;
   r <- uniform 2.5 5.0 ;;
   let x := r * cos angle in
   let y := r * sin angle in
   skull <- primitive_add K (IcoSphere (Some 2%nat) 0.08) (x, y, 0.05) V5.no_rotation ;;
   set_name skull ("Skull_" ++ str_of_nat i) ;;
   set_scale skull (1.0, 0.8, 0.85) ;;
   transform_apply ;;
   materials_append skull (V5.mats "bone") ;;
   ret (acc ++ [skull]))
    {| objects := objs; active := act; selected := sel; rng_seq := sq; rng_pos := pos |}
  = {| value := acc ++ [fresh objs];
       state := {| objects := objs ++
                     [{| oid := fresh objs;
                         data := Some {| topo := Prim ico;
                                         verts := map (place (r * cos angle, r * sin angle, 0.05)
                                                         (0, 0, 0) (1.0, 0.8, 0.85))
                                                      (primitive_verts K ico) |};
                         location := (0, 0, 0);
                         rotation_euler := (0, 0, 0);
                         scale := (1, 1, 1);
                         modifiers := [];
                         materials := [V5.mats "bone"];
                         parent := None |}];
                   active := Some (fresh objs); selected := [fresh objs];
                   rng_seq := sq; rng_pos := pos + 2 |};
       emitted := [EvPrimitiveAdd ico (r * cos angle, r * sin angle, 0.05) (0, 0, 0);
                   EvSetName (fresh objs) ("Skull_" ++ str_of_nat i);
                   EvTransformApply [fresh objs];
                   EvMaterialsAppend (fresh objs) (V5.mats "bone")] |}.
Proof.
  cbv zeta. unfold V5.no_rotation.
  run_builder objs.
  replace (pos + 2)%nat with (S (S pos)) by lia. reflexivity.
Qed.

Lemma v3_skull_location (K : kernel) (materials : string -> material)
    (count : nat) (radius : R) (w : world) (i : nat) :
  (i < count)%nat ->
  exists sk : object,
    nth_error (objects (state (V3.create_skulls K materials count radius w)))
              (List.length (objects w) + i) = Some sk
    /\ location sk
       = (cos (rng_seq w (rng_pos w + 2 * i) * (2 * PI))
            * (radius * sqrt (rng_seq w (S (rng_pos w + 2 * i)))),
          sin (rng_seq w (rng_pos w + 2 * i) * (2 * PI))
            * (radius * sqrt (rng_seq w (S (rng_pos w + 2 * i)))),
          0.06).
Proof.
  intros Hi. destruct w as [objs act sel sq pos]. cbn [objects rng_seq rng_pos].
  unfold V3.create_skulls.
  set (mk := fun (s : nat -> R) (h : handle) (p : nat) (_ : nat) =>
    with_materials [materials "bone"]
      (with_scale (1, 1, 1 * 0.8)
         (placed K h (IcoSphere (Some 2%nat) 0.12)
            (cos (s p * (2 * PI)) * (radius * sqrt (s (S p))),
             sin (s p * (2 * PI)) * (radius * sqrt (s (S p))), 0.06) (0, 0, 0)))).
  set (ev := fun (s : nat -> R) (h : handle) (p : nat) (_ : nat) =>
    [EvPrimitiveAdd (IcoSphere (Some 2%nat) 0.12)
       (cos (s p * (2 * PI)) * (radius * sqrt (s (S p))),
        sin (s p * (2 * PI)) * (radius * sqrt (s (S p))), 0.06) (0, 0, 0);
     EvMaterialsAppend h (materials "bone")]).
  match goal with
  | |- context [for_in _ _ ?body _] =>
    destruct (for_in_spawn body mk ev 2 (fun _ _ _ _ => eq_refl)
                (fun acc' _ objs' act' sel' sq' pos' =>
                   sqrt_skull_run K (materials "bone") radius acc' objs' act' sel' sq' pos')
                (range count) [] objs act sel sq pos)
      as [Hobjs _]
  end.
  rewrite Hobjs, nth_error_tail.
  unfold range. rewrite (spawned_nth (mk sq) 2 count 0 (fresh objs) pos i Hi).
  eexists. split; [ reflexivity | ]. reflexivity.
Qed.

Lemma v4_skull_location (K : kernel) (count : nat) (radius : R) (w : world)
    (i : nat) :
  (i < count)%nat ->
  exists sk : object,
    nth_error (objects (state (V4.skulls K count radius w)))
              (List.length (objects w) + i) = Some sk
    /\ location sk
       = (cos (rng_seq w (rng_pos w + 2 * i) * (2 * PI))
            * (radius * sqrt (rng_seq w (S (rng_pos w + 2 * i)))),
          sin (rng_seq w (rng_pos w + 2 * i) * (2 * PI))
            * (radius * sqrt (rng_seq w (S (rng_pos w + 2 * i)))),
          0.06).
Proof.
  intros Hi. destruct w as [objs act sel sq pos]. cbn [objects rng_seq rng_pos].
  unfold V4.skulls.
  set (mk := fun (s : nat -> R) (h : handle) (p : nat) (_ : nat) =>
    with_materials [V4.materials "bone"]
      (with_scale (1, 1, 1 * 0.8)
         (placed K h (IcoSphere (Some 2%nat) 0.12)
            (cos (s p * (2 * PI)) * (radius * sqrt (s (S p))),
             sin (s p * (2 * PI)) * (radius * sqrt (s (S p))), 0.06) (0, 0, 0)))).
  set (ev := fun (s : nat -> R) (h : handle) (p : nat) (_ : nat) =>
    [EvPrimitiveAdd (IcoSphere (Some 2%nat) 0.12)
       (cos (s p * (2 * PI)) * (radius * sqrt (s (S p))),
        sin (s p * (2 * PI)) * (radius * sqrt (s (S p))), 0.06) (0, 0, 0);
     EvMaterialsAppend h (V4.materials "bone")]).
  match goal with
  | |- context [for_in _ _ ?body _] =>
    destruct (for_in_spawn body mk ev 2 (fun _ _ _ _ => eq_refl)
                (fun acc' _ objs' act' sel' sq' pos' =>
                   sqrt_skull_run K (V4.materials "bone") radius acc' objs' act' sel' sq' pos')
                (range count) [] objs act sel sq pos)
      as [Hobjs _]
  end.
  rewrite Hobjs, nth_error_tail.
  unfold range. rewrite (spawned_nth (mk sq) 2 count 0 (fresh objs) pos i Hi).
  eexists. split; [ reflexivity | ]. reflexivity.
Qed.

(** An unrotated object: its mesh is scaled and moved. *)
Lemma place_unrotated (loc scl v : vec3) :
  place loc (0, 0, 0) scl v
  = (vx loc + vx v * vx scl, vy loc + vy v * vy scl, vz loc + vz v * vz scl).
Proof.
  unfold place, translate, euler_xyz, rot_z, rot_y, rot_x, scale_vert, vx, vy, vz.
  cbn [fst snd]. rewrite cos_0, sin_0. f_equal; [ f_equal | ]; ring.
Qed.

(** Skull [i] of V5 after [transform_apply]: the object is back at the
    origin and its mesh has taken the scale and the place it was
    requested at. *)
Lemma v5_skull_baked (K : kernel) (count : nat) (w : world) (i : nat) :
  (i < count)%nat ->
  let u1 := rng_seq w (rng_pos w + 2 * i) in
  let u2 := rng_seq w (S (rng_pos w + 2 * i)) in
  let angle := 0 + (2 * PI - 0) * u1 in
  let r := 2.5 + (5.0 - 2.5) * u2 in
  exists sk : object,
    nth_error (objects (state (V5.create_skulls K count w)))
              (List.length (objects w) + i) = Some sk
    /\ location sk = (0, 0, 0)
    /\ rotation_euler sk = (0, 0, 0)
    /\ scale sk = (1, 1, 1)
    /\ option_map verts (data sk)
       = Some (map (fun v => (r * cos angle + vx v * 1.0,
                              r * sin angle + vy v * 0.8,
                              0.05 + vz v * 0.85))
                 (primitive_verts K (IcoSphere (Some 2%nat) 0.08))).
Proof.
  intros Hi. destruct w as [objs act sel sq pos]. cbn [objects rng_seq rng_pos].
  cbv zeta. unfold V5.create_skulls.
  set (mk := fun (s : nat -> R) (h : handle) (p : nat) (x : nat) =>
    {| oid := h;
       data := Some {| topo := Prim (IcoSphere (Some 2%nat) 0.08);
                       verts := map (place
                                       ((2.5 + (5.0 - 2.5) * s (S p))
                                          * cos (0 + (2 * PI - 0) * s p),
                                        (2.5 + (5.0 - 2.5) * s (S p))
                                          * sin (0 + (2 * PI - 0) * s p),
                                        0.05)
                                       (0, 0, 0) (1.0, 0.8, 0.85))
                                    (primitive_verts K (IcoSphere (Some 2%nat) 0.08)) |};
       location := (0, 0, 0);
       rotation_euler := (0, 0, 0);
       scale := (1, 1, 1);
       modifiers := [];
       materials := [V5.mats "bone"];
       parent := None |}).
  set (ev := fun (s : nat -> R) (h : handle) (p : nat) (x : nat) =>
    [EvPrimitiveAdd (IcoSphere (Some 2%nat) 0.08)
       ((2.5 + (5.0 - 2.5) * s (S p)) * cos (0 + (2 * PI - 0) * s p),
        (2.5 + (5.0 - 2.5) * s (S p)) * sin (0 + (2 * PI - 0) * s p),
        0.05) (0, 0, 0);
     EvSetName h ("Skull_" ++ str_of_nat x);
     EvTransformApply [h];
     EvMaterialsAppend h (V5.mats "bone")]).
  match goal with
  | |- context [for_in _ _ ?body _] =>
    destruct (for_in_spawn body mk ev 2 (fun _ _ _ _ => eq_refl)
                (fun acc' x objs' act' sel' sq' pos' =>
                   linear_skull_run K x acc' objs' act' sel' sq' pos')
                (range count) [] objs act sel sq pos)
      as [Hobjs _]
  end.
  rewrite Hobjs, nth_error_tail.
  unfold range. rewrite (spawned_nth (mk sq) 2 count 0 (fresh objs) pos i Hi).
  eexists. split; [ reflexivity | ].
  unfold mk. cbn [location rotation_euler scale data option_map verts].
  split; [ reflexivity | ]. split; [ reflexivity | ]. split; [ reflexivity | ].
  f_equal. apply map_ext. intros v. rewrite place_unrotated.
  unfold vx, vy, vz. cbn [fst snd Nat.add]. reflexivity.
Qed.

Lemma planar_norm_polar (r a : R) :
  0 <= r -> planar_norm (r * cos a) (r * sin a) = r.
Proof.
  intros Hr. unfold planar_norm. apply sqrt_lem_1; [ | exact Hr | ].
  - nra.
  - assert (H := sin2_cos2 a). unfold Rsqr in H.
    transitivity (r * r * (sin a * sin a + cos a * cos a)); [ rewrite H | ]; ring.
Qed.

Lemma planar_norm_polar' (r a : R) :
  0 <= r -> planar_norm (cos a * r) (sin a * r) = r.
Proof.
  intros Hr. rewrite (Rmult_comm (cos a)), (Rmult_comm (sin a)).
  apply planar_norm_polar. exact Hr.
Qed.

(** C5, as the code has it: V3 and V4 place skull [i] at the angle
    [2 PI u1] and the radial distance [radius * sqrt u2], for the two
    draws [u1], [u2] of that iteration, so that the square of the distance
    is the fraction [u2] of [radius] squared (uniform by area).  V5 asks
    for it at the angle [uniform(0, 2 PI)] and the radial distance
    [uniform(2.5, 5.0)], that is [2.5 + 2.5 u2], linear in the draw, in
    the annulus between 2.5 and 5; its [transform_apply] then moves the
    mesh there and the object back to the origin, so that every vertex
    of the skull is the host's vertex, scaled, at that place. *)
Theorem skull_scatter_laws (K : kernel) (materials : string -> material)
    (count : nat) (radius : R) (w : world) (i : nat) :
  (i < count)%nat ->
  let u1 := rng_seq w (rng_pos w + 2 * i) in
  let u2 := rng_seq w (S (rng_pos w + 2 * i)) in
  let ang := u1 * (2 * PI) in
  let r := radius * sqrt u2 in
  let angle5 := 0 + (2 * PI - 0) * u1 in
  let r5 := 2.5 + (5.0 - 2.5) * u2 in
  (exists sk : object,
     nth_error (objects (state (V3.create_skulls K materials count radius w)))
               (List.length (objects w) + i) = Some sk
     /\ location sk = (cos ang * r, sin ang * r, 0.06))
  /\ (exists sk : object,
        nth_error (objects (state (V4.skulls K count radius w)))
                  (List.length (objects w) + i) = Some sk
        /\ location sk = (cos ang * r, sin ang * r, 0.06))
  /\ (exists sk : object,
        nth_error (objects (state (V5.create_skulls K count w)))
                  (List.length (objects w) + i) = Some sk
        /\ location sk = (0, 0, 0)
        /\ option_map verts (data sk)
           = Some (map (fun v => (r5 * cos angle5 + vx v * 1.0,
                                  r5 * sin angle5 + vy v * 0.8,
                                  0.05 + vz v * 0.85))
                     (primitive_verts K (IcoSphere (Some 2%nat) 0.08))))
  /\ (0 <= u1 < 1 -> 0 <= ang < 2 * PI /\ 0 <= angle5 < 2 * PI)
  /\ (0 <= u2 -> r * r = radius * radius * u2)
  /\ (0 <= radius -> 0 <= u2 -> planar_norm (cos ang * r) (sin ang * r) = r)
  /\ r5 = 2.5 + 2.5 * u2
  /\ (0 <= u2 < 1 ->
      2.5 <= r5 < 5.0 /\ planar_norm (r5 * cos angle5) (r5 * sin angle5) = r5).
Proof.
  intros Hi u1 u2 ang r angle5 r5.
  split; [ exact (v3_skull_location K materials count radius w i Hi) | ].
  split; [ exact (v4_skull_location K count radius w i Hi) | ].
  split.
  { destruct (v5_skull_baked K count w i Hi) as [sk [Hsk [Hloc [_ [_ Hverts]]]]].
    exists sk. split; [ exact Hsk | ]. split; [ exact Hloc | exact Hverts ]. }
  assert (Hpi := PI_RGT_0).
  split.
  { intros [H0 H1]. unfold ang, angle5. repeat split; nra. }
  split.
  { intros H0. unfold r.
    transitivity (radius * radius * (sqrt u2 * sqrt u2)); [ ring | ].
    rewrite (sqrt_sqrt u2 H0). reflexivity. }
  split.
  { intros Hr H0. apply planar_norm_polar'. unfold r.
    apply Rmult_le_pos; [ exact Hr | apply sqrt_pos ]. }
  split; [ unfold r5; lra | ].
  intros [H0 H1].
  assert (Hr5 : 2.5 <= r5 < 5.0) by (unfold r5; split; nra).
  split; [ exact Hr5 | ].
  apply planar_norm_polar. lra.
Qed.

(** The third of eight skulls, on an empty scene. *)
Lemma skull_scatter_laws_witness :
  (2 < 8)%nat
  /\ exists sk : object,
       nth_error (objects (state (V4.skulls Example.kernel0 8 4.8 (Example.world0 0.25))))
                 (0 + 2) = Some sk
       /\ location sk
          = (cos (0.25 * (2 * PI)) * (4.8 * sqrt 0.25),
             sin (0.25 * (2 * PI)) * (4.8 * sqrt 0.25), 0.06).
Proof.
  assert (H : (2 < 8)%nat) by (apply Nat.ltb_lt; reflexivity).
  split; [ exact H | ].
  exact (proj1 (proj2 (skull_scatter_laws Example.kernel0 Example.materials0 8 4.8
                         (Example.world0 0.25) 2 H))).
Defined.

(** C5, as stated, fails on V5: when the generator draws 0, every vertex
    of the first skull lies at planar distance 2.5 from the centre, which
    is not [Rdisk * sqrt 0] for any disk radius [Rdisk]. *)
Lemma v5_skull_radius_is_not_sqrt :
  let w := Example.world0 0 in
  exists (sk : object) (vs : list vec3),
    nth_error (objects (state (V5.create_skulls Example.kernel0 8 w))) 0 = Some sk
    /\ option_map verts (data sk) = Some vs
    /\ vs <> []
    /\ Forall (fun v =>
                 planar_norm (vx v) (vy v) = 2.5
                 /\ forall Rdisk : R,
                      planar_norm (vx v) (vy v) <> Rdisk * sqrt (rng_seq w 1)) vs.
Proof.
  cbv zeta.
  destruct (v5_skull_baked Example.kernel0 8 (Example.world0 0) 0)
    as [sk [Hsk [_ [_ [_ Hverts]]]]].
  { apply Nat.ltb_lt; reflexivity. }
  exists sk. eexists. split; [ exact Hsk | ]. split; [ exact Hverts | ].
  cbn [Example.kernel0 primitive_verts map Example.world0 rng_seq rng_pos].
  split; [ discriminate | ].
  assert (Hnorm : forall a b : R,
            planar_norm ((2.5 + (5.0 - 2.5) * 0) * cos (0 + (2 * PI - 0) * 0) + 0 * a)
                        ((2.5 + (5.0 - 2.5) * 0) * sin (0 + (2 * PI - 0) * 0) + 0 * b)
            = 2.5).
  { intros a b.
    replace ((2.5 + (5.0 - 2.5) * 0) * cos (0 + (2 * PI - 0) * 0) + 0 * a)
      with (2.5 * cos (0 + (2 * PI - 0) * 0)) by lra.
    replace ((2.5 + (5.0 - 2.5) * 0) * sin (0 + (2 * PI - 0) * 0) + 0 * b)
      with (2.5 * sin (0 + (2 * PI - 0) * 0)) by lra.
    apply planar_norm_polar. lra. }
  repeat (apply Forall_cons; [ | ]); [ | | apply Forall_nil ];
    unfold vx, vy; cbn [fst snd]; rewrite Hnorm;
    (split; [ reflexivity | intros Rdisk; rewrite sqrt_0; lra ]).
Qed.

(** ** Layout arithmetic *)

Lemma on_circle (r a : R) :
  (r * cos a) * (r * cos a) + (r * sin a) * (r * sin a) = r * r.
Proof.
  assert (H := sin2_cos2 a). unfold Rsqr in H.
  transitivity (r * r * (sin a * sin a + cos a * cos a)); [ ring | ].
  rewrite H. ring.
Qed.

Lemma dot_on_circle (r a b : R) :
  (r * cos a) * (r * cos b) + (r * sin a) * (r * sin b) = r * r * cos (b - a).
Proof. rewrite cos_minus. ring. Qed.

(** A point at fraction [t] of a chord that subtends a sixth of a turn. *)
Lemma chord_sq (x1 y1 x2 y2 r t : R) :
  x1 * x1 + y1 * y1 = r * r ->
  x2 * x2 + y2 * y2 = r * r ->
  x1 * x2 + y1 * y2 = r * r / 2 ->
  (x1 + (x2 - x1) * t) * (x1 + (x2 - x1) * t)
  + (y1 + (y2 - y1) * t) * (y1 + (y2 - y1) * t)
  = r * r * (1 - t + t * t).
Proof.
  intros H1 H2 H3.
  transitivity ((1 - t) * (1 - t) * (x1 * x1 + y1 * y1)
                + t * t * (x2 * x2 + y2 * y2)
                + 2 * t * (1 - t) * (x1 * x2 + y1 * y2)); [ ring | ].
  rewrite H1, H2, H3. field.
Qed.

Lemma inside_chord (t : R) : 0 < t < 1 -> 3 / 4 <= 1 - t + t * t < 1.
Proof.
  intros [H0 H1]. split.
  - assert (H := Rle_0_sqr (t - 1 / 2)). unfold Rsqr in H. lra.
  - assert (H : 0 < t * (1 - t)) by (apply Rmult_lt_0_compat; lra). lra.
Qed.

(** Cosines and sines of the multiples of a sixth of a turn. *)
Lemma hexagon_angles :
  (cos 0 = 1 /\ sin 0 = 0)
  /\ (cos (PI / 3) = 1 / 2 /\ sin (PI / 3) = sqrt 3 / 2)
  /\ (cos (2 * (PI / 3)) = - 1 / 2 /\ sin (2 * (PI / 3)) = sqrt 3 / 2)
  /\ (cos PI = - 1 /\ sin PI = 0)
  /\ (cos (PI / 3 + PI) = - 1 / 2 /\ sin (PI / 3 + PI) = - sqrt 3 / 2)
  /\ (cos (2 * (PI / 3) + PI) = 1 / 2 /\ sin (2 * (PI / 3) + PI) = - sqrt 3 / 2).
Proof.
  rewrite !neg_cos, !neg_sin.
  rewrite cos_0, sin_0, cos_PI3, sin_PI3, cos_2PI3, sin_2PI3, cos_PI, sin_PI.
  repeat split; lra.
Qed.

(** The six points at radius [r] and angles [i * PI / 3]. *)
Lemma sixth_turns (r : R) :
  map (fun i => (r * cos (INR i * PI / 3), r * sin (INR i * PI / 3))) (range 6)
  = Spec.hexagon_points r.
Proof.
  destruct hexagon_angles as [[C0 S0] [[C1 S1] [[C2 S2] [[C3 S3] [[C4 S4] [C5 S5]]]]]].
  unfold range, Spec.hexagon_points. cbn [seq map].
  replace (INR 0 * PI / 3) with 0 by (simpl; lra).
  replace (INR 1 * PI / 3) with (PI / 3) by (simpl; lra).
  replace (INR 2 * PI / 3) with (2 * (PI / 3)) by (simpl; lra).
  replace (INR 3 * PI / 3) with PI by (simpl; lra).
  replace (INR 4 * PI / 3) with (PI / 3 + PI) by (simpl; lra).
  replace (INR 5 * PI / 3) with (2 * (PI / 3) + PI) by (simpl; lra).
  rewrite C0, S0, C1, S1, C2, S2, C3, S3, C4, S4, C5, S5.
  repeat (f_equal; try field).
Qed.

Lemma v5_anchors (P : V5.ParameterSet) :
  map (V5.pillar_anchor P) (range 6)
  = Spec.hexagon_points (V5.PLATFORM_RADIUS P - 0.7).
Proof.
  rewrite <- sixth_turns. reflexivity.
Qed.

Lemma v3_positions : V3.pillar_positions = Spec.hexagon_points V3.PILLAR_RADIUS_POS.
Proof.
  rewrite <- sixth_turns. unfold V3.pillar_positions, V3.NUM_SIDES.
  apply map_ext. intros i. unfold V3.pillar_position. cbv zeta.
  replace (PI / 6 + INR i * PI / 3 - PI / 6) with (INR i * PI / 3) by lra.
  f_equal; ring.
Qed.

Lemma v4_positions : V4.pillar_positions = Spec.hexagon_points V4.PILLAR_RADIUS_POS.
Proof.
  rewrite <- sixth_turns. unfold V4.pillar_positions, V4.NUM_SIDES.
  apply map_ext. intros i. unfold V4.pillar_position. cbv zeta.
  replace (PI / 6 + INR i * PI / 3 - PI / 6) with (INR i * PI / 3) by lra.
  f_equal; ring.
Qed.

(** C8: the six pillar anchors of the build section, at anchor radius
    [r = PLATFORM_RADIUS - 0.7], are the points [(r, 0)],
    [(r/2, r sqrt 3 / 2)], [(-r/2, r sqrt 3 / 2)], [(-r, 0)],
    [(-r/2, -r sqrt 3 / 2)], [(r/2, -r sqrt 3 / 2)] in this order; anchor
    [i] is at angle [i * PI / 3] and at distance [r] from the origin, and
    the shaft of pillar [i] is placed there.  The positions of V3 and V4
    are the same points at their radius 6.5. *)
Theorem pillar_anchors_hexagon (K : kernel) (P : V5.ParameterSet) (w : world) :
  let r := V5.PLATFORM_RADIUS P - 0.7 in
  0 <= r ->
  map (V5.pillar_anchor P) (range 6) = Spec.hexagon_points r
  /\ (forall i : nat,
        V5.pillar_anchor P i = (r * cos (INR i * PI / 3), r * sin (INR i * PI / 3))
        /\ planar_norm (fst (V5.pillar_anchor P i)) (snd (V5.pillar_anchor P i)) = r)
  /\ (let run := V5.script K P w in
      map (fun i => location_of (objects (state run))
                      (nth (6 * i) (V5.pillars (value run)) 0%nat))
          (range 6)
      = map (fun i => Some (fst (V5.pillar_anchor P i), snd (V5.pillar_anchor P i),
                            V5.PILLAR_HEIGHT P / 2))
            (range 6))
  /\ V3.pillar_positions = Spec.hexagon_points V3.PILLAR_RADIUS_POS
  /\ V4.pillar_positions = Spec.hexagon_points V4.PILLAR_RADIUS_POS.
Proof.
  intros r Hr.
  split; [ apply v5_anchors | ].
  split.
  { intros i. split; [ reflexivity | ].
    unfold V5.pillar_anchor. cbv zeta. cbn [fst snd].
    apply planar_norm_polar. exact Hr. }
  split; [ rewrite script_clean; reflexivity | ].
  split; [ apply v3_positions | apply v4_positions ].
Qed.

(** The canonical anchor radius, 6.3. *)
Lemma pillar_anchors_hexagon_witness :
  0 <= V5.PLATFORM_RADIUS V5.canonical - 0.7
  /\ map (V5.pillar_anchor V5.canonical) (range 6)
     = Spec.hexagon_points (V5.PLATFORM_RADIUS V5.canonical - 0.7).
Proof.
  assert (H : 0 <= V5.PLATFORM_RADIUS V5.canonical - 0.7).
  { unfold V5.PLATFORM_RADIUS, V5.canonical. lra. }
  split; [ exact H | ].
  exact (proj1 (pillar_anchors_hexagon Example.kernel0 V5.canonical
                  (Example.world0 0) H)).
Defined.

(** ** Taper *)

(** C9: the taper of the pillar shaft leaves the axis coordinate of every
    vertex alone; a vertex above the base ([z > 0]) has its two other
    coordinates multiplied by [lerp(1, 0.85, z / PILLAR_HEIGHT)], and a
    vertex with [z <= 0] is not moved at all.  The first script tapers in
    the same way to 0.7.  The shaft in the built scene carries the
    tapered vertices of the host's cylinder. *)
Theorem taper_touches_off_axis_only (K : kernel) (P : V5.ParameterSet)
    (w : world) (v : vec3) :
  let v5 := V5.taper_vertex P v in
  let v1 := V1.taper_vertex v in
  (vz v5 = vz v
   /\ (0 < vz v ->
       vx v5 = vx v * Spec.lerp 1 0.85 (vz v / V5.PILLAR_HEIGHT P)
       /\ vy v5 = vy v * Spec.lerp 1 0.85 (vz v / V5.PILLAR_HEIGHT P))
   /\ (vz v <= 0 -> v5 = v))
  /\ (vz v1 = vz v
      /\ (0 < vz v ->
          vx v1 = vx v * Spec.lerp 1 0.7 (vz v / V1.PILLAR_HEIGHT)
          /\ vy v1 = vy v * Spec.lerp 1 0.7 (vz v / V1.PILLAR_HEIGHT))
      /\ (vz v <= 0 -> v1 = v))
  /\ (let run := V5.script K P w in
      verts_of (objects (state run)) (nth 0 (V5.pillars (value run)) 0%nat)
      = Some (map (V5.taper_vertex P)
                (primitive_verts K
                   (Cylinder (Some 12%nat) (V5.PILLAR_RADIUS P) (V5.PILLAR_HEIGHT P))))).
Proof.
  intros v5 v1. unfold v5, v1, V5.taper_vertex, V1.taper_vertex, Spec.lerp.
  destruct v as [[x y] z]. unfold vx, vy, vz. cbn [fst snd]. cbv zeta.
  split; [ | split ].
  - destruct (Rlt_dec 0 z) as [Hz | Hz]; cbn [fst snd].
    + split; [ reflexivity | ]. split; [ | intros; lra ].
      intros _. split; f_equal; lra.
    + split; [ reflexivity | ]. split; [ intros; lra | reflexivity ].
  - destruct (Rlt_dec 0 z) as [Hz | Hz]; cbn [fst snd].
    + split; [ reflexivity | ]. split; [ | intros; lra ].
      intros _. split; f_equal; lra.
    + split; [ reflexivity | ]. split; [ intros; lra | reflexivity ].
  - rewrite script_clean. reflexivity.
Qed.

(** A vertex of the top cap of the canonical shaft. *)
Lemma taper_touches_off_axis_only_witness :
  0 < vz (0.35, 0, 1.5)
  /\ vx (V5.taper_vertex V5.canonical (0.35, 0, 1.5))
     = vx (0.35, 0, 1.5)
       * Spec.lerp 1 0.85 (vz (0.35, 0, 1.5) / V5.PILLAR_HEIGHT V5.canonical).
Proof.
  assert (H : 0 < vz (0.35, 0, 1.5)) by (unfold vz; cbn [snd]; lra).
  split; [ exact H | ].
  exact (proj1 (proj1 (proj2 (proj1
           (taper_touches_off_axis_only Example.kernel0 V5.canonical
              (Example.world0 0) (0.35, 0, 1.5)))) H)).
Defined.

(** ** Edge spikes *)

Lemma on_circle' (r a : R) :
  (cos a * r) * (cos a * r) + (sin a * r) * (sin a * r) = r * r.
Proof. rewrite <- (on_circle r a). ring. Qed.

Lemma dot_on_circle' (r a b : R) :
  (cos a * r) * (cos b * r) + (sin a * r) * (sin b * r) = r * r * cos (b - a).
Proof. rewrite <- dot_on_circle. ring. Qed.

(** A point whose squared norm is below [r * r] is no point of the circle. *)
Lemma off_circle (p v : vec2) (r : R) :
  fst p * fst p + snd p * snd p < r * r ->
  fst v * fst v + snd v * snd v = r * r ->
  p <> v.
Proof. intros Hp Hv Heq. subst v. lra. Qed.

Lemma shrink_sq (r s : R) : 0 < r -> s < 1 -> r * r * s < r * r.
Proof. intros Hr Hs. assert (0 < r * r) by (apply Rmult_lt_0_compat; lra). nra. Qed.

(** *** V5: three spikes per edge at the quarters *)

Lemma v5_spike_t_inside (i : nat) : (i < 3)%nat -> 0 < V5.spike_t i < 1.
Proof.
  intros Hi. unfold V5.spike_t.
  destruct i as [ | [ | [ | i ] ] ]; [ | | | lia ]; simpl; lra.
Qed.

Lemma v5_spike_t_step (i : nat) : V5.spike_t (S i) - V5.spike_t i = 1 / 4.
Proof.
  unfold V5.spike_t. rewrite !plus_INR, S_INR. simpl. lra.
Qed.

Lemma v5_edge_turn (e : nat) :
  PI / 6 + INR (e + 1) * PI / 3 - (PI / 6 + INR e * PI / 3) = PI / 3.
Proof. rewrite plus_INR. simpl. lra. Qed.

Lemma v5_vertex_sq (P : V5.ParameterSet) (e : nat) :
  let r := V5.PLATFORM_RADIUS P in
  (fst (V5.edge_start P e) * fst (V5.edge_start P e)
   + snd (V5.edge_start P e) * snd (V5.edge_start P e) = r * r)
  /\ (fst (V5.edge_end P e) * fst (V5.edge_end P e)
      + snd (V5.edge_end P e) * snd (V5.edge_end P e) = r * r).
Proof.
  unfold V5.edge_start, V5.edge_end. cbv zeta. cbn [fst snd].
  split; apply on_circle.
Qed.

Lemma v5_spike_sq (P : V5.ParameterSet) (e i : nat) :
  let p := V5.spike_on_edge P e i in
  let r := V5.PLATFORM_RADIUS P in
  let t := V5.spike_t i in
  fst p * fst p + snd p * snd p = r * r * (1 - t + t * t).
Proof.
  unfold V5.spike_on_edge, V5.edge_start, V5.edge_end. cbv zeta. cbn [fst snd].
  apply chord_sq.
  - apply on_circle.
  - apply on_circle.
  - rewrite dot_on_circle, v5_edge_turn, cos_PI3. field.
Qed.

Lemma v5_spike_is_interpolated (P : V5.ParameterSet) (e i : nat) :
  V5.spike_on_edge P e i
  = Spec.interpolate (V5.edge_start P e) (V5.edge_end P e) (INR (i + 1) / 4).
Proof. reflexivity. Qed.

Lemma v5_spike_off_vertices (P : V5.ParameterSet) (e i e' : nat) :
  0 < V5.PLATFORM_RADIUS P -> (i < 3)%nat ->
  V5.spike_on_edge P e i <> V5.edge_start P e'
  /\ V5.spike_on_edge P e i <> V5.edge_end P e'.
Proof.
  intros Hr Hi.
  assert (Hsq := v5_spike_sq P e i). cbv zeta in Hsq.
  assert (Hin := inside_chord (V5.spike_t i) (v5_spike_t_inside i Hi)).
  destruct (v5_vertex_sq P e') as [Hs He].
  split; (eapply off_circle; [ rewrite Hsq; apply shrink_sq; [ exact Hr | lra ] | eassumption ]).
Qed.

Lemma v5_spike_location (K : kernel) (P : V5.ParameterSet) (w : world) (e i : nat) :
  (e < 6)%nat -> (i < 3)%nat ->
  let run := V5.script K P w in
  location_of (objects (state run)) (nth (3 * e + i) (V5.spikes (value run)) 0%nat)
  = Some (fst (V5.spike_position P e i), snd (V5.spike_position P e i), 0.2).
Proof.
  intros He Hi. rewrite script_clean. cbv zeta.
  destruct e as [ | [ | [ | [ | [ | [ | e ] ] ] ] ] ]; [ | | | | | | lia ];
    (destruct i as [ | [ | [ | i ] ] ]; [ | | | lia ]); reflexivity.
Qed.

(** *** V3 and V4: four spikes per edge at the odd eighths *)

Lemma v4_spike_t_inside (j : nat) : (j < 4)%nat -> 0 < V4.spike_t j < 1.
Proof.
  intros Hj. unfold V4.spike_t.
  destruct j as [ | [ | [ | [ | j ] ] ] ]; [ | | | | lia ]; simpl; lra.
Qed.

Lemma v4_spike_t_step (j : nat) : V4.spike_t (S j) - V4.spike_t j = 1 / 4.
Proof. unfold V4.spike_t. rewrite S_INR. lra. Qed.

Lemma some_inj {A : Type} (a b : A) : Some a = Some b -> a = b.
Proof. intros H. injection H as ->. reflexivity. Qed.

(** The subscript [verts[i]] of a list made by [hex_vertices] does not
    raise for [i < 6]. *)
Lemma v4_vertex_at (r off : R) (i : nat) :
  (i < 6)%nat ->
  subscript (V4.hex_vertices r off) i
  = Some (cos (off + INR i * (2 * PI) / INR V4.NUM_SIDES) * r,
          sin (off + INR i * (2 * PI) / INR V4.NUM_SIDES) * r).
Proof.
  intros Hi.
  destruct i as [ | [ | [ | [ | [ | [ | i ] ] ] ] ] ]; [ | | | | | | lia ]; reflexivity.
Qed.

Lemma v4_vertex_sq (r off : R) (v : vec2) :
  In v (V4.hex_vertices r off) -> fst v * fst v + snd v * snd v = r * r.
Proof.
  unfold V4.hex_vertices. intros Hin. apply in_map_iff in Hin.
  destruct Hin as [i [Hv _]]. subst v. cbn [fst snd]. apply on_circle'.
Qed.

Lemma v4_edge_turn (off : R) (i : nat) :
  (i < 6)%nat ->
  cos ((off + INR ((i + 1) mod V4.NUM_SIDES) * (2 * PI) / INR V4.NUM_SIDES)
       - (off + INR i * (2 * PI) / INR V4.NUM_SIDES)) = 1 / 2.
Proof.
  intros Hi. destruct hexagon_angles as [_ [[C1 _] [_ [_ [_ [C5 _]]]]]].
  destruct i as [ | [ | [ | [ | [ | [ | i ] ] ] ] ] ]; [ | | | | | | lia ];
    cbn [Nat.modulo Nat.divmod Nat.add fst snd Nat.sub V4.NUM_SIDES].
  1-5: match goal with |- cos ?a = _ => replace a with (PI / 3) by (simpl; lra) end;
       exact C1.
  match goal with |- cos ?a = _ => replace a with (- (2 * (PI / 3) + PI)) by (simpl; lra) end.
  rewrite cos_neg. exact C5.
Qed.

Lemma v4_spike_sq (r off : R) (i j : nat) (v1 v2 : vec2) :
  (i < 6)%nat ->
  subscript (V4.hex_vertices r off) i = Some v1 ->
  subscript (V4.hex_vertices r off) ((i + 1) mod V4.NUM_SIDES) = Some v2 ->
  let p := V4.spike_position v1 v2 j in
  let t := V4.spike_t j in
  fst p * fst p + snd p * snd p = r * r * (1 - t + t * t).
Proof.
  intros Hi H1 H2. unfold V4.spike_position. cbv zeta.
  rewrite (v4_vertex_at r off i Hi) in H1.
  rewrite (v4_vertex_at r off ((i + 1) mod V4.NUM_SIDES)) in H2
    by (apply Nat.mod_upper_bound; discriminate).
  rewrite <- (some_inj _ _ H1), <- (some_inj _ _ H2).
  cbn [fst snd].
  apply chord_sq.
  - apply on_circle'.
  - apply on_circle'.
  - rewrite dot_on_circle', (v4_edge_turn off i Hi). field.
Qed.

Lemma v4_spike_is_interpolated (v1 v2 : vec2) (j : nat) :
  V4.spike_position v1 v2 j = Spec.interpolate v1 v2 ((INR j + 0.5) / 4).
Proof. reflexivity. Qed.

(** The two scripts have the same hexagon and the same spike formula. *)
Lemma v3_spikes_as_v4 (r off : R) (v1 v2 : vec2) (j : nat) :
  V3.hex_vertices r off = V4.hex_vertices r off
  /\ V3.spike_position v1 v2 j = V4.spike_position v1 v2 j
  /\ V3.spike_t j = V4.spike_t j.
Proof. repeat split. Qed.

(** On a clean scene [edge_spikes] does not raise, returns the handles 1
    to 24, and spike [j] of edge [i] is where the formula says. *)
Lemma v4_spike_location (K : kernel) (w : world) (i j : nat) (v1 v2 : vec2) :
  (i < 6)%nat -> (j < 4)%nat ->
  let verts := V4.hex_vertices (V4.PLATFORM_RADIUS + 0.05) (PI / 6) in
  subscript verts i = Some v1 ->
  subscript verts ((i + 1) mod V4.NUM_SIDES) = Some v2 ->
  let run := V4.edge_spikes K (state (cleanup w)) in
  value run = inr (seq 1 24)
  /\ location_of (objects (state run)) (nth (4 * i + j) (seq 1 24) 0%nat)
     = Some (fst (V4.spike_position v1 v2 j), snd (V4.spike_position v1 v2 j), 0.18).
Proof.
  intros Hi Hj verts H1 H2. rewrite cleanup_run. cbv zeta.
  split; [ reflexivity | ].
  unfold verts in H1, H2.
  destruct i as [ | [ | [ | [ | [ | [ | i ] ] ] ] ] ]; [ | | | | | | lia ];
    rewrite <- (some_inj _ _ H1), <- (some_inj _ _ H2);
    (destruct j as [ | [ | [ | [ | j ] ] ] ]; [ | | | | lia ]); reflexivity.
Qed.

Lemma v3_spike_location (K : kernel) (materials : string -> material) (w : world)
    (i j : nat) (v1 v2 : vec2) :
  (i < 6)%nat -> (j < 4)%nat ->
  let verts := V3.hex_vertices (V3.PLATFORM_RADIUS + 0.05) (PI / 6) in
  subscript verts i = Some v1 ->
  subscript verts ((i + 1) mod V3.NUM_SIDES) = Some v2 ->
  let run := V3.create_edge_spikes K materials (state (cleanup w)) in
  value run = inr (seq 1 24)
  /\ location_of (objects (state run)) (nth (4 * i + j) (seq 1 24) 0%nat)
     = Some (fst (V3.spike_position v1 v2 j), snd (V3.spike_position v1 v2 j), 0.18).
Proof.
  intros Hi Hj verts H1 H2. rewrite cleanup_run. cbv zeta.
  split; [ reflexivity | ].
  unfold verts in H1, H2.
  destruct i as [ | [ | [ | [ | [ | [ | i ] ] ] ] ] ]; [ | | | | | | lia ];
    rewrite <- (some_inj _ _ H1), <- (some_inj _ _ H2);
    (destruct j as [ | [ | [ | [ | j ] ] ] ]; [ | | | | lia ]); reflexivity.
Qed.

(** The facts about one spike of a hexagon of V3 or V4 that do not depend
    on the scene. *)
Lemma v4_spike_on_edge (edge j : nat) :
  (edge < 6)%nat -> (j < 4)%nat ->
  let verts := V4.hex_vertices (V4.PLATFORM_RADIUS + 0.05) (PI / 6) in
  let t := (INR j + 0.5) / 4 in
  exists v1 v2 : vec2,
    subscript verts edge = Some v1
    /\ subscript verts ((edge + 1) mod V4.NUM_SIDES) = Some v2
    /\ V4.spike_position v1 v2 j = Spec.interpolate v1 v2 t
    /\ 0 < t < 1
    /\ V4.spike_t (S j) - V4.spike_t j = 1 / 4
    /\ (forall v : vec2, In v verts -> V4.spike_position v1 v2 j <> v).
Proof.
  intros He Hj verts t.
  assert (Hm : ((edge + 1) mod V4.NUM_SIDES < 6)%nat)
    by (apply Nat.mod_upper_bound; discriminate).
  eexists. eexists.
  split; [ exact (v4_vertex_at _ _ edge He) | ].
  split; [ exact (v4_vertex_at _ _ _ Hm) | ].
  split; [ apply v4_spike_is_interpolated | ].
  split; [ exact (v4_spike_t_inside j Hj) | ].
  split; [ apply v4_spike_t_step | ].
  intros v Hv.
  assert (Hsq := v4_spike_sq (V4.PLATFORM_RADIUS + 0.05) (PI / 6) edge j _ _ He
                   (v4_vertex_at _ _ edge He) (v4_vertex_at _ _ _ Hm)).
  cbv zeta in Hsq.
  assert (Hin := inside_chord (V4.spike_t j) (v4_spike_t_inside j Hj)).
  eapply off_circle; [ | exact (v4_vertex_sq _ _ v Hv) ].
  rewrite Hsq. apply shrink_sq; [ | lra ].
  unfold V4.PLATFORM_RADIUS, V4.PLATFORM_SIZE. lra.
Qed.

(** C4, as the code has it: the four spikes of an edge in V3 and in V4
    sit on the edge at the fractions [(j + 0.5) / 4], the three spikes of
    an edge in V5 are interpolated at the fractions [(j + 1) / 4] (and
    then pulled inward).  In all three, the fractions are a quarter apart
    and strictly between 0 and 1, the interpolated point is the linear
    interpolation of the two ends of the edge, it is no vertex of the
    hexagon, and the spike of the built scene is placed there. *)
Theorem edge_spikes_inside_edges (K : kernel) (materials : string -> material)
    (P : V5.ParameterSet) (w : world) (edge j : nat) :
  (edge < 6)%nat -> 0 < V5.PLATFORM_RADIUS P ->
  ((j < 4)%nat ->
   let verts := V4.hex_vertices (V4.PLATFORM_RADIUS + 0.05) (PI / 6) in
   let t := (INR j + 0.5) / 4 in
   let run := V4.edge_spikes K (state (cleanup w)) in
   exists v1 v2 : vec2,
     subscript verts edge = Some v1
     /\ subscript verts ((edge + 1) mod V4.NUM_SIDES) = Some v2
     /\ V4.spike_position v1 v2 j = Spec.interpolate v1 v2 t
     /\ 0 < t < 1
     /\ V4.spike_t (S j) - V4.spike_t j = 1 / 4
     /\ (forall v : vec2, In v verts -> V4.spike_position v1 v2 j <> v)
     /\ value run = inr (seq 1 24)
     /\ location_of (objects (state run)) (nth (4 * edge + j) (seq 1 24) 0%nat)
        = Some (fst (V4.spike_position v1 v2 j),
                snd (V4.spike_position v1 v2 j), 0.18))
  /\
  ((j < 4)%nat ->
   let verts := V3.hex_vertices (V3.PLATFORM_RADIUS + 0.05) (PI / 6) in
   let t := (INR j + 0.5) / 4 in
   let run := V3.create_edge_spikes K materials (state (cleanup w)) in
   exists v1 v2 : vec2,
     subscript verts edge = Some v1
     /\ subscript verts ((edge + 1) mod V3.NUM_SIDES) = Some v2
     /\ V3.spike_position v1 v2 j = Spec.interpolate v1 v2 t
     /\ 0 < t < 1
     /\ V3.spike_t (S j) - V3.spike_t j = 1 / 4
     /\ (forall v : vec2, In v verts -> V3.spike_position v1 v2 j <> v)
     /\ value run = inr (seq 1 24)
     /\ location_of (objects (state run)) (nth (4 * edge + j) (seq 1 24) 0%nat)
        = Some (fst (V3.spike_position v1 v2 j),
                snd (V3.spike_position v1 v2 j), 0.18))
  /\
  ((j < 3)%nat ->
   let v1 := V5.edge_start P edge in
   let v2 := V5.edge_end P edge in
   let t := INR (j + 1) / 4 in
   let run := V5.script K P w in
   V5.spike_on_edge P edge j = Spec.interpolate v1 v2 t
   /\ 0 < t < 1
   /\ V5.spike_t (S j) - V5.spike_t j = 1 / 4
   /\ (forall e : nat,
         V5.spike_on_edge P edge j <> V5.edge_start P e
         /\ V5.spike_on_edge P edge j <> V5.edge_end P e)
   /\ V5.spike_position P edge j = V5.pull_inward (V5.spike_on_edge P edge j)
   /\ location_of (objects (state run))
        (nth (3 * edge + j) (V5.spikes (value run)) 0%nat)
      = Some (fst (V5.spike_position P edge j),
              snd (V5.spike_position P edge j), 0.2)).
Proof.
  intros He Hr. split; [ | split ].
  - intros Hj verts t run.
    destruct (v4_spike_on_edge edge j He Hj) as [v1 [v2 [H1 [H2 [Hi [Ht [Hs Hv]]]]]]].
    exists v1, v2.
    destruct (v4_spike_location K w edge j v1 v2 He Hj H1 H2) as [Hval Hloc].
    repeat (split; [ assumption | ]). exact Hloc.
  - intros Hj verts t run.
    destruct (v4_spike_on_edge edge j He Hj) as [v1 [v2 [H1 [H2 [Hi [Ht [Hs Hv]]]]]]].
    exists v1, v2.
    destruct (v3_spike_location K materials w edge j v1 v2 He Hj H1 H2) as [Hval Hloc].
    split; [ exact H1 | ]. split; [ exact H2 | ]. split; [ exact Hi | ].
    split; [ exact Ht | ]. split; [ exact Hs | ]. split; [ exact Hv | ].
    split; [ exact Hval | exact Hloc ].
  - intros Hj v1 v2 t run.
    split; [ apply v5_spike_is_interpolated | ].
    split; [ exact (v5_spike_t_inside j Hj) | ].
    split; [ apply v5_spike_t_step | ].
    split; [ intros e; exact (v5_spike_off_vertices P edge j e Hr Hj) | ].
    split; [ reflexivity | ].
    exact (v5_spike_location K P w edge j He Hj).
Qed.

(** The first spike of the first edge of the canonical platform. *)
Lemma edge_spikes_inside_edges_witness :
  (0 < 6)%nat /\ 0 < V5.PLATFORM_RADIUS V5.canonical /\ (0 < 3)%nat
  /\ V5.spike_on_edge V5.canonical 0 0
     = Spec.interpolate (V5.edge_start V5.canonical 0) (V5.edge_end V5.canonical 0)
         (INR (0 + 1) / 4).
Proof.
  assert (He : (0 < 6)%nat) by (apply Nat.ltb_lt; reflexivity).
  assert (Hj : (0 < 3)%nat) by (apply Nat.ltb_lt; reflexivity).
  assert (Hr : 0 < V5.PLATFORM_RADIUS V5.canonical).
  { unfold V5.PLATFORM_RADIUS, V5.canonical. lra. }
  split; [ exact He | ]. split; [ exact Hr | ]. split; [ exact Hj | ].
  exact (proj1 (proj2 (proj2 (edge_spikes_inside_edges Example.kernel0
                                Example.materials0 V5.canonical
                                (Example.world0 0) 0 0 He Hr)) Hj)).
Defined.

(** C4, as stated, fails on V5: with three spikes per edge the first one
    is interpolated at a quarter of the edge, not at [(0 + 0.5) / 3]. *)
Lemma v5_spike_fraction_is_not_centred :
  V5.spike_t 0 = 1 / 4
  /\ V5.spike_on_edge V5.canonical 0 0
     <> Spec.interpolate (V5.edge_start V5.canonical 0) (V5.edge_end V5.canonical 0)
          ((INR 0 + 0.5) / 3).
Proof.
  split; [ unfold V5.spike_t; simpl; lra | ].
  intros Heq. apply (f_equal fst) in Heq. revert Heq.
  unfold V5.spike_on_edge, V5.edge_start, V5.edge_end, V5.spike_t,
    Spec.interpolate, Spec.lerp, V5.PLATFORM_RADIUS, V5.canonical.
  cbv zeta. cbn [fst snd].
  replace (PI / 6 + INR 0 * PI / 3) with (PI / 6) by (simpl; lra).
  replace (PI / 6 + INR (0 + 1) * PI / 3) with (PI / 2) by (simpl; lra).
  rewrite cos_PI6, cos_PI2.
  assert (H3 := Rlt_sqrt3_0). simpl. lra.
Qed.

(** ** The inward pull of the V5 spikes *)

Lemma pull_inward_norm (x y : R) :
  let d := planar_norm x y in
  0.3 < d ->
  V5.pull_inward (x, y) = ((d - 0.3) / d * x, (d - 0.3) / d * y)
  /\ 0 < (d - 0.3) / d
  /\ planar_norm (fst (V5.pull_inward (x, y))) (snd (V5.pull_inward (x, y)))
     = d - 0.3.
Proof.
  intros d Hd.
  assert (Hd2 : d * d = x * x + y * y).
  { unfold d, planar_norm. apply sqrt_sqrt. nra. }
  assert (Heq : V5.pull_inward (x, y) = ((d - 0.3) / d * x, (d - 0.3) / d * y)).
  { unfold V5.pull_inward. cbv zeta. fold (planar_norm x y). fold d.
    f_equal; field; lra. }
  split; [ exact Heq | ].
  split; [ apply Rdiv_lt_0_compat; lra | ].
  rewrite Heq. cbn [fst snd]. unfold planar_norm at 1.
  assert (Hsq : forall z : R, 0 <= z * z) by (intros z; nra).
  apply sqrt_lem_1; [ apply Rplus_le_le_0_compat; apply Hsq | lra | ].
  transitivity ((d - 0.3) / d * ((d - 0.3) / d) * (x * x + y * y)); [ | ring ].
  rewrite <- Hd2. field. lra.
Qed.

(** C10: every edge spike of the canonical run sits at its interpolated
    edge point scaled by the positive factor [(d - 0.3) / d], where [d] is
    the planar distance of that point from the origin: same direction,
    planar distance [d - 0.3], which is below the platform radius 7. *)
Theorem spikes_pulled_inward (K : kernel) (w : world) (edge i : nat) :
  (edge < 6)%nat -> (i < 3)%nat ->
  let run := V5.script K V5.canonical w in
  let p := V5.spike_on_edge V5.canonical edge i in
  let d := planar_norm (fst p) (snd p) in
  let q := V5.spike_position V5.canonical edge i in
  location_of (objects (state run)) (nth (3 * edge + i) (V5.spikes (value run)) 0%nat)
  = Some (fst q, snd q, 0.2)
  /\ q = ((d - 0.3) / d * fst p, (d - 0.3) / d * snd p)
  /\ 0 < (d - 0.3) / d
  /\ planar_norm (fst q) (snd q) = d - 0.3
  /\ planar_norm (fst q) (snd q) < V5.PLATFORM_RADIUS V5.canonical.
Proof.
  intros He Hi. cbv zeta.
  split; [ exact (v5_spike_location K V5.canonical w edge i He Hi) | ].
  assert (Hsq := v5_spike_sq V5.canonical edge i). cbv zeta in Hsq.
  assert (Hin := inside_chord (V5.spike_t i) (v5_spike_t_inside i Hi)).
  assert (Hr : V5.PLATFORM_RADIUS V5.canonical = 7).
  { unfold V5.PLATFORM_RADIUS, V5.canonical. lra. }
  rewrite Hr in *.
  unfold V5.spike_position.
  destruct (V5.spike_on_edge V5.canonical edge i) as [px py].
  cbn [fst snd] in *.
  set (d := planar_norm px py).
  assert (Hd0 : 0 <= d) by apply sqrt_pos.
  assert (Hd2 : d * d = px * px + py * py).
  { unfold d, planar_norm. apply sqrt_sqrt. nra. }
  assert (Hlow : 0.3 < d) by nra.
  assert (Hup : d < 7) by nra.
  destruct (pull_inward_norm px py Hlow) as [Heq [Hc Hn]].
  fold d in Heq, Hc, Hn.
  split; [ exact Heq | ]. split; [ exact Hc | ]. split; [ exact Hn | ].
  rewrite Hn. lra.
Qed.

(** The middle spike of the third edge. *)
Lemma spikes_pulled_inward_witness :
  (2 < 6)%nat /\ (1 < 3)%nat
  /\ planar_norm (fst (V5.spike_position V5.canonical 2 1))
                 (snd (V5.spike_position V5.canonical 2 1))
     < V5.PLATFORM_RADIUS V5.canonical.
Proof.
  assert (He : (2 < 6)%nat) by (apply Nat.ltb_lt; reflexivity).
  assert (Hi : (1 < 3)%nat) by (apply Nat.ltb_lt; reflexivity).
  split; [ exact He | ]. split; [ exact Hi | ].
  exact (proj2 (proj2 (proj2 (proj2
           (spikes_pulled_inward Example.kernel0 (Example.world0 0) 2 1 He Hi))))).
Defined.

(** * Further properties of the scripts *)

(** ** The assembled scene of V5 *)

(** X1: when the script ends, the scene is the kept parts in creation
    order followed by the root empty; the root has no parent and no mesh,
    every other object has the root as its parent, and the root is the
    active and the only selected object.  The loop over the meshes makes
    each of them the active object and asks for smooth shading, 77 times
    in all; the operator acts on the selection, which the loop never
    changes, so every one of the 77 requests reaches the last horn and
    nothing else. *)
Theorem scene_is_a_star (K : kernel) (P : V5.ParameterSet) (w : world) :
  let run := V5.script K P w in
  let objs := objects (state run) in
  let root := V5.root (value run) in
  let last_horn := nth 5 (V5.horns (value run)) 0%nat in
  map oid objs = V5.all_parts (value run) ++ [root]
  /\ Layout.parent_of objs root = None
  /\ is_mesh_in objs root = false
  /\ Forall (fun h => Layout.parent_of objs h = Some root) (V5.all_parts (value run))
  /\ Layout.smooth_targets (emitted run) = repeat [last_horn] 77
  /\ List.length (V5.all_parts (value run)) = 77%nat
  /\ active (state run) = Some root
  /\ selected (state run) = [root].
Proof.
  rewrite script_clean.
  intros run objs root last_horn.
  split; [ vm_compute; reflexivity | ].
  split; [ vm_compute; reflexivity | ].
  split; [ vm_compute; reflexivity | ].
  split.
  { apply Forall_forall. intros h Hh.
    assert (Hall : forallb (fun h' =>
              match Layout.parent_of objs h' with
              | Some p => Nat.eqb p root
              | None => false
              end) (V5.all_parts (value run)) = true) by (vm_compute; reflexivity).
    rewrite forallb_forall in Hall. specialize (Hall h Hh).
    destruct (Layout.parent_of objs h) as [p | ]; [ | discriminate Hall ].
    apply Nat.eqb_eq in Hall. rewrite Hall. reflexivity. }
  split; [ vm_compute; reflexivity | ].
  split; [ vm_compute; reflexivity | ].
  split; vm_compute; reflexivity.
Qed.

(** The six handles of pillar [i], in the order [create_pillar] returns
    them: where the objects are, and what meshes they carry. *)
Lemma pillar_part_locations (K : kernel) (P : V5.ParameterSet) (w : world) (i : nat) :
  (i < 6)%nat ->
  let run := V5.script K P w in
  let objs := objects (state run) in
  let part := fun k => nth (6 * i + k) (V5.pillars (value run)) 0%nat in
  let x := fst (V5.pillar_anchor P i) in
  let y := snd (V5.pillar_anchor P i) in
  let H := V5.PILLAR_HEIGHT P in
  map (fun k => location_of objs (part k)) (range 6)
  = [ Some (x, y, H / 2); Some (x, y, 0.1); Some (x, y, H - 0.06);
      Some (x, y, H + 0.1); Some (x, y, H + 0.25); Some (0, 0, 0) ]
  /\ map (fun k => topo_of objs (part k)) (range 6)
     = [ Some (Prim (Cylinder (Some 12%nat) (V5.PILLAR_RADIUS P) H));
         Some (Prim (Cylinder (Some 12%nat) (V5.PILLAR_RADIUS P * 1.5) 0.2));
         Some (Prim (Cylinder (Some 12%nat) (V5.PILLAR_RADIUS P * 1.2) 0.12));
         Some (Prim (Cone (Some 12%nat) 0.3 0.2 0.2));
         Some (Prim (UVSphere (Some 12%nat) (Some 8%nat) 0.15));
         Some (Prim (IcoSphere (Some 2%nat) 0.12)) ]
  /\ verts_of objs (part 5%nat)
     = Some (map (place (x, y, H + 0.55) (0, 0, 0) (0.7, 0.7, 1.4))
               (primitive_verts K (IcoSphere (Some 2%nat) 0.12))).
Proof.
  intros Hi. rewrite script_clean.
  destruct i as [ | [ | [ | [ | [ | [ | i ] ] ] ] ] ]; [ | | | | | | lia ];
    intros run objs part x y H; (split; [ | split ]); vm_compute; reflexivity.
Qed.

(** X2: the first five parts of a pillar stand on one vertical through
    the pillar's anchor, whatever the pillar height [H]: the base and the
    shaft start on the floor plane [z = 0], the shaft ends at [H], the
    cap ends flush with the shaft at [H], the brazier bowl stands on top
    from [H] to [H + 0.2], and the fire sphere touches down at the middle
    of the bowl.  The crystal is asked for on the same vertical, 0.3
    above the centre of the fire, but its [transform_apply] leaves the
    object at the origin: its place is in its mesh, every vertex being
    the host's vertex stretched by 0.7, 0.7 and 1.4 about the point
    [(x, y, H + 0.55)]. *)
Theorem pillar_parts_stack (K : kernel) (P : V5.ParameterSet) (w : world) (i : nat) :
  (i < 6)%nat ->
  let run := V5.script K P w in
  let objs := objects (state run) in
  let part := fun k => nth (6 * i + k) (V5.pillars (value run)) 0%nat in
  let x := fst (V5.pillar_anchor P i) in
  let y := snd (V5.pillar_anchor P i) in
  let H := V5.PILLAR_HEIGHT P in
  (map (fun k => location_of objs (part k)) (range 6)
   = [ Some (x, y, H / 2); Some (x, y, 0.1); Some (x, y, H - 0.06);
       Some (x, y, H + 0.1); Some (x, y, H + 0.25); Some (0, 0, 0) ]
   /\ map (fun k => topo_of objs (part k)) (range 6)
      = [ Some (Prim (Cylinder (Some 12%nat) (V5.PILLAR_RADIUS P) H));
          Some (Prim (Cylinder (Some 12%nat) (V5.PILLAR_RADIUS P * 1.5) 0.2));
          Some (Prim (Cylinder (Some 12%nat) (V5.PILLAR_RADIUS P * 1.2) 0.12));
          Some (Prim (Cone (Some 12%nat) 0.3 0.2 0.2));
          Some (Prim (UVSphere (Some 12%nat) (Some 8%nat) 0.15));
          Some (Prim (IcoSphere (Some 2%nat) 0.12)) ])
  /\ verts_of objs (part 5%nat)
     = Some (map (fun v => (x + vx v * 0.7, y + vy v * 0.7, H + 0.55 + vz v * 1.4))
               (primitive_verts K (IcoSphere (Some 2%nat) 0.12)))
  /\ bottom_cap (x, y, 0.1) 0.2 = 0
  /\ bottom_cap (x, y, H / 2) H = 0
  /\ top_cap (x, y, H / 2) H = H
  /\ top_cap (x, y, H - 0.06) 0.12 = H
  /\ bottom_cap (x, y, H + 0.1) 0.2 = H
  /\ top_cap (x, y, H + 0.1) 0.2 = H + 0.2
  /\ vz (x, y, H + 0.25) - 0.15 = vz (x, y, H + 0.1)
  /\ H + 0.55 - vz (x, y, H + 0.25) = 0.3.
Proof.
  intros Hi run objs part x y H.
  destruct (pillar_part_locations K P w i Hi) as [Hloc [Htopo Hverts]].
  split; [ split; [ exact Hloc | exact Htopo ] | ].
  split.
  { etransitivity; [ exact Hverts | ].
    f_equal. apply map_ext. intros v.
    rewrite place_unrotated. unfold vx, vy, vz. cbn [fst snd]. reflexivity. }
  unfold bottom_cap, top_cap, vz. cbn [snd].
  repeat split; lra.
Qed.

(** The fourth pillar of the canonical platform. *)
Lemma pillar_parts_stack_witness :
  let run := V5.script Example.kernel0 V5.canonical (Example.world0 0) in
  let objs := objects (state run) in
  let part := fun k => nth (6 * 3 + k) (V5.pillars (value run)) 0%nat in
  let x := fst (V5.pillar_anchor V5.canonical 3) in
  let y := snd (V5.pillar_anchor V5.canonical 3) in
  let H := V5.PILLAR_HEIGHT V5.canonical in
  (3 < 6)%nat
  /\ map (fun k => location_of objs (part k)) (range 6)
     = [ Some (x, y, H / 2); Some (x, y, 0.1); Some (x, y, H - 0.06);
         Some (x, y, H + 0.1); Some (x, y, H + 0.25); Some (0, 0, 0) ]
  /\ verts_of objs (part 5%nat)
     = Some (map (fun v => (x + vx v * 0.7, y + vy v * 0.7, H + 0.55 + vz v * 1.4))
               (primitive_verts Example.kernel0 (IcoSphere (Some 2%nat) 0.12))).
Proof.
  assert (Hi : (3 < 6)%nat) by (apply Nat.ltb_lt; reflexivity).
  split; [ exact Hi | ].
  split.
  - exact (proj1 (proj1
             (pillar_parts_stack Example.kernel0 V5.canonical (Example.world0 0) 3 Hi))).
  - exact (proj1 (proj2
             (pillar_parts_stack Example.kernel0 V5.canonical (Example.world0 0) 3 Hi))).
Defined.

(** X3: the top face of the floor is the plane [z = 0] and its bottom
    face the plane [z = - PLATFORM_HEIGHT], for every platform height;
    all eighteen edge spikes are the same cone of depth 0.4 centred at
    height 0.2, so each stands with its base on that plane. *)
Theorem floor_top_is_ground (K : kernel) (P : V5.ParameterSet) (w : world) :
  let run := V5.script K P w in
  let objs := objects (state run) in
  let H := V5.PLATFORM_HEIGHT P in
  location_of objs (V5.floor (value run)) = Some (0, 0, - H / 2)
  /\ topo_of objs (V5.floor (value run))
     = Some (Bevelled 0.08 2 (Prim (Cylinder (Some 6%nat) (V5.PLATFORM_RADIUS P) H)))
  /\ Layout.rotation_of objs (V5.floor (value run)) = Some (0, 0, PI / 6)
  /\ top_cap (0, 0, - H / 2) H = 0
  /\ bottom_cap (0, 0, - H / 2) H = - H
  /\ map (fun h => option_map vz (location_of objs h)) (V5.spikes (value run))
     = repeat (Some 0.2) 18
  /\ map (topo_of objs) (V5.spikes (value run))
     = repeat (Some (Prim (Cone (Some 6%nat) 0.1 0.0 0.4))) 18
  /\ (forall x y : R, bottom_cap (x, y, 0.2) 0.4 = 0).
Proof.
  rewrite script_clean.
  intros run objs H.
  split; [ reflexivity | ]. split; [ reflexivity | ]. split; [ reflexivity | ].
  split; [ unfold top_cap, vz; cbn [snd]; lra | ].
  split; [ unfold bottom_cap, vz; cbn [snd]; lra | ].
  split; [ reflexivity | ]. split; [ reflexivity | ].
  intros x y. unfold bottom_cap, vz. cbn [snd]. lra.
Qed.

(** X4: the altar is three hexagonal tiers of shrinking radius turned
    like the floor, stacked without gap from the floor plane up to 0.55,
    a fire column standing on the top tier up to 1.75, and an orb whose
    lowest point, 1.7, lies inside the top of the column. *)
Theorem altar_tiers_stack (K : kernel) (P : V5.ParameterSet) (w : world) :
  let run := V5.script K P w in
  let objs := objects (state run) in
  map (location_of objs) (V5.altar (value run))
  = [ Some (0, 0, 0.125); Some (0, 0, 0.35); Some (0, 0, 0.5);
      Some (0, 0, 1.15); Some (0, 0, 1.9) ]
  /\ map (topo_of objs) (V5.altar (value run))
     = [ Some (Prim (Cylinder (Some 6%nat) 1.2 0.25));
         Some (Prim (Cylinder (Some 6%nat) 0.8 0.2));
         Some (Prim (Cylinder (Some 6%nat) 0.5 0.1));
         Some (Prim (Cylinder (Some 16%nat) 0.12 1.2));
         Some (Prim (UVSphere (Some 16%nat) (Some 12%nat) 0.2)) ]
  /\ map (Layout.rotation_of objs) (firstn 3 (V5.altar (value run)))
     = repeat (Layout.rotation_of objs (V5.floor (value run))) 3
  /\ bottom_cap (0, 0, 0.125) 0.25 = 0
  /\ top_cap (0, 0, 0.125) 0.25 = bottom_cap (0, 0, 0.35) 0.2
  /\ top_cap (0, 0, 0.35) 0.2 = bottom_cap (0, 0, 0.5) 0.1
  /\ top_cap (0, 0, 0.5) 0.1 = bottom_cap (0, 0, 1.15) 1.2
  /\ top_cap (0, 0, 1.15) 1.2 = 1.75
  /\ vz (0, 0, 1.9) - 0.2 = 1.7
  /\ 0.12 < 0.5 < 0.8 /\ 0.8 < 1.2.
Proof.
  rewrite script_clean.
  intros run objs.
  split; [ reflexivity | ]. split; [ reflexivity | ]. split; [ reflexivity | ].
  unfold bottom_cap, top_cap, vz. cbn [snd].
  repeat split; lra.
Qed.

(** X5: horn [i] stands at planar distance 0.9 from the centre in the
    direction [i * PI / 3 + PI / 6]; its tilt, the pair of its rotations
    about the first two axes, has size 0.4 and is perpendicular to its
    position. *)
Theorem horns_tilt_across_their_radius (K : kernel) (P : V5.ParameterSet)
    (w : world) (i : nat) :
  (i < 6)%nat ->
  let run := V5.script K P w in
  let objs := objects (state run) in
  let horn := nth i (V5.horns (value run)) 0%nat in
  let a := INR i * PI / 3 + PI / 6 in
  let pos := (0.9 * cos a, 0.9 * sin a) in
  let tilt := (0.4 * sin a, - 0.4 * cos a) in
  location_of objs horn = Some (fst pos, snd pos, 0.55)
  /\ Layout.rotation_of objs horn = Some (fst tilt, snd tilt, 0)
  /\ planar_norm (fst pos) (snd pos) = 0.9
  /\ planar_norm (fst tilt) (snd tilt) = 0.4
  /\ Layout.dot2 tilt pos = 0.
Proof.
  intros Hi.
  assert (Hloc :
    let run := V5.script K P w in
    let objs := objects (state run) in
    let horn := nth i (V5.horns (value run)) 0%nat in
    let a := INR i * PI / 3 + PI / 6 in
    location_of objs horn = Some (0.9 * cos a, 0.9 * sin a, 0.55)
    /\ Layout.rotation_of objs horn = Some (0.4 * sin a, - 0.4 * cos a, 0)).
  { rewrite script_clean.
    destruct i as [ | [ | [ | [ | [ | [ | i ] ] ] ] ] ]; [ | | | | | | lia ];
      intros run objs horn a; split; vm_compute; reflexivity. }
  intros run objs horn a pos tilt.
  destruct Hloc as [Hloc Hrot].
  split; [ exact Hloc | ]. split; [ exact Hrot | ].
  unfold pos, tilt, Layout.dot2. cbn [fst snd].
  split; [ apply planar_norm_polar; lra | ].
  split; [ | nra ].
  unfold planar_norm. apply sqrt_lem_1; [ nra | lra | ].
  assert (H := sin2_cos2 a). unfold Rsqr in H. nra.
Qed.

(** The third horn. *)
Lemma horns_tilt_across_their_radius_witness :
  (2 < 6)%nat
  /\ Layout.dot2 (0.4 * sin (INR 2 * PI / 3 + PI / 6), - 0.4 * cos (INR 2 * PI / 3 + PI / 6))
                 (0.9 * cos (INR 2 * PI / 3 + PI / 6), 0.9 * sin (INR 2 * PI / 3 + PI / 6))
     = 0.
Proof.
  assert (H : (2 < 6)%nat) by (apply Nat.ltb_lt; reflexivity).
  split; [ exact H | ].
  exact (proj2 (proj2 (proj2 (proj2
           (horns_tilt_across_their_radius Example.kernel0 V5.canonical
              (Example.world0 0) 2 H))))).
Defined.

(** ** Hexagons *)

Lemma sqrt3_bounds : 1.7 < sqrt 3 < 1.733.
Proof.
  split.
  - rewrite <- (sqrt_square 1.7) by lra. apply sqrt_lt_1; lra.
  - rewrite <- (sqrt_square 1.733) by lra. apply sqrt_lt_1; lra.
Qed.

(** The distance of two points of a circle a sixth of a turn apart. *)
Lemma chord_length (x1 y1 x2 y2 r : R) :
  0 <= r ->
  x1 * x1 + y1 * y1 = r * r ->
  x2 * x2 + y2 * y2 = r * r ->
  x1 * x2 + y1 * y2 = r * r / 2 ->
  dist2 (x1, y1) (x2, y2) = r.
Proof.
  intros Hr H1 H2 H3. unfold dist2. cbn [fst snd].
  apply sqrt_lem_1; [ nra | exact Hr | ].
  transitivity ((x1 * x1 + y1 * y1) + (x2 * x2 + y2 * y2) - 2 * (x1 * x2 + y1 * y2));
    [ rewrite H1, H2, H3; field | ring ].
Qed.

Lemma turn_back (x : R) : cos (x + 2 * PI) = cos x /\ sin (x + 2 * PI) = sin x.
Proof.
  rewrite cos_plus, sin_plus, cos_2PI, sin_2PI. split; ring.
Qed.

(** X6: the six edges along which V5 places its spikes close up into a
    regular hexagon of side [PLATFORM_RADIUS]: each edge ends where the
    next one starts, the seventh edge is the first one again, both ends
    lie at distance [PLATFORM_RADIUS] from the centre, and every edge has
    length [PLATFORM_RADIUS]. *)
Theorem spike_edges_close_up (P : V5.ParameterSet) (e : nat) :
  0 <= V5.PLATFORM_RADIUS P ->
  V5.edge_end P e = V5.edge_start P (e + 1)
  /\ V5.edge_start P (e + 6) = V5.edge_start P e
  /\ planar_norm (fst (V5.edge_start P e)) (snd (V5.edge_start P e))
     = V5.PLATFORM_RADIUS P
  /\ dist2 (V5.edge_start P e) (V5.edge_end P e) = V5.PLATFORM_RADIUS P.
Proof.
  intros Hr.
  split; [ reflexivity | ].
  split.
  { unfold V5.edge_start. cbv zeta. rewrite plus_INR.
    replace (PI / 6 + (INR e + INR 6) * PI / 3) with (PI / 6 + INR e * PI / 3 + 2 * PI)
      by (simpl; lra).
    destruct (turn_back (PI / 6 + INR e * PI / 3)) as [Hc Hs].
    rewrite Hc, Hs. reflexivity. }
  split.
  { unfold V5.edge_start. cbv zeta. cbn [fst snd].
    apply planar_norm_polar. exact Hr. }
  unfold V5.edge_start, V5.edge_end. cbv zeta.
  apply chord_length.
  - exact Hr.
  - apply on_circle.
  - apply on_circle.
  - rewrite dot_on_circle, v5_edge_turn, cos_PI3. field.
Qed.

(** The canonical radius. *)
Lemma spike_edges_close_up_witness :
  0 <= V5.PLATFORM_RADIUS V5.canonical
  /\ dist2 (V5.edge_start V5.canonical 4) (V5.edge_end V5.canonical 4)
     = V5.PLATFORM_RADIUS V5.canonical.
Proof.
  assert (H : 0 <= V5.PLATFORM_RADIUS V5.canonical).
  { unfold V5.PLATFORM_RADIUS, V5.canonical. lra. }
  split; [ exact H | ].
  exact (proj2 (proj2 (proj2 (spike_edges_close_up V5.canonical 4 H)))).
Defined.

Lemma v5_edge_midpoint (P : V5.ParameterSet) (e : nat) :
  Layout.midpoint2 (V5.edge_start P e) (V5.edge_end P e)
  = Layout.scale2 (V5.PLATFORM_RADIUS P * sqrt 3 / 2)
      (cos (INR (e + 1) * PI / 3), sin (INR (e + 1) * PI / 3)).
Proof.
  unfold Layout.midpoint2, Layout.scale2, V5.edge_start, V5.edge_end.
  cbv zeta. cbn [fst snd].
  set (t := INR (e + 1) * PI / 3).
  replace (PI / 6 + INR e * PI / 3) with (t - PI / 6)
    by (unfold t; rewrite plus_INR; simpl; lra).
  replace (PI / 6 + INR (e + 1) * PI / 3) with (t + PI / 6) by (unfold t; lra).
  rewrite cos_plus, cos_minus, sin_plus, sin_minus, cos_PI6, sin_PI6.
  f_equal; field.
Qed.

(** X7: the pillars of V5 do not stand at the corners of the hexagon its
    spikes follow but on the rays through the middles of its edges:
    pillar [e + 1] and the middle of edge [e] lie in the same direction
    from the centre, the middle at distance [PLATFORM_RADIUS * sqrt 3 / 2]
    and the pillar, at [PLATFORM_RADIUS - 0.7], farther out.  Pillar
    [e + 6] is pillar [e], so this covers all six. *)
Theorem pillars_stand_beyond_edge_middles (P : V5.ParameterSet) (e : nat) :
  5.3 <= V5.PLATFORM_RADIUS P ->
  let r := V5.PLATFORM_RADIUS P in
  let m := Layout.midpoint2 (V5.edge_start P e) (V5.edge_end P e) in
  let a := V5.pillar_anchor P (e + 1) in
  Layout.scale2 (r - 0.7) m = Layout.scale2 (r * sqrt 3 / 2) a
  /\ planar_norm (fst m) (snd m) = r * sqrt 3 / 2
  /\ planar_norm (fst a) (snd a) = r - 0.7
  /\ planar_norm (fst m) (snd m) < planar_norm (fst a) (snd a)
  /\ V5.pillar_anchor P (e + 6) = V5.pillar_anchor P e.
Proof.
  intros Hr r m a. subst r.
  assert (H3 := sqrt3_bounds).
  assert (Hm : planar_norm (fst m) (snd m) = V5.PLATFORM_RADIUS P * sqrt 3 / 2).
  { unfold m. rewrite v5_edge_midpoint. unfold Layout.scale2. cbn [fst snd].
    apply planar_norm_polar. nra. }
  assert (Ha : planar_norm (fst a) (snd a) = V5.PLATFORM_RADIUS P - 0.7).
  { unfold a, V5.pillar_anchor. cbv zeta. cbn [fst snd].
    apply planar_norm_polar. lra. }
  split.
  { unfold m. rewrite v5_edge_midpoint.
    unfold a, V5.pillar_anchor, Layout.scale2. cbv zeta. cbn [fst snd].
    f_equal; field. }
  split; [ exact Hm | ]. split; [ exact Ha | ].
  split; [ rewrite Hm, Ha; nra | ].
  unfold V5.pillar_anchor. cbv zeta. rewrite plus_INR.
  replace ((INR e + INR 6) * PI / 3) with (INR e * PI / 3 + 2 * PI) by (simpl; lra).
  destruct (turn_back (INR e * PI / 3)) as [Hc Hs].
  rewrite Hc, Hs. reflexivity.
Qed.

(** The canonical platform: the middle of an edge is at about 6.06, the
    pillar at 6.3. *)
Lemma pillars_stand_beyond_edge_middles_witness :
  5.3 <= V5.PLATFORM_RADIUS V5.canonical
  /\ planar_norm (fst (V5.pillar_anchor V5.canonical (0 + 1)))
                 (snd (V5.pillar_anchor V5.canonical (0 + 1)))
     = V5.PLATFORM_RADIUS V5.canonical - 0.7.
Proof.
  assert (H : 5.3 <= V5.PLATFORM_RADIUS V5.canonical).
  { unfold V5.PLATFORM_RADIUS, V5.canonical. lra. }
  split; [ exact H | ].
  exact (proj1 (proj2 (proj2 (pillars_stand_beyond_edge_middles V5.canonical 0 H)))).
Defined.

Lemma v4_pillars_are_hex_vertices :
  V4.pillar_positions = V4.hex_vertices V4.PILLAR_RADIUS_POS 0.
Proof.
  unfold V4.pillar_positions, V4.hex_vertices. apply map_ext. intros i.
  unfold V4.pillar_position. cbv zeta.
  replace (PI / 6 + INR i * PI / 3 - PI / 6)
    with (0 + INR i * (2 * PI) / INR V4.NUM_SIDES) by (simpl; lra).
  reflexivity.
Qed.

(** X8: [hex_vertices] returns the six corners of a regular hexagon:
    the subscripts [verts[i]] and [verts[(i+1) % NUM_SIDES]] do not raise
    for [i < 6], every corner lies at distance [radius] from the centre
    and at distance [radius] from the next corner, the last one from the
    first.  The pillar positions of the build section are [hex_vertices]
    at offset 0, while [edge_spikes] takes its hexagon at offset
    [PI / 6]. *)
Theorem hex_vertices_regular (radius offset : R) (i : nat) :
  0 <= radius -> (i < 6)%nat ->
  let verts := V4.hex_vertices radius offset in
  List.length verts = 6%nat
  /\ (exists v v' : vec2,
        subscript verts i = Some v
        /\ subscript verts ((i + 1) mod V4.NUM_SIDES) = Some v'
        /\ planar_norm (fst v) (snd v) = radius
        /\ dist2 v v' = radius)
  /\ V4.pillar_positions = V4.hex_vertices V4.PILLAR_RADIUS_POS 0.
Proof.
  intros Hr Hi verts.
  split; [ reflexivity | ].
  split; [ | exact v4_pillars_are_hex_vertices ].
  unfold verts.
  eexists. eexists.
  split; [ exact (v4_vertex_at radius offset i Hi) | ].
  split.
  { apply (v4_vertex_at radius offset ((i + 1) mod V4.NUM_SIDES)).
    apply Nat.mod_upper_bound; discriminate. }
  cbn [fst snd].
  split; [ apply planar_norm_polar'; exact Hr | ].
  apply chord_length.
  - exact Hr.
  - apply on_circle'.
  - apply on_circle'.
  - rewrite dot_on_circle', (v4_edge_turn offset i Hi). field.
Qed.

(** The last corner of the spike hexagon of V4 and the first. *)
Lemma hex_vertices_regular_witness :
  0 <= 7.05 /\ (5 < 6)%nat
  /\ exists v v' : vec2,
       subscript (V4.hex_vertices 7.05 (PI / 6)) 5 = Some v
       /\ subscript (V4.hex_vertices 7.05 (PI / 6)) ((5 + 1) mod V4.NUM_SIDES) = Some v'
       /\ planar_norm (fst v) (snd v) = 7.05
       /\ dist2 v v' = 7.05.
Proof.
  assert (Hr : 0 <= 7.05) by lra.
  assert (Hi : (5 < 6)%nat) by (apply Nat.ltb_lt; reflexivity).
  split; [ exact Hr | ]. split; [ exact Hi | ].
  exact (proj1 (proj2 (hex_vertices_regular 7.05 (PI / 6) 5 Hr Hi))).
Defined.

(** ** Chains and cracks of V4 *)

(** The curve [chains_between] samples between the pillar tops above [a]
    and [b]. *)
Lemma chain_curve (a b : vec2) (t : R) :
  let pts := V4.chain_points a b in
  let z_top := V4.PILLAR_HEIGHT * 0.9 in
  V4.bez pts 0 = (fst a, snd a, z_top)
  /\ V4.bez pts 1 = (fst b, snd b, z_top)
  /\ vx (V4.bez pts t) = fst a + (fst b - fst a) * t
  /\ vy (V4.bez pts t) = snd a + (snd b - snd a) * t
  /\ vz (V4.bez pts t) = z_top - 0.6 * t * (1 - t).
Proof.
  intros pts z_top.
  unfold pts, V4.chain_points, V4.bez, vx, vy, vz. cbv zeta. cbn [fst snd].
  fold z_top.
  split; [ f_equal; [ f_equal | ]; lra | ].
  split; [ f_equal; [ f_equal | ]; lra | ].
  repeat split; lra.
Qed.

(** On a clean scene and a list of at least six positions
    [chains_between] does not raise and returns 72 links; link [j] of
    chain [i] spans two samples of the curve between positions [i] and
    [i + 1], the sixth chain closing the hexagon. *)
Lemma chains_between_link (K : kernel) (pillar_positions : list vec2) (w : world)
    (i j : nat) (a b : vec2) :
  (6 <= List.length pillar_positions)%nat ->
  (i < 6)%nat -> (j < 12)%nat ->
  subscript pillar_positions i = Some a ->
  subscript pillar_positions ((i + 1) mod V4.NUM_SIDES) = Some b ->
  let run := V4.chains_between K pillar_positions (state (cleanup w)) in
  let objs := objects (state run) in
  let p1 := V4.bez (V4.chain_points a b) (INR j / INR 12) in
  let p2 := V4.bez (V4.chain_points a b) (INR (j + 1) / INR 12) in
  value run = inr (seq 1 72)
  /\ location_of objs (12 * i + j + 1)%nat = Some (Spec.midpoint p1 p2)
  /\ topo_of objs (12 * i + j + 1)%nat = Some (Prim (Cylinder None 0.035 (dist3 p1 p2))).
Proof.
  intros Hlen Hi Hj Ha Hb. rewrite cleanup_run.
  destruct pillar_positions as [ | a0 [ | a1 [ | a2 [ | a3 [ | a4 [ | a5 rest ] ] ] ] ] ];
    cbn [List.length] in Hlen; try lia.
  clear Hlen.
  destruct i as [ | [ | [ | [ | [ | [ | i ] ] ] ] ] ]; [ | | | | | | lia ];
    rewrite <- (some_inj _ _ Ha), <- (some_inj _ _ Hb); clear Ha Hb;
    (destruct j as [ | [ | [ | [ | [ | [ | [ | [ | [ | [ | [ | [ | j ] ] ] ] ] ] ] ] ] ] ] ];
       [ | | | | | | | | | | | | lia ]);
    intros run objs p1 p2; (split; [ | split ]); vm_compute; reflexivity.
Qed.

(** On a list of fewer than six positions the subscript of the chain
    that would close the list raises [IndexError]; the chains before it
    are in the scene by then. *)
Lemma chains_between_short (K : kernel) (pillar_positions : list vec2) (w : world) :
  (List.length pillar_positions < 6)%nat ->
  let run := V4.chains_between K pillar_positions (state (cleanup w)) in
  value run = inl IndexError
  /\ List.length (objects (state run)) = (12 * (List.length pillar_positions - 1))%nat.
Proof.
  intros Hlen. rewrite cleanup_run.
  destruct pillar_positions as [ | a0 [ | a1 [ | a2 [ | a3 [ | a4 [ | a5 rest ] ] ] ] ] ];
    cbn [List.length] in Hlen; try lia;
    intros run; split; vm_compute; reflexivity.
Qed.

(** X9: on a clean scene [chains_between] needs six pillar positions.
    Given at least six it returns 72 links, twelve for each pair of
    neighbouring pillars, the sixth pair closing the hexagon; link [j] of
    chain [i] is a cylinder whose depth is the distance of the samples
    [j / 12] and [(j + 1) / 12] of the chain's curve, placed at their
    midpoint.  The curve starts at the top of one pillar and ends at the
    top of the next, is the straight segment between them seen from
    above, and has height [z_top - 0.6 t (1 - t)]: it never rises above
    the pillar tops and sags by 0.15 at most, at the middle.  Given fewer
    than six positions the function raises [IndexError], with the chains
    before the failing subscript already built. *)
Theorem chains_sag_between_tops (K : kernel) (pillar_positions : list vec2)
    (w : world) (i j : nat) (a b : vec2) (t : R) :
  (6 <= List.length pillar_positions)%nat ->
  (i < 6)%nat -> (j < 12)%nat ->
  subscript pillar_positions i = Some a ->
  subscript pillar_positions ((i + 1) mod V4.NUM_SIDES) = Some b ->
  0 <= t <= 1 ->
  let run := V4.chains_between K pillar_positions (state (cleanup w)) in
  let objs := objects (state run) in
  let pts := V4.chain_points a b in
  let p1 := V4.bez pts (INR j / INR 12) in
  let p2 := V4.bez pts (INR (j + 1) / INR 12) in
  let z_top := V4.PILLAR_HEIGHT * 0.9 in
  (value run = inr (seq 1 72)
   /\ location_of objs (12 * i + j + 1)%nat = Some (Spec.midpoint p1 p2)
   /\ topo_of objs (12 * i + j + 1)%nat
      = Some (Prim (Cylinder None 0.035 (dist3 p1 p2))))
  /\ (V4.bez pts 0 = (fst a, snd a, z_top)
      /\ V4.bez pts 1 = (fst b, snd b, z_top)
      /\ vx (V4.bez pts t) = fst a + (fst b - fst a) * t
      /\ vy (V4.bez pts t) = snd a + (snd b - snd a) * t
      /\ vz (V4.bez pts t) = z_top - 0.6 * t * (1 - t)
      /\ z_top - 0.15 <= vz (V4.bez pts t) <= z_top
      /\ vz (V4.bez pts (1 / 2)) = z_top - 0.15)
  /\ (forall short : list vec2,
        (List.length short < 6)%nat ->
        let failed := V4.chains_between K short (state (cleanup w)) in
        value failed = inl IndexError
        /\ List.length (objects (state failed))
           = (12 * (List.length short - 1))%nat).
Proof.
  intros Hlen Hi Hj Ha Hb [Ht0 Ht1] run objs pts p1 p2 z_top.
  split; [ exact (chains_between_link K pillar_positions w i j a b Hlen Hi Hj Ha Hb) | ].
  split; [ | intros short Hshort; exact (chains_between_short K short w Hshort) ].
  destruct (chain_curve a b t) as [H0 [H1 [Hx [Hy Hz]]]].
  destruct (chain_curve a b (1 / 2)) as [_ [_ [_ [_ Hmid]]]].
  split; [ exact H0 | ]. split; [ exact H1 | ].
  split; [ exact Hx | ]. split; [ exact Hy | ]. split; [ exact Hz | ].
  fold pts in Hz, Hmid. fold z_top in Hz, Hmid.
  split.
  { rewrite Hz.
    assert (H := Rle_0_sqr (t - 1 / 2)). unfold Rsqr in H.
    split; nra. }
  rewrite Hmid. lra.
Qed.

(** The pillar positions of the build section, third chain, fifth link,
    a quarter of the way along. *)
Lemma chains_sag_between_tops_witness :
  let run := V4.chains_between Example.kernel0 V4.pillar_positions
               (state (cleanup (Example.world0 0))) in
  (6 <= List.length V4.pillar_positions)%nat
  /\ (2 < 6)%nat /\ (4 < 12)%nat
  /\ subscript V4.pillar_positions 2 = Some (V4.pillar_position 2)
  /\ subscript V4.pillar_positions ((2 + 1) mod V4.NUM_SIDES) = Some (V4.pillar_position 3)
  /\ 0 <= 0.25 <= 1
  /\ value run = inr (seq 1 72).
Proof.
  assert (Hlen : (6 <= List.length V4.pillar_positions)%nat)
    by (apply Nat.leb_le; reflexivity).
  assert (Hi : (2 < 6)%nat) by (apply Nat.ltb_lt; reflexivity).
  assert (Hj : (4 < 12)%nat) by (apply Nat.ltb_lt; reflexivity).
  assert (Ha : subscript V4.pillar_positions 2 = Some (V4.pillar_position 2))
    by reflexivity.
  assert (Hb : subscript V4.pillar_positions ((2 + 1) mod V4.NUM_SIDES)
               = Some (V4.pillar_position 3)) by reflexivity.
  assert (Ht : 0 <= 0.25 <= 1) by lra.
  repeat (split; [ assumption | ]).
  exact (proj1 (proj1 (chains_sag_between_tops Example.kernel0 V4.pillar_positions
                         (Example.world0 0) 2 4 _ _ 0.25 Hlen Hi Hj Ha Hb Ht))).
Defined.

(** The axis of a cylinder added with the rotation [(PI/2, 0, theta)]:
    the tilt about [x] lays it down along [-y], and the turn about the
    vertical takes it to the direction [theta - PI/2]. *)
Lemma axis_tilted (theta : R) :
  Layout.axis_of (PI / 2, 0, theta) = (sin theta, - cos theta, 0)
  /\ Layout.dot3 (Layout.axis_of (PI / 2, 0, theta)) (cos theta, sin theta, 0) = 0.
Proof.
  assert (H : Layout.axis_of (PI / 2, 0, theta) = (sin theta, - cos theta, 0)).
  { unfold Layout.axis_of, euler_xyz, rot_z, rot_y, rot_x, vx, vy, vz.
    cbn [fst snd]. rewrite cos_PI2, sin_PI2, cos_0, sin_0.
    f_equal; [ f_equal | ]; ring. }
  split; [ exact H | ].
  rewrite H. unfold Layout.dot3, vx, vy, vz. cbn [fst snd]. ring.
Qed.




(** ** Random draws of the V5 script *)

(** X11: in a run of the script the only random draws are those of the
    skulls: skull [j] takes its angle from draw [2 j] and its radial
    distance from draw [2 j + 1] of the sequence the seed fixes, and the
    run ends with sixteen draws consumed.  The skull is asked for at that
    angle and distance, 0.05 above the floor; [transform_apply] then
    leaves the object at the origin, unrotated and unscaled, with every
    vertex of its mesh the host's vertex, scaled by 1, 0.8 and 0.85, at
    the place asked for.  When the draws lie in [0, 1), as those of
    [random.random()] do, that place is at planar distance at least 2.5
    and less than 5 from the centre. *)
Theorem script_skulls_in_annulus (K : kernel) (P : V5.ParameterSet) (w : world)
    (j : nat) :
  (forall n : nat, 0 <= mersenne K (V5.SEED P) n < 1) ->
  (j < 8)%nat ->
  let run := V5.script K P w in
  let objs := objects (state run) in
  let skull := nth j (V5.skulls (value run)) 0%nat in
  let angle := 0 + (2 * PI - 0) * mersenne K (V5.SEED P) (2 * j) in
  let r := 2.5 + (5.0 - 2.5) * mersenne K (V5.SEED P) (2 * j + 1) in
  location_of objs skull = Some (0, 0, 0)
  /\ verts_of objs skull
     = Some (map (fun v => (r * cos angle + vx v * 1.0,
                            r * sin angle + vy v * 0.8,
                            0.05 + vz v * 0.85))
               (primitive_verts K (IcoSphere (Some 2%nat) 0.08)))
  /\ 2.5 <= planar_norm (r * cos angle) (r * sin angle) < 5
  /\ rng_seq (state run) = mersenne K (V5.SEED P)
  /\ rng_pos (state run) = 16%nat.
Proof.
  intros Hdraw Hj.
  assert (Hloc :
    let run := V5.script K P w in
    let objs := objects (state run) in
    let skull := nth j (V5.skulls (value run)) 0%nat in
    let angle := 0 + (2 * PI - 0) * mersenne K (V5.SEED P) (2 * j) in
    let r := 2.5 + (5.0 - 2.5) * mersenne K (V5.SEED P) (2 * j + 1) in
    location_of objs skull = Some (0, 0, 0)
    /\ verts_of objs skull
       = Some (map (place (r * cos angle, r * sin angle, 0.05) (0, 0, 0) (1.0, 0.8, 0.85))
                 (primitive_verts K (IcoSphere (Some 2%nat) 0.08)))).
  { rewrite script_clean.
    destruct j as [ | [ | [ | [ | [ | [ | [ | [ | j ] ] ] ] ] ] ] ];
      [ | | | | | | | | lia ];
      intros run objs skull angle r; split; vm_compute; reflexivity. }
  intros run objs skull angle r.
  destruct Hloc as [Hloc Hverts].
  split; [ exact Hloc | ].
  split.
  { etransitivity; [ exact Hverts | ].
    f_equal. apply map_ext. intros v.
    rewrite place_unrotated. unfold vx, vy, vz. cbn [fst snd]. reflexivity. }
  assert (Hr : 2.5 <= r < 5).
  { unfold r. specialize (Hdraw (2 * j + 1)%nat). lra. }
  split; [ rewrite planar_norm_polar by lra; exact Hr | ].
  unfold run. rewrite script_clean.
  split; vm_compute; reflexivity.
Qed.

(** A generator that always draws 0. *)
Lemma script_skulls_in_annulus_witness :
  (forall n : nat, 0 <= mersenne Example.kernel0 (V5.SEED V5.canonical) n < 1)
  /\ (7 < 8)%nat
  /\ rng_pos (state (V5.script Example.kernel0 V5.canonical (Example.world0 0.5)))
     = 16%nat.
Proof.
  assert (Hd : forall n : nat, 0 <= mersenne Example.kernel0 (V5.SEED V5.canonical) n < 1).
  { intros n. cbn [mersenne Example.kernel0]. lra. }
  assert (Hj : (7 < 8)%nat) by (apply Nat.ltb_lt; reflexivity).
  split; [ exact Hd | ]. split; [ exact Hj | ].
  exact (proj2 (proj2 (proj2 (proj2
           (script_skulls_in_annulus Example.kernel0 V5.canonical
              (Example.world0 0.5) 7 Hd Hj))))).
Defined.

(** ** Builders on an arbitrary scene *)

Lemma spawned_nth_list {A : Type} (mk : handle -> nat -> A -> object) (draws : nat)
    (l : list A) :
  forall h pos j x, nth_error l j = Some x ->
    nth_error (spawned mk draws l h pos) j
    = Some (mk (h + j)%nat (pos + draws * j)%nat x).
Proof.
  induction l as [ | y l IH ]; intros h pos j x Hj.
  - destruct j; discriminate Hj.
  - destruct j as [ | j ]; cbn [spawned nth_error] in *.
    + injection Hj as ->. rewrite !Nat.add_0_r, Nat.mul_0_r, Nat.add_0_r. reflexivity.
    + rewrite (IH (S h) (pos + draws)%nat j x Hj). f_equal. f_equal; lia.
Qed.

Lemma firstn_tail {A : Type} (l tl : list A) : firstn (List.length l) (l ++ tl) = l.
Proof.
  rewrite firstn_app, Nat.sub_diag, firstn_all. cbn [firstn]. apply app_nil_r.
Qed.

Lemma rune_beam_run (K : kernel) (acc : list handle) (pos : vec2)
    (objs : list object) (act : option handle) (sel : list handle)
    (sq : nat -> R) (p : nat) :
  let beam := Cylinder None 0.04 (sqrt (fst pos * fst pos + snd pos * snd pos) + 0.1) in
  let loc := (fst pos / 2, snd pos / 2, 0.12) in
  let rot := (PI / 2, 0, atan2 K (snd pos) (fst pos)) in
  (let '(x, y) := pos in
   let midz := 0.12 in
   beam <- primitive_add K (Cylinder None 0.04 (sqrt (x * x + y * y) + 0.1))
             (x / 2, y / 2, midz) (PI / 2, 0, atan2 K y x) ;;
   materials_append beam (V4.materials "ritual") ;;
   ret (acc ++ [beam]))
    {| objects := objs; active := act; selected := sel; rng_seq := sq; rng_pos := p |}
  = {| value := acc ++ [fresh objs];
       state := {| objects := objs ++
                     [with_materials [V4.materials "ritual"]
                        (placed K (fresh objs) beam loc rot)];
                   active := Some (fresh objs); selected := [fresh objs];
                   rng_seq := sq; rng_pos := p + 0 |};
       emitted := [EvPrimitiveAdd beam loc rot;
                   EvMaterialsAppend (fresh objs) (V4.materials "ritual")] |}.
Proof.
  destruct pos as [x y]. cbv zeta. cbn [fst snd].
  run_builder objs.
  rewrite Nat.add_0_r. reflexivity.
Qed.

(** X12: [rune_beams] adds one cylinder for each pillar position and
    touches nothing else in the scene; for an empty list it does nothing.
    The beam of a pillar at [(x, y)] is centred half way between the
    centre of the platform and the pillar, at height 0.12, and is 0.1
    longer than the pillar is far.  Its rotation [(PI / 2, 0, theta)],
    with [theta = atan2(y, x)], lays the axis of the cylinder flat along
    [(sin theta, - cos theta, 0)]: when [theta] is the polar angle of the
    pillar, the beam lies across the line from the centre to the pillar,
    not along it. *)
Theorem rune_beams_lie_across_the_radius (K : kernel) (positions : list vec2)
    (w : world) (j : nat) (x y : R) :
  nth_error positions j = Some (x, y) ->
  let run := V4.rune_beams K positions w in
  let far := planar_norm x y in
  let theta := atan2 K y x in
  List.length (objects (state run))
  = (List.length (objects w) + List.length positions)%nat
  /\ firstn (List.length (objects w)) (objects (state run)) = objects w
  /\ List.length (value run) = List.length positions
  /\ (exists beam : object,
        nth_error (objects (state run)) (List.length (objects w) + j) = Some beam
        /\ nth_error (value run) j = Some (oid beam)
        /\ location beam = (x / 2, y / 2, 0.12)
        /\ option_map topo (data beam) = Some (Prim (Cylinder None 0.04 (far + 0.1)))
        /\ rotation_euler beam = (PI / 2, 0, theta)
        /\ Layout.axis_of (rotation_euler beam) = (sin theta, - cos theta, 0))
  /\ planar_norm (x / 2) (y / 2) = far / 2
  /\ (x = far * cos theta -> y = far * sin theta ->
      Layout.dot3 (Layout.axis_of (PI / 2, 0, theta)) (x, y, 0) = 0)
  /\ V4.rune_beams K [] w = ret [] w.
Proof.
  intros Hj. destruct w as [objs act sel sq pos]. cbn [objects]. cbv zeta.
  unfold V4.rune_beams at 1 2 3 4 5.
  set (mk := fun (_ : nat -> R) (h : handle) (_ : nat) (p : vec2) =>
    with_materials [V4.materials "ritual"]
      (placed K h (Cylinder None 0.04 (sqrt (fst p * fst p + snd p * snd p) + 0.1))
         (fst p / 2, snd p / 2, 0.12) (PI / 2, 0, atan2 K (snd p) (fst p)))).
  set (ev := fun (_ : nat -> R) (h : handle) (_ : nat) (p : vec2) =>
    [EvPrimitiveAdd (Cylinder None 0.04 (sqrt (fst p * fst p + snd p * snd p) + 0.1))
       (fst p / 2, snd p / 2, 0.12) (PI / 2, 0, atan2 K (snd p) (fst p));
     EvMaterialsAppend h (V4.materials "ritual")]).
  match goal with
  | |- context [for_in _ _ ?body _] =>
    destruct (for_in_spawn body mk ev 0 (fun _ _ _ _ => eq_refl)
                (fun acc' p objs' act' sel' sq' pos' =>
                   rune_beam_run K acc' p objs' act' sel' sq' pos')
                positions [] objs act sel sq pos)
      as [Hobjs [Hval _]]
  end.
  rewrite Hobjs, Hval.
  assert (Hhalf : planar_norm (x / 2) (y / 2) = planar_norm x y / 2).
  { unfold planar_norm. apply sqrt_lem_1.
    - nra.
    - assert (H := sqrt_pos (x * x + y * y)). lra.
    - assert (H : sqrt (x * x + y * y) * sqrt (x * x + y * y) = x * x + y * y)
        by (apply sqrt_sqrt; nra).
      nra. }
  split; [ rewrite length_app, spawned_length; reflexivity | ].
  split; [ apply firstn_tail | ].
  split; [ cbn [app]; rewrite length_map, spawned_length; reflexivity | ].
  split.
  { rewrite nth_error_tail. cbn [app].
    rewrite nth_error_map,
      (spawned_nth_list (mk sq) 0 positions (fresh objs) pos j (x, y) Hj).
    cbn [option_map].
    eexists. split; [ reflexivity | ]. split; [ reflexivity | ].
    unfold mk. cbn [with_materials placed location data rotation_euler option_map topo fst snd].
    split; [ reflexivity | ]. split; [ reflexivity | ]. split; [ reflexivity | ].
    exact (proj1 (axis_tilted (atan2 K y x))). }
  split; [ exact Hhalf | ].
  split; [ | reflexivity ].
  intros Hx Hy.
  rewrite (proj1 (axis_tilted (atan2 K y x))).
  unfold Layout.dot3, vx, vy, vz. cbn [fst snd].
  assert (E : forall a b c s f : R,
            a = f * c -> b = f * s -> s * a + - c * b + 0 * 0 = 0)
    by (intros a b c s f -> ->; ring).
  exact (E _ _ _ _ _ Hx Hy).
Qed.

(** The second pillar of the build section. *)
Lemma rune_beams_lie_across_the_radius_witness :
  nth_error [(6.5, 0); (3.25, 5.6)] 1 = Some (3.25, 5.6)
  /\ List.length
       (value (V4.rune_beams Example.kernel0 [(6.5, 0); (3.25, 5.6)] (Example.world0 0)))
     = List.length [(6.5, 0); (3.25, 5.6)].
Proof.
  assert (H : nth_error [(6.5, 0); (3.25, 5.6)] 1 = Some (3.25, 5.6)) by reflexivity.
  split; [ exact H | ].
  exact (proj1 (proj2 (proj2
           (rune_beams_lie_across_the_radius Example.kernel0 [(6.5, 0); (3.25, 5.6)]
              (Example.world0 0) 1 3.25 5.6 H)))).
Defined.

Lemma edge_decoration_run (K : kernel) (materials : string -> material) (i : nat)
    (acc : list handle) (objs : list object) (act : option handle)
    (sel : list handle) (sq : nat -> R) (p : nat) :
  let cone := Cone (Some 4%nat) 0.15 0 0.4 in
  let loc := (fst (V1.decoration_position i), snd (V1.decoration_position i), 0.2) in
  (let '(x, y) := V1.decoration_position i in
   spike <- primitive_add K (Cone (Some 4%nat) 0.15 0 0.4) (x, y, 0.2) (0, 0, 0) ;;
   set_name spike ("Edge_Spike_" ++ str_of_nat i)%string ;;
   set_rotation_z spike (V1.decoration_angle i) ;;
   materials_append spike (materials "obsidian") ;;
   ret (acc ++ [spike]))
    {| objects := objs; active := act; selected := sel; rng_seq := sq; rng_pos := p |}
  = {| value := acc ++ [fresh objs];
       state := {| objects := objs ++
                     [with_materials [materials "obsidian"]
                        (placed K (fresh objs) cone loc
                           (0, 0, V1.decoration_angle i))];
                   active := Some (fresh objs); selected := [fresh objs];
                   rng_seq := sq; rng_pos := p + 0 |};
       emitted := [EvPrimitiveAdd cone loc (0, 0, 0);
                   EvSetName (fresh objs) ("Edge_Spike_" ++ str_of_nat i)%string;
                   EvMaterialsAppend (fresh objs) (materials "obsidian")] |}.
Proof.
  unfold V1.decoration_position. cbv zeta. cbn [fst snd].
  run_builder objs.
  rewrite Nat.add_0_r. reflexivity.
Qed.

(** The names the loop of [create_edge_decorations] asks for, from any
    start of the range. *)
Lemma edge_decoration_names (K : kernel) (materials : string -> material) (n : nat) :
  forall (s : nat) (acc : list handle) (objs : list object) (act : option handle)
         (sel : list handle) (sq : nat -> R) (p : nat),
    Layout.names_set
      (emitted
         (for_in (seq s n) acc (fun decorations i =>
            let '(x, y) := V1.decoration_position i in
            spike <- primitive_add K (Cone (Some 4%nat) 0.15 0 0.4) (x, y, 0.2) (0, 0, 0) ;;
            set_name spike ("Edge_Spike_" ++ str_of_nat i)%string ;;
            set_rotation_z spike (V1.decoration_angle i) ;;
            materials_append spike (materials "obsidian") ;;
            ret (decorations ++ [spike]))
          {| objects := objs; active := act; selected := sel;
             rng_seq := sq; rng_pos := p |}))
    = map (fun k => ((fresh objs + k)%nat, ("Edge_Spike_" ++ str_of_nat (s + k))%string))
          (seq 0 n).
Proof.
  induction n as [ | n IH ]; intros s acc objs act sel sq p.
  - reflexivity.
  - cbn [seq for_in]. rewrite bind_prepend.
    rewrite (edge_decoration_run K materials s acc objs act sel sq p).
    cbv zeta. cbn [value state emitted prepend].
    unfold Layout.names_set. rewrite flat_map_app. fold Layout.names_set.
    rewrite IH. rewrite fresh_snoc by reflexivity.
    cbn [flat_map app map]. rewrite !Nat.add_0_r.
    f_equal. rewrite <- seq_shift, map_map.
    apply map_ext. intros k. f_equal; [ lia | ].
    f_equal. f_equal. lia.
Qed.

(** X13: [create_edge_decorations] of the first script adds twenty-four
    cones and touches nothing else; for spike [i] it asks for the name
    [Edge_Spike_i], which the host may alter to keep names unique; the
    spike stands at planar distance 7.2 from the centre, is turned about
    the vertical by its own polar angle [i / 24] of a turn, and spike
    [i + 12] stands opposite spike [i]. *)
Theorem edge_decorations_ring (K : kernel) (materials : string -> material)
    (w : world) (i : nat) :
  (i < 24)%nat ->
  let run := V1.create_edge_decorations K materials w in
  let pos := V1.decoration_position i in
  List.length (objects (state run)) = (List.length (objects w) + 24)%nat
  /\ firstn (List.length (objects w)) (objects (state run)) = objects w
  /\ (exists spike : object,
        nth_error (objects (state run)) (List.length (objects w) + i) = Some spike
        /\ nth_error (value run) i = Some (oid spike)
        /\ nth_error (Layout.names_set (emitted run)) i
           = Some (oid spike, ("Edge_Spike_" ++ str_of_nat i)%string)
        /\ location spike = (fst pos, snd pos, 0.2)
        /\ rotation_euler spike = (0, 0, INR i / 24 * PI * 2)
        /\ option_map topo (data spike) = Some (Prim (Cone (Some 4%nat) 0.15 0 0.4)))
  /\ List.length (Layout.names_set (emitted run)) = 24%nat
  /\ planar_norm (fst pos) (snd pos) = 7.2
  /\ V1.decoration_position (i + 12) = (- fst pos, - snd pos).
Proof.
  intros Hi. destruct w as [objs act sel sq p]. cbn [objects]. cbv zeta.
  unfold V1.create_edge_decorations.
  assert (Hnames := edge_decoration_names K materials 24 0 [] objs act sel sq p).
  set (mk := fun (_ : nat -> R) (h : handle) (_ : nat) (k : nat) =>
    with_materials [materials "obsidian"]
      (placed K h (Cone (Some 4%nat) 0.15 0 0.4)
         (fst (V1.decoration_position k), snd (V1.decoration_position k), 0.2)
         (0, 0, V1.decoration_angle k))).
  set (ev := fun (_ : nat -> R) (h : handle) (_ : nat) (k : nat) =>
    [EvPrimitiveAdd (Cone (Some 4%nat) 0.15 0 0.4)
       (fst (V1.decoration_position k), snd (V1.decoration_position k), 0.2) (0, 0, 0);
     EvSetName h ("Edge_Spike_" ++ str_of_nat k)%string;
     EvMaterialsAppend h (materials "obsidian")]).
  unfold range in *.
  match goal with
  | |- context [for_in _ _ ?body _] =>
    destruct (for_in_spawn body mk ev 0 (fun _ _ _ _ => eq_refl)
                (fun acc' k objs' act' sel' sq' pos' =>
                   edge_decoration_run K materials k acc' objs' act' sel' sq' pos')
                (seq 0 24) [] objs act sel sq p)
      as [Hobjs [Hval _]]
  end.
  rewrite Hobjs, Hval, Hnames.
  split; [ rewrite length_app, spawned_length; reflexivity | ].
  split; [ apply firstn_tail | ].
  split.
  { rewrite nth_error_tail. cbn [app].
    rewrite nth_error_map, (spawned_nth (mk sq) 0 24 0 (fresh objs) p i Hi).
    cbn [option_map Nat.add].
    eexists. split; [ reflexivity | ]. split; [ reflexivity | ].
    split.
    { rewrite nth_error_map, nth_error_seq.
      assert (Hlt : (i <? 24)%nat = true) by (apply Nat.ltb_lt; exact Hi).
      rewrite Hlt. reflexivity. }
    unfold mk. cbn [with_materials placed location data
                    rotation_euler option_map topo].
    repeat split. }
  split; [ rewrite length_map, length_seq; reflexivity | ].
  split.
  { unfold V1.decoration_position. cbv zeta. cbn [fst snd].
    rewrite planar_norm_polar'; unfold V1.PLATFORM_SIZE; lra. }
  unfold V1.decoration_position, V1.decoration_angle. cbv zeta. cbn [fst snd].
  rewrite plus_INR.
  replace ((INR i + INR 12) / 24 * PI * 2) with (INR i / 24 * PI * 2 + PI)
    by (simpl; lra).
  rewrite neg_cos, neg_sin. f_equal; ring.
Qed.

(** The eighth spike. *)
Lemma edge_decorations_ring_witness :
  (7 < 24)%nat
  /\ List.length
       (Layout.names_set
          (emitted (V1.create_edge_decorations Example.kernel0 Example.materials0
                      (Example.world0 0))))
     = 24%nat.
Proof.
  assert (H : (7 < 24)%nat) by (apply Nat.ltb_lt; reflexivity).
  split; [ exact H | ].
  exact (proj1 (proj2 (proj2 (proj2
           (edge_decorations_ring Example.kernel0 Example.materials0
              (Example.world0 0) 7 H))))).
Defined.

(** The hexagonal ring of V4 for a key [mat] the dict has. *)
Lemma v4_hex_ring_run (K : kernel) (radius thickness height : R) (mat : string)
    (m : material) (w : world) :
  V4.materials_get mat = Some m ->
  let h := fresh (objects w) in
  let outer := placed K h (Cylinder (Some 6%nat) radius height)
                 (0, 0, height / 2) (0, 0, PI / 6) in
  let inner := placed K (S h)
                 (Cylinder (Some 6%nat) (radius - thickness) (height + 0.08))
                 (0, 0, height / 2) (0, 0, PI / 6) in
  V4.hex_ring K radius thickness height mat w
  = {| value := inr h;
       state := {| objects := objects w ++
                     [carved K outer inner
                        (Prim (Cylinder (Some 6%nat) radius height))
                        (Prim (Cylinder (Some 6%nat) (radius - thickness) (height + 0.08)))
                        m];
                   active := Some h; selected := [];
                   rng_seq := rng_seq w; rng_pos := rng_pos w |};
       emitted :=
         [ EvPrimitiveAdd (Cylinder (Some 6%nat) radius height)
             (0, 0, height / 2) (0, 0, 0);
           EvPrimitiveAdd (Cylinder (Some 6%nat) (radius - thickness) (height + 0.08))
             (0, 0, height / 2) (0, 0, 0);
           EvModifierNew h "Boolean" (BOOLEAN_DIFFERENCE (S h));
           EvModifierApply h "Boolean";
           EvObjectsRemove (S h);
           EvMaterialsAppend h m ] |}.
Proof.
  intros Hm.
  destruct w as [objs act sel sq pos].
  cbn [objects rng_seq rng_pos]. cbv zeta.
  unfold V4.hex_ring. rewrite Hm.
  run_builder objs.
  reflexivity.
Qed.

(** The same ring for a key the dict lacks. *)
Lemma v4_hex_ring_key_error (K : kernel) (radius thickness height : R) (mat : string)
    (w : world) :
  V4.materials_get mat = None ->
  let h := fresh (objects w) in
  let outer := placed K h (Cylinder (Some 6%nat) radius height)
                 (0, 0, height / 2) (0, 0, PI / 6) in
  let inner := placed K (S h)
                 (Cylinder (Some 6%nat) (radius - thickness) (height + 0.08))
                 (0, 0, height / 2) (0, 0, PI / 6) in
  V4.hex_ring K radius thickness height mat w
  = {| value := inl (KeyError mat);
       state := {| objects := objects w ++
                     [with_materials []
                        (carved K outer inner
                           (Prim (Cylinder (Some 6%nat) radius height))
                           (Prim (Cylinder (Some 6%nat) (radius - thickness)
                                    (height + 0.08)))
                           (Example.materials0 mat))];
                   active := Some h; selected := [];
                   rng_seq := rng_seq w; rng_pos := rng_pos w |};
       emitted :=
         [ EvPrimitiveAdd (Cylinder (Some 6%nat) radius height)
             (0, 0, height / 2) (0, 0, 0);
           EvPrimitiveAdd (Cylinder (Some 6%nat) (radius - thickness) (height + 0.08))
             (0, 0, height / 2) (0, 0, 0);
           EvModifierNew h "Boolean" (BOOLEAN_DIFFERENCE (S h));
           EvModifierApply h "Boolean";
           EvObjectsRemove (S h) ] |}.
Proof.
  intros Hm.
  destruct w as [objs act sel sq pos].
  cbn [objects rng_seq rng_pos]. cbv zeta.
  unfold V4.hex_ring. rewrite Hm.
  run_builder objs.
  reflexivity.
Qed.

Lemma v3_circle_ring_run (K : kernel) (materials : string -> material)
    (r_inner r_outer height : R) (w : world) :
  let h := fresh (objects w) in
  let outer := placed K h (Cylinder None r_outer height)
                 (0, 0, height / 2) (0, 0, 0) in
  let inner := placed K (S h) (Cylinder None r_inner (height + 0.05))
                 (0, 0, height / 2) (0, 0, 0) in
  V3.create_circle_ring K materials r_inner r_outer height w
  = {| value := h;
       state := {| objects := objects w ++
                     [carved K outer inner
                        (Prim (Cylinder None r_outer height))
                        (Prim (Cylinder None r_inner (height + 0.05)))
                        (materials "ritual")];
                   active := Some h; selected := [];
                   rng_seq := rng_seq w; rng_pos := rng_pos w |};
       emitted :=
         [ EvPrimitiveAdd (Cylinder None r_outer height)
             (0, 0, height / 2) (0, 0, 0);
           EvPrimitiveAdd (Cylinder None r_inner (height + 0.05))
             (0, 0, height / 2) (0, 0, 0);
           EvModifierNew h "Boolean" (BOOLEAN_DIFFERENCE (S h));
           EvModifierApply h "Boolean";
           EvObjectsRemove (S h);
           EvMaterialsAppend h (materials "ritual") ] |}.
Proof.
  destruct w as [objs act sel sq pos].
  cbn [objects rng_seq rng_pos]. cbv zeta.
  unfold V3.create_circle_ring.
  run_builder objs.
  reflexivity.
Qed.

Lemma v1_ritual_ring_run (K : kernel) (materials : string -> material)
    (radius_inner radius_outer height : R) (segments : nat) (w : world) :
  let h := fresh (objects w) in
  let outer := placed K h (Cylinder (Some segments) radius_outer height)
                 (0, 0, height / 2) (0, 0, 0) in
  let inner := placed K (S h) (Cylinder (Some segments) radius_inner (height + 0.1))
                 (0, 0, height / 2) (0, 0, 0) in
  V1.create_ritual_ring K materials radius_inner radius_outer height segments w
  = {| value := h;
       state := {| objects := objects w ++
                     [carved K outer inner
                        (Prim (Cylinder (Some segments) radius_outer height))
                        (Prim (Cylinder (Some segments) radius_inner (height + 0.1)))
                        (materials "ritual")];
                   active := Some h; selected := [];
                   rng_seq := rng_seq w; rng_pos := rng_pos w |};
       emitted :=
         [ EvPrimitiveAdd (Cylinder (Some segments) radius_outer height)
             (0, 0, height / 2) (0, 0, 0);
           EvPrimitiveAdd (Cylinder (Some segments) radius_inner (height + 0.1))
             (0, 0, height / 2) (0, 0, 0);
           EvModifierNew h "Boolean" (BOOLEAN_DIFFERENCE (S h));
           EvModifierApply h "Boolean";
           EvObjectsRemove (S h);
           EvMaterialsAppend h (materials "ritual") ] |}.
Proof.
  destruct w as [objs act sel sq pos].
  cbn [objects rng_seq rng_pos]. cbv zeta.
  unfold V1.create_ritual_ring.
  run_builder objs.
  reflexivity.
Qed.

(** X14: the ring builders [hex_ring] of V4, for a key [mat] its dict of
    materials has, [create_circle_ring] of V3 and [create_ritual_ring] of
    the first script change the scene in one way only: they append the
    carved ring, which is the object they return and the active object
    afterwards, and they leave nothing selected.  Objects already in the
    scene and the state of the random generator are left as they were,
    and the ring keeps no modifier on its stack and has exactly one
    material.  The inner cylinders are deeper than the outer ones by
    0.08, 0.05 and 0.1.  For a key the dict of V4 lacks, [hex_ring]
    raises [KeyError] after five requests: the carved ring is in the
    scene, without a material. *)
Theorem ring_builders_only_append (K : kernel) (materials : string -> material)
    (outerRadius thickness height : R) (segments : nat) (mat : string)
    (m : material) (w : world) :
  V4.materials_get mat = Some m ->
  let shape := fun (s : world) (evs : list event) (h : handle)
                   (outer inner : primitive) (paint : material) =>
    exists ring : object,
      s = {| objects := objects w ++ [ring]; active := Some h; selected := [];
             rng_seq := rng_seq w; rng_pos := rng_pos w |}
      /\ oid ring = h
      /\ h = fresh (objects w)
      /\ modifiers ring = []
      /\ Host.materials ring = [paint]
      /\ option_map topo (data ring) = Some (Difference (Prim outer) (Prim inner))
      /\ List.length evs = 6%nat in
  let r4 := V4.hex_ring K outerRadius thickness height mat w in
  let r3 := V3.create_circle_ring K materials (outerRadius - thickness) outerRadius
              height w in
  let r1 := V1.create_ritual_ring K materials (outerRadius - thickness) outerRadius
              height segments w in
  (value r4 = inr (fresh (objects w))
   /\ shape (state r4) (emitted r4) (fresh (objects w))
        (Cylinder (Some 6%nat) outerRadius height)
        (Cylinder (Some 6%nat) (outerRadius - thickness) (height + 0.08)) m)
  /\ shape (state r3) (emitted r3) (value r3)
       (Cylinder None outerRadius height)
       (Cylinder None (outerRadius - thickness) (height + 0.05)) (materials "ritual")
  /\ shape (state r1) (emitted r1) (value r1)
       (Cylinder (Some segments) outerRadius height)
       (Cylinder (Some segments) (outerRadius - thickness) (height + 0.1))
       (materials "ritual")
  /\ (forall key : string, V4.materials_get key = None ->
      let failed := V4.hex_ring K outerRadius thickness height key w in
      value failed = inl (KeyError key)
      /\ List.length (emitted failed) = 5%nat
      /\ exists ring : object,
           objects (state failed) = objects w ++ [ring]
           /\ Host.materials ring = []
           /\ option_map topo (data ring)
              = Some (Difference (Prim (Cylinder (Some 6%nat) outerRadius height))
                        (Prim (Cylinder (Some 6%nat) (outerRadius - thickness)
                                 (height + 0.08))))).
Proof.
  intros Hm. cbv zeta.
  rewrite (v4_hex_ring_run K outerRadius thickness height mat m w Hm),
    v3_circle_ring_run, v1_ritual_ring_run. cbv zeta.
  cbn [value state emitted].
  split; [ split; [ reflexivity | ] | split; [ | split ] ];
    try (eexists; split; [ reflexivity | repeat split ]).
  intros key Hkey.
  rewrite (v4_hex_ring_key_error K outerRadius thickness height key w Hkey).
  cbv zeta. cbn [value state emitted objects].
  split; [ reflexivity | ]. split; [ reflexivity | ].
  eexists. split; [ reflexivity | ]. split; reflexivity.
Qed.

(** The outer ring of the build section of V4, on an empty scene. *)
Lemma ring_builders_only_append_witness :
  V4.materials_get "ritual" = Some (V4.materials "ritual")
  /\ value (V4.hex_ring Example.kernel0 6.0 0.4 0.025 "ritual" (Example.world0 0))
     = inr (fresh (objects (Example.world0 0))).
Proof.
  assert (H : V4.materials_get "ritual" = Some (V4.materials "ritual")) by reflexivity.
  split; [ exact H | ].
  exact (proj1 (proj1
           (ring_builders_only_append Example.kernel0 Example.materials0
              6.0 0.4 0.025 6 "ritual" (V4.materials "ritual") (Example.world0 0) H))).
Defined.

Lemma index_first (x : string) (pre rest : list string) :
  ~ In x pre -> Convert.index x (pre ++ x :: rest) = Some (List.length pre).
Proof.
  induction pre as [ | y pre IH ]; intros Hpre; cbn [Convert.index app List.length].
  - rewrite String.eqb_refl. reflexivity.
  - destruct (String.eqb_spec y x) as [Heq | Hne].
    + exfalso. apply Hpre. left. exact Heq.
    + rewrite IH; [ reflexivity | ]. intros Hin. apply Hpre. right. exact Hin.
Qed.

Lemma index_some (x : string) (l : list string) (k : nat) :
  Convert.index x l = Some k ->
  exists pre rest, l = pre ++ x :: rest /\ ~ In x pre /\ List.length pre = k.
Proof.
  revert k. induction l as [ | y l IH ]; intros k Hk; cbn [Convert.index] in Hk.
  - discriminate Hk.
  - destruct (String.eqb_spec y x) as [Heq | Hne].
    + injection Hk as <-. exists [], l. subst y. repeat split. intros [].
    + destruct (Convert.index x l) as [k' | ] eqn:Hl; [ | discriminate Hk ].
      injection Hk as <-.
      destruct (IH k' eq_refl) as [pre [rest [-> [Hpre Hlen]]]].
      exists (y :: pre), rest. repeat split.
      * intros [Hin | Hin]; [ exact (Hne Hin) | exact (Hpre Hin) ].
      * cbn [List.length]. rewrite Hlen. reflexivity.
Qed.

Lemma index_none (x : string) (l : list string) :
  Convert.index x l = None -> ~ In x l.
Proof.
  induction l as [ | y l IH ]; intros Hn; cbn [Convert.index] in Hn.
  - intros [].
  - destruct (String.eqb_spec y x) as [Heq | Hne]; [ discriminate Hn | ].
    destruct (Convert.index x l) as [k' | ] eqn:Hl; [ discriminate Hn | ].
    intros [Hin | Hin]; [ exact (Hne Hin) | exact (IH eq_refl Hin) ].
Qed.

Lemma skipn_past (pre rest : list string) (x : string) :
  skipn (List.length pre + 1) (pre ++ x :: rest) = rest.
Proof.
  induction pre as [ | y pre IH ]; [ reflexivity | exact IH ].
Qed.

Lemma from_end_last2 (pre : list string) (a b : string) :
  Convert.from_end (pre ++ [a; b]) 2 = Some a
  /\ Convert.from_end (pre ++ [a; b]) 1 = Some b.
Proof.
  unfold Convert.from_end. rewrite length_app. cbn [List.length].
  replace (List.length pre + 2 <? 2)%nat with false
    by (symmetry; apply Nat.ltb_ge; lia).
  replace (List.length pre + 2 <? 1)%nat with false
    by (symmetry; apply Nat.ltb_ge; lia).
  replace (List.length pre + 2 - 2)%nat with (List.length pre + 0)%nat by lia.
  replace (List.length pre + 2 - 1)%nat with (List.length pre + 1)%nat by lia.
  rewrite !nth_error_app2 by lia.
  replace (List.length pre + 0 - List.length pre)%nat with 0%nat by lia.
  replace (List.length pre + 1 - List.length pre)%nat with 1%nat by lia.
  split; reflexivity.
Qed.

(** The four statements both scripts end with, on a host that may refuse
    an operator call. *)
Lemma run_script (accepts : Convert.request -> bool) (i o fmt text : string)
    (anim skins : bool) (morph : option bool) :
  let reset := Convert.ReadFactorySettings true in
  let import := Convert.ImportFbx i in
  let export := Convert.ExportGltf o fmt anim skins morph in
  Convert.run accepts [reset; import; export; Convert.Print text]
  = if accepts reset then
      if accepts import then
        if accepts export then
          ([reset; import; export; Convert.Print text], Convert.Done)
        else ([reset; import; export], Convert.RuntimeError)
      else ([reset; import], Convert.RuntimeError)
    else ([reset], Convert.RuntimeError).
Proof.
  cbv zeta. cbn [Convert.run].
  destruct (accepts (Convert.ReadFactorySettings true)); [ | reflexivity ].
  destruct (accepts (Convert.ImportFbx i)); [ | reflexivity ].
  destruct (accepts (Convert.ExportGltf o fmt anim skins morph)); reflexivity.
Qed.

Lemma main_converts_of_prefix (accepts : Convert.request -> bool)
    (pre rest : list string) (input_path output_path : string) :
  ~ In "--" pre ->
  (4 <= List.length (pre ++ "--" :: input_path :: output_path :: rest))%nat ->
  Convert.main accepts (pre ++ "--" :: input_path :: output_path :: rest)
  = Convert.convert_fbx_to_glb accepts input_path output_path.
Proof.
  intros Hpre Hlen. unfold Convert.main.
  replace (List.length (pre ++ "--" :: input_path :: output_path :: rest) <? 4)%nat
    with false by (symmetry; apply Nat.ltb_ge; exact Hlen).
  rewrite (index_first "--" pre _ Hpre). cbv zeta.
  rewrite skipn_past. reflexivity.
Qed.

Lemma assets_script_of_suffix (accepts : Convert.request -> bool)
    (l : list string) (a b : string) :
  Convert.assets_script accepts (l ++ [a; b])
  = Convert.run accepts
      [ Convert.ReadFactorySettings true; Convert.ImportFbx a;
        Convert.ExportGltf b "GLB" true true (Some true);
        Convert.Print ("Converted " ++ a ++ " to " ++ b)%string ].
Proof.
  unfold Convert.assets_script.
  destruct (from_end_last2 l a b) as [-> ->]. reflexivity.
Qed.

(** X15: when the command line has at least four words, the client
    converter takes the two words after the FIRST [--] as input and output
    path; the words before [--] and any word after the output path are
    ignored.  On a host that carries out its three operator calls it
    sends, in this order, the scene reset, the FBX import of the input
    and the GLB export to the output with animations and skins on, and
    then prints the confirmation.  An operator call the host refuses (an
    input that is missing or is no FBX file, an output it cannot write)
    ends the run there with [RuntimeError]: after a refused import
    nothing is exported, and after any refusal no confirmation is
    printed. *)
Theorem main_converts_after_separator (accepts : Convert.request -> bool)
    (pre rest : list string) (input_path output_path : string) :
  ~ In "--" pre ->
  (4 <= List.length (pre ++ "--" :: input_path :: output_path :: rest))%nat ->
  let argv := pre ++ "--" :: input_path :: output_path :: rest in
  let reset := Convert.ReadFactorySettings true in
  let import := Convert.ImportFbx input_path in
  let export := Convert.ExportGltf output_path "GLB" true true None in
  let confirmation :=
    Convert.Print ("Converted: " ++ input_path ++ " -> " ++ output_path)%string in
  (accepts reset = true -> accepts import = true -> accepts export = true ->
   Convert.main accepts argv = ([reset; import; export; confirmation], Convert.Done))
  /\ (accepts reset = true -> accepts import = true -> accepts export = false ->
      Convert.main accepts argv = ([reset; import; export], Convert.RuntimeError))
  /\ (accepts reset = true -> accepts import = false ->
      Convert.main accepts argv = ([reset; import], Convert.RuntimeError))
  /\ (accepts reset = false ->
      Convert.main accepts argv = ([reset], Convert.RuntimeError)).
Proof.
  intros Hpre Hlen. cbv zeta.
  rewrite (main_converts_of_prefix accepts pre rest input_path output_path Hpre Hlen).
  unfold Convert.convert_fbx_to_glb.
  rewrite (run_script accepts input_path output_path "GLB" _ true true None).
  cbv zeta.
  split; [ intros -> -> ->; reflexivity | ].
  split; [ intros -> -> ->; reflexivity | ].
  split; [ intros -> ->; reflexivity | intros ->; reflexivity ].
Qed.

(** The command line the usage message shows, on a host that carries out
    every call and on one that has no file [input.fbx]. *)
Lemma main_converts_after_separator_witness :
  let argv := ["blender"; "--background"; "--python"; "convert_fbx_to_glb.py";
               "--"; "input.fbx"; "output.glb"] in
  Convert.main Convert.willing argv
  = ([ Convert.ReadFactorySettings true;
       Convert.ImportFbx "input.fbx";
       Convert.ExportGltf "output.glb" "GLB" true true None;
       Convert.Print "Converted: input.fbx -> output.glb" ],
     Convert.Done)
  /\ Convert.main (Convert.lacking "input.fbx") argv
     = ([ Convert.ReadFactorySettings true; Convert.ImportFbx "input.fbx" ],
        Convert.RuntimeError).
Proof.
  assert (Hpre : ~ In "--"%string
                   ["blender"; "--background"; "--python"; "convert_fbx_to_glb.py"]%string).
  { intros H. repeat (destruct H as [H | H]; [ discriminate H | ]). exact H. }
  assert (Hlen : (4 <= List.length
                         ["blender"; "--background"; "--python"; "convert_fbx_to_glb.py";
                          "--"; "input.fbx"; "output.glb"]%string)%nat)
    by (simpl; lia).
  split.
  - exact (proj1 (main_converts_after_separator Convert.willing
             ["blender"; "--background"; "--python"; "convert_fbx_to_glb.py"] []
             "input.fbx" "output.glb" Hpre Hlen) eq_refl eq_refl eq_refl).
  - exact (proj1 (proj2 (proj2 (main_converts_after_separator
             (Convert.lacking "input.fbx")
             ["blender"; "--background"; "--python"; "convert_fbx_to_glb.py"] []
             "input.fbx" "output.glb" Hpre Hlen))) eq_refl eq_refl).
Defined.

(** X16: every run of the client converter ends in exactly one of five
    ways, and each tells what the command line and the host were.  With
    fewer than four words it prints the usage line and exits with code 1;
    with four or more words but no [--] the call of [index] raises
    [ValueError], and with fewer than two words after the first [--] the
    subscript raises [IndexError]; in these three cases no request
    reaches the host: nothing is reset, imported or exported.  With two
    words after the first [--] it starts the conversion: it ends normally
    when the host carries out the reset, the import and the export, all
    three sent and confirmed, and with [RuntimeError] at the first call
    the host refuses, the calls up to that one sent and nothing
    printed. *)
Theorem main_outcomes (accepts : Convert.request -> bool) (argv : list string) :
  let calls := fun (input_path output_path : string) =>
    [ Convert.ReadFactorySettings true; Convert.ImportFbx input_path;
      Convert.ExportGltf output_path "GLB" true true None ] in
  match snd (Convert.main accepts argv) with
  | Convert.Done =>
      (4 <= List.length argv)%nat
      /\ exists pre input_path output_path rest,
           argv = pre ++ "--" :: input_path :: output_path :: rest
           /\ ~ In "--" pre
           /\ forallb accepts (calls input_path output_path) = true
           /\ fst (Convert.main accepts argv)
              = calls input_path output_path
                ++ [Convert.Print
                      ("Converted: " ++ input_path ++ " -> " ++ output_path)%string]
  | Convert.RuntimeError =>
      (4 <= List.length argv)%nat
      /\ exists pre input_path output_path rest,
           argv = pre ++ "--" :: input_path :: output_path :: rest
           /\ ~ In "--" pre
           /\ exists (n : nat) (refused : Convert.request),
                (n < 3)%nat
                /\ nth_error (calls input_path output_path) n = Some refused
                /\ accepts refused = false
                /\ forallb accepts (firstn n (calls input_path output_path)) = true
                /\ fst (Convert.main accepts argv)
                   = firstn (S n) (calls input_path output_path)
  | Convert.SystemExit code =>
      code = 1%Z /\ (List.length argv < 4)%nat
      /\ fst (Convert.main accepts argv) = [Convert.Print Convert.usage]
  | Convert.ValueError =>
      (4 <= List.length argv)%nat /\ ~ In "--" argv
      /\ fst (Convert.main accepts argv) = []
  | Convert.IndexError =>
      (4 <= List.length argv)%nat
      /\ (exists pre rest, argv = pre ++ "--" :: rest /\ ~ In "--" pre
                           /\ (List.length rest < 2)%nat)
      /\ fst (Convert.main accepts argv) = []
  end.
Proof.
  cbv zeta. unfold Convert.main.
  destruct (Nat.ltb_spec (List.length argv) 4) as [Hlt | Hge].
  { cbn [fst snd]. repeat split. exact Hlt. }
  destruct (Convert.index "--" argv) as [k | ] eqn:Hk.
  - destruct (index_some "--" argv k Hk) as [pre [rest [Hargv [Hpre Hlen]]]].
    subst argv k. cbv zeta. rewrite skipn_past.
    destruct rest as [ | input_path [ | output_path rest ] ]; cbn [nth_error fst snd].
    + split; [ exact Hge | ]. split; [ | reflexivity ].
      exists pre, []. repeat split; [ exact Hpre | cbn; lia ].
    + split; [ exact Hge | ]. split; [ | reflexivity ].
      exists pre, [input_path]. repeat split; [ exact Hpre | cbn; lia ].
    + unfold Convert.convert_fbx_to_glb.
      rewrite (run_script accepts input_path output_path "GLB" _ true true None).
      cbv zeta.
      destruct (accepts (Convert.ReadFactorySettings true)) eqn:Hreset;
        [ destruct (accepts (Convert.ImportFbx input_path)) eqn:Himport;
          [ destruct (accepts (Convert.ExportGltf output_path "GLB" true true None))
              eqn:Hexport | ] | ];
        cbn [fst snd]; (split; [ exact Hge | ]);
        exists pre, input_path, output_path, rest;
        (split; [ reflexivity | ]); (split; [ exact Hpre | ]).
      * cbn [forallb]. rewrite Hreset, Himport, Hexport. split; reflexivity.
      * exists 2%nat, (Convert.ExportGltf output_path "GLB" true true None).
        cbn [nth_error firstn forallb]. rewrite Hreset, Himport.
        repeat split; [ lia | exact Hexport ].
      * exists 1%nat, (Convert.ImportFbx input_path).
        cbn [nth_error firstn forallb]. rewrite Hreset.
        repeat split; [ lia | exact Himport ].
      * exists 0%nat, (Convert.ReadFactorySettings true).
        cbn [nth_error firstn forallb].
        repeat split; [ lia | exact Hreset ].
  - cbn [fst snd]. split; [ exact Hge | ]. split; [ | reflexivity ].
    exact (index_none "--" argv Hk).
Qed.

(** X17: the converter under [public/assets] has no usage guard and does
    not look for [--]: it takes the last two words of the command line,
    and exports with morph targets on.  On a command line that ends with
    [-- input output] both converters run the same calls on [input] and
    [output], but for the morph option and the wording of the
    confirmation; with one more word [extra] at the end the client
    converter still converts [input] to [output], while the assets
    converter imports [output] and writes to [extra].  When the host
    carries out the reset and refuses the import of [input], both end
    with [RuntimeError] after these two calls; when it carries out every
    call, both end normally after the reset, the import and the export.
    On a command line of fewer than two words the assets converter raises
    [IndexError] before any request. *)
Theorem converters_agree_without_trailing_words (accepts : Convert.request -> bool)
    (pre : list string) (input_path output_path extra : string) :
  ~ In "--" pre ->
  (1 <= List.length pre)%nat ->
  let export := fun (out : string) (morph : option bool) =>
    Convert.ExportGltf out "GLB" true true morph in
  let calls := fun (i o : string) (morph : option bool) (text : string) =>
    Convert.run accepts
      [Convert.ReadFactorySettings true; Convert.ImportFbx i; export o morph;
       Convert.Print text] in
  let ends := pre ++ ["--"; input_path; output_path] in
  let trails := pre ++ ["--"; input_path; output_path; extra] in
  (Convert.main accepts ends
   = calls input_path output_path None
       ("Converted: " ++ input_path ++ " -> " ++ output_path)%string
   /\ Convert.assets_script accepts ends
      = calls input_path output_path (Some true)
          ("Converted " ++ input_path ++ " to " ++ output_path)%string)
  /\ (Convert.main accepts trails
      = calls input_path output_path None
          ("Converted: " ++ input_path ++ " -> " ++ output_path)%string
      /\ Convert.assets_script accepts trails
         = calls output_path extra (Some true)
             ("Converted " ++ output_path ++ " to " ++ extra)%string)
  /\ (accepts (Convert.ReadFactorySettings true) = true ->
      accepts (Convert.ImportFbx input_path) = false ->
      Convert.main accepts ends
      = ([Convert.ReadFactorySettings true; Convert.ImportFbx input_path],
         Convert.RuntimeError)
      /\ Convert.assets_script accepts ends
         = ([Convert.ReadFactorySettings true; Convert.ImportFbx input_path],
            Convert.RuntimeError))
  /\ ((forall op : Convert.request, accepts op = true) ->
      firstn 3 (fst (Convert.main accepts ends))
      = [Convert.ReadFactorySettings true; Convert.ImportFbx input_path;
         export output_path None]
      /\ firstn 3 (fst (Convert.assets_script accepts ends))
         = [Convert.ReadFactorySettings true; Convert.ImportFbx input_path;
            export output_path (Some true)]
      /\ snd (Convert.main accepts ends) = Convert.Done
      /\ snd (Convert.assets_script accepts ends) = Convert.Done)
  /\ (forall argv, (List.length argv < 2)%nat ->
        Convert.assets_script accepts argv = ([], Convert.IndexError)).
Proof.
  intros Hpre Hlen. cbv zeta.
  rewrite (main_converts_of_prefix accepts pre [] input_path output_path Hpre)
    by (rewrite length_app; cbn [List.length]; lia).
  rewrite (main_converts_of_prefix accepts pre [extra] input_path output_path Hpre)
    by (rewrite length_app; cbn [List.length]; lia).
  replace (pre ++ ["--"; input_path; output_path])
    with ((pre ++ ["--"]) ++ [input_path; output_path])
    by (rewrite <- app_assoc; reflexivity).
  replace (pre ++ ["--"; input_path; output_path; extra])
    with ((pre ++ ["--"; input_path]) ++ [output_path; extra])
    by (rewrite <- app_assoc; reflexivity).
  rewrite !assets_script_of_suffix.
  unfold Convert.convert_fbx_to_glb.
  split; [ split; reflexivity | ].
  split; [ split; reflexivity | ].
  rewrite !run_script. cbv zeta.
  split.
  { intros -> ->. split; reflexivity. }
  split.
  { intros Hall. rewrite !Hall. cbn [fst snd firstn]. repeat split. }
  intros argv Hshort. unfold Convert.assets_script, Convert.from_end.
  destruct argv as [ | a [ | b argv ] ]; [ reflexivity | reflexivity | ].
  cbn [List.length] in Hshort. lia.
Qed.

(** A run from the shell with the separator in place, on a host that has
    no file [a.fbx]. *)
Lemma converters_agree_without_trailing_words_witness :
  let argv := ["blender"; "-b"; "-P"; "c.py"; "--"; "a.fbx"; "a.glb"] in
  Convert.main (Convert.lacking "a.fbx") argv
  = ([Convert.ReadFactorySettings true; Convert.ImportFbx "a.fbx"], Convert.RuntimeError)
  /\ Convert.assets_script (Convert.lacking "a.fbx") argv
     = ([Convert.ReadFactorySettings true; Convert.ImportFbx "a.fbx"],
        Convert.RuntimeError).
Proof.
  assert (Hpre : ~ In "--"%string ["blender"; "-b"; "-P"; "c.py"]%string).
  { intros H. repeat (destruct H as [H | H]; [ discriminate H | ]). exact H. }
  assert (Hlen : (1 <= List.length ["blender"; "-b"; "-P"; "c.py"]%string)%nat)
    by (simpl; lia).
  exact (proj1 (proj2 (proj2
           (converters_agree_without_trailing_words (Convert.lacking "a.fbx")
              ["blender"; "-b"; "-P"; "c.py"] "a.fbx" "a.glb" "x" Hpre Hlen)))
           eq_refl eq_refl).
Defined.

(** ** Floors and horns of the earlier scripts *)

Ltac run_floor :=
  match goal with
  | w : world |- _ =>
    destruct w as [objs act sel sq pos];
    unfold Layout.floor_appended; cbn [objects rng_seq rng_pos];
    run_builder objs;
    eexists; split; [ reflexivity | ];
    cbn [oid data option_map topo modifiers Host.materials rotation_euler
         scale location];
    repeat split;
    unfold top_cap, bottom_cap, vz; cbn [snd]; lra
  end.

(** X18: the floor builders of the first script, of V3 and of V4 each
    append one bevelled hexagonal prism to any scene and change nothing
    else; the bevel is evaluated and no modifier stays on the stack.  The
    prism is centred half its depth below the origin, so its top face is
    the ground plane [z = 0].  V3 and V4 build the same floor, of
    circumradius [PLATFORM_RADIUS + 0.25] and turned by [pi / 6]; the
    first script's floor has circumradius [PLATFORM_SIZE / 2 + 0.5] and
    is not turned. *)
Theorem floors_top_at_ground (K : kernel) (materials : string -> material)
    (w : world) :
  Layout.floor_appended w (V1.create_hexagonal_floor K materials w)
    0 0.1 (V1.PLATFORM_SIZE / 2 + 0.5) V1.PLATFORM_HEIGHT (materials "stone")
  /\ Layout.floor_appended w (V3.create_hex_floor K materials w)
       (PI / 6) 0.12 (V3.PLATFORM_RADIUS + 0.25) V3.PLATFORM_HEIGHT
       (materials "stone")
  /\ Layout.floor_appended w (V4.hex_floor K w)
       (PI / 6) 0.12 (V4.PLATFORM_RADIUS + 0.25) V4.PLATFORM_HEIGHT
       (V4.materials "stone").
Proof.
  split; [ | split ].
  - unfold V1.create_hexagonal_floor. run_floor.
  - unfold V3.create_hex_floor. run_floor.
  - unfold V4.hex_floor. run_floor.
Qed.

Lemma horn_run (K : kernel) (m : material) (i : nat)
    (acc : list handle) (objs : list object) (act : option handle)
    (sel : list handle) (sq : nat -> R) (p : nat) :
  let ang := INR i * (2 * PI) / 6 + PI / 6 in
  let cone := Cone (Some 8%nat) 0.1 0 0.45 in
  let loc := (cos ang * 1.1, sin ang * 1.1, 0.6) in
  (let radius := 1.1 in
   let z := 0.6 in
   let ang := INR i * (2 * PI) / 6 + PI / 6 in
   let x := cos ang * radius in
   let y := sin ang * radius in
   h <- primitive_add K (Cone (Some 8%nat) 0.1 0 0.45) (x, y, z) (0, 0, 0) ;;
   set_rotation_x h (- 0.5) ;;
   set_rotation_z h (ang + PI) ;;
   materials_append h m ;;
   ret (acc ++ [h]))
    {| objects := objs; active := act; selected := sel; rng_seq := sq; rng_pos := p |}
  = {| value := acc ++ [fresh objs];
       state := {| objects := objs ++
                     [with_materials [m]
                        (placed K (fresh objs) cone loc (- 0.5, 0, ang + PI))];
                   active := Some (fresh objs); selected := [fresh objs];
                   rng_seq := sq; rng_pos := p + 0 |};
       emitted := [EvPrimitiveAdd cone loc (0, 0, 0);
                   EvMaterialsAppend (fresh objs) m] |}.
Proof.
  cbv zeta.
  run_builder objs.
  rewrite Nat.add_0_r. reflexivity.
Qed.

(** The six horns a horn loop with material [m] appends. *)
Lemma horn_loop (K : kernel) (m : material) (w : world) (i : nat) :
  (i < 6)%nat ->
  let run :=
    for_in (range 6) [] (fun objs i =>
      let radius := 1.1 in
      let z := 0.6 in
      let ang := INR i * (2 * PI) / 6 + PI / 6 in
      let x := cos ang * radius in
      let y := sin ang * radius in
      h <- primitive_add K (Cone (Some 8%nat) 0.1 0 0.45) (x, y, z) (0, 0, 0) ;;
      set_rotation_x h (- 0.5) ;;
      set_rotation_z h (ang + PI) ;;
      materials_append h m ;;
      ret (objs ++ [h])) w in
  let ang := INR i * (2 * PI) / 6 + PI / 6 in
  List.length (objects (state run)) = (List.length (objects w) + 6)%nat
  /\ firstn (List.length (objects w)) (objects (state run)) = objects w
  /\ nth_error (objects (state run)) (List.length (objects w) + i)
     = Some (with_materials [m]
               (placed K (fresh (objects w) + i)%nat (Cone (Some 8%nat) 0.1 0 0.45)
                  (cos ang * 1.1, sin ang * 1.1, 0.6) (- 0.5, 0, ang + PI)))
  /\ nth_error (value run) i = Some (fresh (objects w) + i)%nat
  /\ value run = map (fun k => (k + fresh (objects w))%nat) (range 6).
Proof.
  intros Hi. destruct w as [objs act sel sq p]. cbn [objects]. cbv zeta.
  set (mk := fun (_ : nat -> R) (h : handle) (_ : nat) (k : nat) =>
    with_materials [m]
      (placed K h (Cone (Some 8%nat) 0.1 0 0.45)
         (cos (INR k * (2 * PI) / 6 + PI / 6) * 1.1,
          sin (INR k * (2 * PI) / 6 + PI / 6) * 1.1, 0.6)
         (- 0.5, 0, INR k * (2 * PI) / 6 + PI / 6 + PI))).
  set (ev := fun (_ : nat -> R) (h : handle) (_ : nat) (k : nat) =>
    [EvPrimitiveAdd (Cone (Some 8%nat) 0.1 0 0.45)
       (cos (INR k * (2 * PI) / 6 + PI / 6) * 1.1,
        sin (INR k * (2 * PI) / 6 + PI / 6) * 1.1, 0.6) (0, 0, 0);
     EvMaterialsAppend h m]).
  match goal with
  | |- context [for_in _ _ ?body _] =>
    destruct (for_in_spawn body mk ev 0 (fun _ _ _ _ => eq_refl)
                (fun acc' k objs' act' sel' sq' pos' =>
                   horn_run K m k acc' objs' act' sel' sq' pos')
                (range 6) [] objs act sel sq p)
      as [Hobjs [Hval _]]
  end.
  rewrite Hobjs, Hval.
  split; [ rewrite length_app, spawned_length; reflexivity | ].
  split; [ apply firstn_tail | ].
  split.
  { rewrite nth_error_tail. unfold range.
    rewrite (spawned_nth (mk sq) 0 6 0 (fresh objs) p i Hi).
    cbn [Nat.add]. reflexivity. }
  split.
  { cbn [app]. unfold range.
    rewrite nth_error_map, (spawned_nth (mk sq) 0 6 0 (fresh objs) p i Hi).
    reflexivity. }
  reflexivity.
Qed.

(** X19: [horns] of V4 and [create_demon_horns] of V3 append the same six
    cones to any scene, apart from the material dictionary they read, and
    touch nothing else.  Horn [i] stands at height 0.6 and planar distance
    1.1 from the axis, at polar angle [i / 6] of a turn plus [pi / 6]; it
    is tipped by -0.5 about [x] and turned about the vertical by its polar
    angle plus [pi], the direction from the horn to the axis; horn [i + 3]
    stands opposite horn [i]. *)
Theorem horns_face_the_axis (K : kernel) (materials : string -> material)
    (w : world) (i : nat) :
  (i < 6)%nat ->
  let r4 := V4.horns K w in
  let r3 := V3.create_demon_horns K materials w in
  let ang := fun k : nat => INR k * (2 * PI) / 6 + PI / 6 in
  List.length (objects (state r4)) = (List.length (objects w) + 6)%nat
  /\ firstn (List.length (objects w)) (objects (state r4)) = objects w
  /\ value r3 = value r4
  /\ (exists horn4 horn3 : object,
        nth_error (objects (state r4)) (List.length (objects w) + i) = Some horn4
        /\ nth_error (objects (state r3)) (List.length (objects w) + i) = Some horn3
        /\ nth_error (value r4) i = Some (oid horn4)
        /\ horn3 = with_materials [materials "metal"] horn4
        /\ Host.materials horn4 = [V4.materials "metal"]
        /\ location horn4 = (cos (ang i) * 1.1, sin (ang i) * 1.1, 0.6)
        /\ rotation_euler horn4 = (- 0.5, 0, ang i + PI)
        /\ planar_norm (vx (location horn4)) (vy (location horn4)) = 1.1
        /\ cos (vz (rotation_euler horn4)) * 1.1 = - vx (location horn4)
        /\ sin (vz (rotation_euler horn4)) * 1.1 = - vy (location horn4))
  /\ cos (ang (i + 3)%nat) = - cos (ang i)
  /\ sin (ang (i + 3)%nat) = - sin (ang i).
Proof.
  intros Hi.
  assert (Hz : 0.0 = 0) by lra.
  unfold V4.horns, V3.create_demon_horns. rewrite Hz. cbv zeta.
  destruct (horn_loop K (V4.materials "metal") w i Hi)
    as [H4len [H4old [H4nth [H4val H4all]]]].
  destruct (horn_loop K (materials "metal") w i Hi) as [_ [_ [H3nth [_ H3all]]]].
  cbv zeta in H4len, H4old, H4nth, H4val, H4all, H3nth, H3all.
  split; [ exact H4len | ].
  split; [ exact H4old | ].
  split; [ rewrite H3all, H4all; reflexivity | ].
  split.
  { eexists. eexists.
    split; [ exact H4nth | ]. split; [ exact H3nth | ].
    split; [ exact H4val | ].
    cbn [with_materials placed oid data location rotation_euler scale
         modifiers Host.materials parent vx vy vz fst snd].
    split; [ reflexivity | ]. split; [ reflexivity | ].
    split; [ reflexivity | ]. split; [ reflexivity | ].
    split; [ apply planar_norm_polar'; lra | ].
    rewrite neg_cos, neg_sin. split; ring. }
  rewrite plus_INR.
  replace ((INR i + INR 3) * (2 * PI) / 6 + PI / 6)
    with (INR i * (2 * PI) / 6 + PI / 6 + PI) by (simpl; lra).
  rewrite neg_cos, neg_sin. split; reflexivity.
Qed.

(** The fifth horn. *)
Lemma horns_face_the_axis_witness :
  (4 < 6)%nat
  /\ cos (INR (4 + 3) * (2 * PI) / 6 + PI / 6) = - cos (INR 4 * (2 * PI) / 6 + PI / 6).
Proof.
  assert (H : (4 < 6)%nat) by (apply Nat.ltb_lt; reflexivity).
  split; [ exact H | ].
  exact (proj1 (proj2 (proj2 (proj2 (proj2
           (horns_face_the_axis Example.kernel0 Example.materials0
              (Example.world0 0) 4 H)))))).
Defined.

(** ** The corner pillars of the first script *)

(** X20: the build section of the first script hands its corner pillars
    positions on the floor plane at distance [PILLAR_RADIUS] from the
    axis; every position lies on a diagonal [|x| = |y|], the next
    position is the quarter turn of the one before, and the first is
    [(r / sqrt 2, r / sqrt 2)]: the four pillars are the corners of an
    axis-parallel square, and position [i + 4] is position [i]. *)
Theorem corner_pillars_square (i : nat) :
  let x := vx (V1.corner_position i) in
  let y := vy (V1.corner_position i) in
  vz (V1.corner_position i) = 0
  /\ planar_norm x y = V1.PILLAR_RADIUS
  /\ x * x = y * y
  /\ V1.corner_position (i + 1) = (- y, x, 0)
  /\ V1.corner_position (i + 4) = V1.corner_position i
  /\ V1.corner_position 0 = (V1.PILLAR_RADIUS / sqrt 2, V1.PILLAR_RADIUS / sqrt 2, 0).
Proof.
  assert (Hstep : forall k : nat,
            V1.corner_position (k + 1)
            = (- vy (V1.corner_position k), vx (V1.corner_position k), 0)).
  { intros k. unfold V1.corner_position, vx, vy. cbv zeta. cbn [fst snd].
    rewrite plus_INR.
    replace ((INR k + INR 1) / 4 * PI * 2 + PI / 4)
      with (INR k / 4 * PI * 2 + PI / 4 + PI / 2) by (simpl; lra).
    rewrite (cos_plus (INR k / 4 * PI * 2 + PI / 4) (PI / 2)),
      (sin_plus (INR k / 4 * PI * 2 + PI / 4) (PI / 2)), cos_PI2, sin_PI2.
    f_equal. f_equal; ring. }
  assert (H0 : V1.corner_position 0
               = (V1.PILLAR_RADIUS / sqrt 2, V1.PILLAR_RADIUS / sqrt 2, 0)).
  { unfold V1.corner_position. cbv zeta.
    replace (INR 0 / 4 * PI * 2 + PI / 4) with (PI / 4) by (simpl; lra).
    rewrite cos_PI4, sin_PI4.
    assert (Hs : 0 < sqrt 2) by (apply sqrt_lt_R0; lra).
    f_equal. f_equal; field; lra. }
  assert (Hdiag : forall k : nat,
            vx (V1.corner_position k) * vx (V1.corner_position k)
            = vy (V1.corner_position k) * vy (V1.corner_position k)).
  { induction k as [ | k IH ].
    - rewrite H0. reflexivity.
    - replace (S k) with (k + 1)%nat by lia. rewrite Hstep.
      unfold vx, vy in *. cbn [fst snd] in *. lra. }
  intros x y.
  split; [ reflexivity | ].
  split.
  { unfold x, y, V1.corner_position, vx, vy. cbv zeta. cbn [fst snd].
    apply planar_norm_polar'. unfold V1.PILLAR_RADIUS. lra. }
  split; [ exact (Hdiag i) | ].
  split; [ exact (Hstep i) | ].
  split; [ | exact H0 ].
  unfold V1.corner_position. cbv zeta. rewrite plus_INR.
  replace ((INR i + INR 4) / 4 * PI * 2 + PI / 4)
    with (INR i / 4 * PI * 2 + PI / 4 + 2 * PI) by (simpl; lra).
  destruct (turn_back (INR i / 4 * PI * 2 + PI / 4)) as [-> ->]. reflexivity.
Qed.
